(** * GitLens explorer and line-hover controller: model and properties

    A shallow embedding of source files of the extension:

    - [src/views/nodes/repositoriesNode.ts]  (module [RepositoriesNode])
    - the explorer tree provider, [GitExplorer] (module [GitExplorer])
    - [src/hovers/lineHoverController.ts]: the hover providers and the
      debug-session listeners (module [LineHoverController]), the
      registration of the providers (module [LineHoverRegistration])
    - [src/extension.ts]: [migrateSettings] and
      [notifyOnNewGitLensVersion] (module [Extension])

    JavaScript objects have identity; every object the code constructs
    with [new] receives a fresh number from the allocation counter of the
    [World], and [===] on objects is equality of these numbers.  Calls
    into the host editor and the git backend are recorded in the world's
    [log], oldest first.  Every [async] method is modelled run to
    completion: one call finishes before the next one starts. *)

From Stdlib Require Import ZArith NArith List Ascii String Bool Lia.
From Stdlib Require Import Sorting.Sorted Sorting.Permutation.
From stdpp Require Import gmap strings.
Import ListNotations.

Local Open Scope string_scope.
Local Open Scope list_scope.
Local Open Scope Z_scope.

(** ** Data shared by the three components *)

(** Repository descriptor of the git backend; only the fields read by the
    modelled code. *)
Record Repository := mkRepository {
  path : string;
  index : Z;
  closed : bool;
  normalizedPath : string
}.

(** [GitUri.fromRepoPath] is a constructor of the (external) uri type. *)
Inductive GitUri := fromRepoPath (repoPath : string).

(** The two node variants [RepositoriesNode] creates.  The first argument
    is the identity of the object. *)
Inductive ExplorerNode :=
| MessageNode (id : nat) (message : string)
| RepositoryNode (id : nat) (uri : GitUri) (repo : Repository).

Definition node_id (n : ExplorerNode) : nat :=
  match n with
  | MessageNode id _ => id
  | RepositoryNode id _ _ => id
  end.

(** [c.repo]: undefined on a message node. *)
Definition node_repo (n : ExplorerNode) : option Repository :=
  match n with
  | MessageNode _ _ => None
  | RepositoryNode _ _ repo => Some repo
  end.

Definition is_RepositoryNode (n : ExplorerNode) : bool :=
  match n with
  | RepositoryNode _ _ _ => true
  | MessageNode _ _ => false
  end.

Inductive RefreshReason :=
| Command | ConfigurationChanged | RepoChanged | AutoRefreshChanged.

(** Values published on a command-visibility context key. *)
Inductive ContextValue :=
| CtxBool (b : bool)
| CtxString (s : string)
| CtxUndefined.

(** Keys of the per-workspace memento ([WorkspaceState] enum); the
    explorer uses one. *)
Inductive WorkspaceState := GitExplorerAutoRefresh.

#[global] Instance WorkspaceState_eq_dec : EqDecision WorkspaceState :=
  fun x y =>
    match x, y with
    | GitExplorerAutoRefresh, GitExplorerAutoRefresh => left eq_refl
    end.

#[global] Instance WorkspaceState_countable : Countable WorkspaceState :=
  inj_countable' (fun _ => tt) (fun _ => GitExplorerAutoRefresh)
    (fun x => match x with GitExplorerAutoRefresh => eq_refl end).

Inductive CommandContext :=
| CtxGitExplorer
| CtxGitExplorerAutoRefresh.

(** Observable calls into collaborators. *)
Inductive Effect :=
| NodeConstructed (id : nat)
| NodeRefreshed (id : nat)
| NodeDisposed (id : nat)
| SetCommandContext (key : CommandContext) (value : ContextValue)
| HandleDisposed (id : nat)
| EmitterCreated (id : nat)
| TreeViewCreated (viewId : string) (id : nat)
| VisibilitySubscribed (tree : nat) (id : nat)
| RepositoriesSubscribed (id : nat)
| WorkspaceStateUpdated (key : WorkspaceState) (value : bool)
| AutoRefreshChangedFired
| TreeDataFired (emitter : nat) (node : option nat)
| RefreshLogged (reason : RefreshReason).

(** [gitExplorer] and [explorers] settings read by the explorer. *)
Record Config := mkConfig {
  cfg_enabled : bool;
  cfg_location : string;
  cfg_autoRefresh : bool
}.

Record World := mkWorld {
  next_id : nat;
  git_repositories : list Repository;
  git_listeners : list nat;
  workspaceState : gmap WorkspaceState bool;
  config : Config;
  context_subscriptions : list nat;
  log : list Effect
}.

Inductive Exn := TypeError.

Inductive Outcome (A : Type) :=
| Ok (a : A)
| Throw (e : Exn).
Arguments Ok {A} a.
Arguments Throw {A} e.

(** State passing with exceptions; the state reached at a throw is
    kept. *)
Definition St (S A : Type) : Type := S -> Outcome A * S.

Definition ret {S A} (a : A) : St S A := fun s => (Ok a, s).

Definition bind {S A B} (m : St S A) (k : A -> St S B) : St S B :=
  fun s =>
    match m s with
    | (Ok a, s') => k a s'
    | (Throw e, s') => (Throw e, s')
    end.

Definition lift_outcome {S A} (o : Outcome A) : St S A := fun s => (o, s).

(** Reading a component of the state. *)
Definition read {S A} (f : S -> A) : St S A := fun s => (Ok (f s), s).

(** The explorer components run over the [World]. *)
Abbreviation M := (St World).

Declare Scope m_scope.
Delimit Scope m_scope with M.
Notation "'let*' x ':=' m 'in' k" := (bind m (fun x => k))
  (at level 10, x pattern, m at level 100, k at level 200) : m_scope.
Notation "m1 ';;' m2" := (bind m1 (fun _ => m2))
  (at level 100, m2 at level 200, right associativity) : m_scope.

Local Open Scope m_scope.

Definition emit (e : Effect) : M unit :=
  fun w => (Ok tt,
    mkWorld (next_id w) (git_repositories w) (git_listeners w)
            (workspaceState w) (config w) (context_subscriptions w)
            (log w ++ [e])).

(** Allocation of an object identity. *)
Definition fresh : M nat :=
  fun w => (Ok (next_id w),
    mkWorld (S (next_id w)) (git_repositories w) (git_listeners w)
            (workspaceState w) (config w) (context_subscriptions w)
            (log w)).

(** [Container.git.getRepositories()], copied into an array. *)
Definition getRepositories : M (list Repository) :=
  fun w => (Ok (git_repositories w), w).

Definition new_MessageNode (message : string) : M ExplorerNode :=
  let* id := fresh in
  emit (NodeConstructed id) ;;
  ret (MessageNode id message).

Definition new_RepositoryNode (uri : GitUri) (repo : Repository)
  : M ExplorerNode :=
  let* id := fresh in
  emit (NodeConstructed id) ;;
  ret (RepositoryNode id uri repo).

(** ** [Array.prototype.sort] with a comparator

    The sort is stable: an element is placed before the first element the
    comparator ranks strictly after it. *)
Section Sort.
Context {A : Type} (cmp : A -> A -> Z).

Fixpoint sort_insert (x : A) (l : list A) : list A :=
  match l with
  | [] => [x]
  | y :: l' => if cmp x y <=? 0 then x :: y :: l' else y :: sort_insert x l'
  end.

Fixpoint sort (l : list A) : list A :=
  match l with
  | [] => []
  | x :: l' => sort_insert x (sort l')
  end.
End Sort.

(** The comparator of both loops: [(a, b) => a.index - b.index]. *)
Definition by_index (a b : Repository) : Z := index a - index b.

(** ** RepositoriesNode *)
Module RepositoriesNode.

Record t := mk {
  self : nat;
  children : option (list ExplorerNode)
}.

Definition set_children (this : t) (cs : option (list ExplorerNode)) : t :=
  mk (self this) cs.

(** Body of the [for] loop of [getChildren]; [children] is the array
    being pushed to. *)
Fixpoint getChildren_loop (repos : list Repository)
    (children : list ExplorerNode) : M (list ExplorerNode) :=
  match repos with
  | [] => ret children
  | repo :: rest =>
      if closed repo then getChildren_loop rest children
      else
        let* n := new_RepositoryNode (fromRepoPath (path repo)) repo in
        getChildren_loop rest (children ++ [n])
  end.

Definition getChildren (this : t) : M (list ExplorerNode * t) :=
  match children this with
  | None =>
      let* repositories := getRepositories in
      if (length repositories =? 0)%nat then
        let* m := new_MessageNode "No repositories found" in
        ret ([m], this)
      else
        let* children := getChildren_loop (sort by_index repositories) [] in
        ret (children, set_children this (Some children))
  | Some cs => ret (cs, this)
  end.

(** [children.find(c => c.repo.normalizedPath === normalizedPath)];
    reading [normalizedPath] of the undefined [repo] of a message node
    throws. *)
Fixpoint find_child (np : string) (cs : list ExplorerNode)
  : Outcome (option ExplorerNode) :=
  match cs with
  | [] => Ok None
  | c :: rest =>
      match node_repo c with
      | None => Throw TypeError
      | Some repo =>
          if String.eqb (normalizedPath repo) np then Ok (Some c)
          else find_child np rest
      end
  end.

(** [children.includes(child)]: comparison of object identities. *)
Definition includes (children : list ExplorerNode) (child : ExplorerNode)
  : bool :=
  existsb (fun c => Nat.eqb (node_id c) (node_id child)) children.

(** First loop of [refresh]. *)
Fixpoint refresh_loop (old : list ExplorerNode) (repos : list Repository)
    (children : list ExplorerNode) : M (list ExplorerNode) :=
  match repos with
  | [] => ret children
  | repo :: rest =>
      let* child := lift_outcome (find_child (normalizedPath repo) old) in
      match child with
      | Some c =>
          emit (NodeRefreshed (node_id c)) ;;
          refresh_loop old rest (children ++ [c])
      | None =>
          let* n := new_RepositoryNode (fromRepoPath (path repo)) repo in
          refresh_loop old rest (children ++ [n])
      end
  end.

(** Second loop of [refresh]. *)
Fixpoint dispose_loop (old : list ExplorerNode)
    (children : list ExplorerNode) : M unit :=
  match old with
  | [] => ret tt
  | child :: rest =>
      if includes children child then dispose_loop rest children
      else
        emit (NodeDisposed (node_id child)) ;;
        dispose_loop rest children
  end.

Definition refresh (this : t) : M t :=
  match children this with
  | None => ret this
  | Some old =>
      let* repositories := getRepositories in
      if (length repositories =? 0)%nat && (length old =? 0)%nat then
        ret this
      else if (length repositories =? 0)%nat then
        let* m := new_MessageNode "No repositories found" in
        ret (set_children this (Some [m]))
      else
        let* children := refresh_loop old (sort by_index repositories) [] in
        dispose_loop old children ;;
        ret (set_children this (Some children))
  end.

(** [new RepositoriesNode(explorer)].  The handlers of the two listeners
    the constructor registers on the explorer have no effect on the
    node ([onAutoRefreshChanged] is empty, [onVisibilityChanged] logs). *)
Definition create : M t :=
  let* id := fresh in
  emit (NodeConstructed id) ;;
  ret (mk id None).

End RepositoriesNode.

(** ** GitExplorer *)
Module GitExplorer.

(** Settings a change event is asked about with [configuration.changed]. *)
Inductive Setting :=
| gitExplorer
| explorers
| defaultGravatarsStyle
| gitExplorer_enabled
| gitExplorer_location
| gitExplorer_autoRefresh.

Record ConfigurationChangeEvent := mkEvent {
  initializing : bool;
  changed : Setting -> bool
}.

(** The explorer object.  [_disposable] is [Disposable.from(tree,
    visibility subscription)]. *)
Record t := mk {
  _disposable : option (nat * nat);
  _root : option RepositoriesNode.t;
  _tree : option nat;
  _onDidChangeTreeData : nat;
  _autoRefreshDisposable : option nat
}.

Definition set_disposable (this : t) (d : option (nat * nat)) : t :=
  mk d (_root this) (_tree this) (_onDidChangeTreeData this)
     (_autoRefreshDisposable this).

Definition set_root (this : t) (r : option RepositoriesNode.t) : t :=
  mk (_disposable this) r (_tree this) (_onDidChangeTreeData this)
     (_autoRefreshDisposable this).

Definition set_tree (this : t) (tr : option nat) : t :=
  mk (_disposable this) (_root this) tr (_onDidChangeTreeData this)
     (_autoRefreshDisposable this).

Definition set_onDidChangeTreeData (this : t) (e : nat) : t :=
  mk (_disposable this) (_root this) (_tree this) e
     (_autoRefreshDisposable this).

Definition set_autoRefreshDisposable (this : t) (d : option nat) : t :=
  mk (_disposable this) (_root this) (_tree this)
     (_onDidChangeTreeData this) d.

(** *** Collaborators *)

Definition get_config : M Config := fun w => (Ok (config w), w).

Definition setCommandContext (key : CommandContext) (value : ContextValue)
  : M unit :=
  emit (SetCommandContext key value).

(** [workspaceState.get<boolean>(key, defaultValue)]. *)
Definition workspaceState_get (key : WorkspaceState) (defaultValue : bool)
  : M bool :=
  fun w => (Ok (default defaultValue (workspaceState w !! key)), w).

(** [workspaceState.update(key, value)]. *)
Definition workspaceState_update (key : WorkspaceState) (value : bool)
  : M unit :=
  fun w => (Ok tt,
    mkWorld (next_id w) (git_repositories w) (git_listeners w)
            (<[key := value]> (workspaceState w)) (config w)
            (context_subscriptions w)
            (log w ++ [WorkspaceStateUpdated key value])).

(** [Container.git.onDidChangeRepositories(listener)]: registers the
    listener with the backend and returns its handle. *)
Definition onDidChangeRepositories : M nat :=
  fun w => (Ok (next_id w),
    mkWorld (S (next_id w)) (git_repositories w)
            (git_listeners w ++ [next_id w])
            (workspaceState w) (config w) (context_subscriptions w)
            (log w ++ [RepositoriesSubscribed (next_id w)])).

(** Disposing a handle unregisters it from the backend. *)
Definition dispose (d : nat) : M unit :=
  fun w => (Ok tt,
    mkWorld (next_id w) (git_repositories w)
            (List.filter (fun l => negb (Nat.eqb l d)) (git_listeners w))
            (workspaceState w) (config w) (context_subscriptions w)
            (log w ++ [HandleDisposed d])).

(** [Container.context.subscriptions.push(d)]. *)
Definition context_subscriptions_push (d : nat) : M unit :=
  fun w => (Ok tt,
    mkWorld (next_id w) (git_repositories w) (git_listeners w)
            (workspaceState w) (config w) (context_subscriptions w ++ [d])
            (log w)).

Definition new_EventEmitter : M nat :=
  let* id := fresh in
  emit (EmitterCreated id) ;;
  ret id.

(** [window.createTreeView(viewId, ...)]. *)
Definition createTreeView (viewId : string) : M nat :=
  let* id := fresh in
  emit (TreeViewCreated viewId id) ;;
  ret id.

(** [tree.onDidChangeVisibility(listener)]. *)
Definition tree_onDidChangeVisibility (tree : nat) : M nat :=
  let* id := fresh in
  emit (VisibilitySubscribed tree id) ;;
  ret id.

(** A call whose promise is not awaited: a rejection does not reach the
    caller, which goes on with the object as it was. *)
Definition detached (this : t) (m : M t) : M t :=
  fun w =>
    match m w with
    | (Ok this', w') => (Ok this', w')
    | (Throw _, w') => (Ok this, w')
    end.

(** *** Methods *)

Definition refresh (this : t) (reason : option RefreshReason) : M t :=
  let reason := default Command reason in
  emit (RefreshLogged reason) ;;
  let* this :=
    match _root this with
    | Some root =>
        let* root' := RepositoriesNode.refresh root in
        ret (set_root this (Some root'))
    | None => ret this
    end in
  emit (TreeDataFired (_onDidChangeTreeData this) None) ;;
  ret this.









(** [enabled && workspaceEnabled]. *)
Definition and_flag (enabled : bool) (workspaceEnabled : option bool)
  : ContextValue :=
  if enabled then
    match workspaceEnabled with
    | Some v => CtxBool v
    | None => CtxUndefined
    end
  else CtxBool false.

Definition setAutoRefresh (this : t) (enabled : bool)
    (workspaceEnabled : option bool) : M t :=
  let* this :=
    match _autoRefreshDisposable this with
    | Some d =>
        dispose d ;;
        ret (set_autoRefreshDisposable this None)
    | None => ret this
    end in
  let toggled := false in
  let* (this, workspaceEnabled, toggled) :=
    if enabled then
      let* (workspaceEnabled, toggled) :=
        match workspaceEnabled with
        | None =>
            let* v := workspaceState_get GitExplorerAutoRefresh true in
            ret (v, toggled)
        | Some v =>
            workspaceState_update GitExplorerAutoRefresh v ;;
            emit AutoRefreshChangedFired ;;
            ret (v, v)
        end in
      if workspaceEnabled : bool then
        let* d := onDidChangeRepositories in
        context_subscriptions_push d ;;
        ret (set_autoRefreshDisposable this (Some d),
             Some workspaceEnabled, toggled)
      else ret (this, Some workspaceEnabled, toggled)
    else ret (this, workspaceEnabled, toggled) in
  setCommandContext CtxGitExplorerAutoRefresh
    (and_flag enabled workspaceEnabled) ;;
  if toggled : bool then detached this (refresh this (Some AutoRefreshChanged))
  else ret this.

Definition setRoot (this : t) : M t :=
  match _root this with
  | None =>
      let* root := RepositoriesNode.create in
      ret (set_root this (Some root))
  | Some _ => ret this
  end.

(** The block of [onConfigurationChanged] run at initialization and when
    the location setting changed: dispose the tree view, make sure there
    is a root, create the tree view for the configured location. *)
Definition rebindTree (this : t) : M t :=
  let* this :=
    match _disposable this with
    | Some (tree, visibility) =>
        dispose tree ;;
        dispose visibility ;;
        let* emitter := new_EventEmitter in
        ret (set_onDidChangeTreeData this emitter)
    | None => ret this
    end in
  let* this := setRoot this in
  let* cfg := get_config in
  let* tree := createTreeView ("gitlens.gitExplorer:" ++ cfg_location cfg) in
  let* visibility := tree_onDidChangeVisibility tree in
  ret (set_disposable (set_tree this (Some tree)) (Some (tree, visibility))).

Definition onConfigurationChanged (this : t) (e : ConfigurationChangeEvent)
  : M t :=
  let initializing := initializing e in
  if negb initializing && negb (changed e gitExplorer)
     && negb (changed e explorers) && negb (changed e defaultGravatarsStyle)
  then ret this
  else
    (if initializing || changed e gitExplorer_enabled
        || changed e gitExplorer_location
     then
       let* cfg := get_config in
       setCommandContext CtxGitExplorer
         (if cfg_enabled cfg then CtxString (cfg_location cfg)
          else CtxBool false)
     else ret tt) ;;
    let* this :=
      if initializing || changed e gitExplorer_autoRefresh then
        let* cfg := get_config in
        setAutoRefresh this (cfg_autoRefresh cfg) None
      else ret this in
    let* this :=
      if initializing || changed e gitExplorer_location then rebindTree this
      else ret this in
    if negb initializing && bool_decide (is_Some (_root this)) then
      detached this (refresh this (Some ConfigurationChanged))
    else ret this.


(** [onRepositoriesChanged]: the listener given to the backend. *)
Definition onRepositoriesChanged (this : t) : M t :=
  detached this (refresh this (Some RepoChanged)).

(** The commands [gitlens.gitExplorer.setAutoRefreshToOn] and
    [...ToOff]. *)
Definition setAutoRefreshToOn (this : t) : M t :=
  let* cfg := get_config in
  setAutoRefresh this (cfg_autoRefresh cfg) (Some true).

Definition setAutoRefreshToOff (this : t) : M t :=
  let* cfg := get_config in
  setAutoRefresh this (cfg_autoRefresh cfg) (Some false).

End GitExplorer.

(** ** LineHoverController *)
Module LineHoverController.

Record Position := mkPosition {
  line : N;
  character : N
}.

Record Range := mkRange {
  range_start : Position;
  range_end : Position
}.

Definition MAX_SAFE_INTEGER : N := 9007199254740991.

(** The host's document: its uri and its [validateRange]. *)
Record TextDocument := mkDocument {
  doc_uri : string;
  validateRange : Range -> Range
}.

(** A document given by the lengths of its lines, with the host's
    clamping of positions: a line past the end becomes the end of the
    last line, a character past the end of its line becomes the end of
    that line. *)
Definition validatePosition (lengths : list N) (p : Position) : Position :=
  let count := N.of_nat (length lengths) in
  if (count <=? line p)%N then
    mkPosition (count - 1)
      (nth (N.to_nat (count - 1)) lengths 0%N)
  else
    mkPosition (line p)
      (N.min (character p) (nth (N.to_nat (line p)) lengths 0%N)).

Definition lineDocument (uri : string) (lengths : list N) : TextDocument :=
  mkDocument uri
    (fun r => mkRange (validatePosition lengths (range_start r))
                      (validatePosition lengths (range_end r))).

(** Commit objects of the git backend (blame commits and log commits). *)
Record GitCommit := mkCommit {
  sha : string;
  repoPath : string;
  fsPath : string;
  isUncommitted : bool;
  previousSha : option string;
  previousFileName : option string;
  message : string
}.

Definition set_previous (c : GitCommit) (psha pfile : option string)
  : GitCommit :=
  mkCommit (sha c) (repoPath c) (fsPath c) (isUncommitted c) psha pfile
           (message c).

(** Cache entry of the line tracker. *)
Record LineState := mkLineState {
  commit : option GitCommit;
  logCommit : option GitCommit
}.

Record Hover := mkHover {
  contents : string;
  range : Range
}.

(** Calls to the git backend. *)
Inductive Call :=
| GetLogCommitForFile (repoPath fileName ref : string)
| GetRemotes (repoPath : string).

(** The collaborators of the controller.  [tracked_lines] and
    [line_states] are the line tracker, [annotationType] is what
    [Container.fileAnnotations.getAnnotationType] answers for the active
    editor, the [hovers_*] fields are the configuration. *)
Record Env := mkEnv {
  tracked_lines : gset N;
  line_states : gmap N LineState;
  annotationType : option string;
  hovers_annotations_details : bool;
  hovers_annotations_changes : bool;
  hovers_currentLine_over : string;
  lineAnnotations_suspended : bool;
  defaultDateFormat : option string;
  git_logCommitForFile : string -> string -> string -> option GitCommit;
  git_remotes : string -> list string;
  tracker_documents : string -> option string;
  getHoverMessage :
    GitCommit -> option string -> list string -> option string -> N -> string;
  changesHover : GitCommit -> N -> string -> option string;
  next_handle : nat;
  calls : list Call
}.

Abbreviation H := (St Env).

Definition set_line_states (e : Env) (m : gmap N LineState) : Env :=
  mkEnv (tracked_lines e) m (annotationType e)
        (hovers_annotations_details e) (hovers_annotations_changes e)
        (hovers_currentLine_over e) (lineAnnotations_suspended e)
        (defaultDateFormat e) (git_logCommitForFile e) (git_remotes e)
        (tracker_documents e) (getHoverMessage e) (changesHover e)
        (next_handle e) (calls e).

Definition set_next_handle (e : Env) (n : nat) : Env :=
  mkEnv (tracked_lines e) (line_states e) (annotationType e)
        (hovers_annotations_details e) (hovers_annotations_changes e)
        (hovers_currentLine_over e) (lineAnnotations_suspended e)
        (defaultDateFormat e) (git_logCommitForFile e) (git_remotes e)
        (tracker_documents e) (getHoverMessage e) (changesHover e)
        n (calls e).

Definition set_calls (e : Env) (cs : list Call) : Env :=
  mkEnv (tracked_lines e) (line_states e) (annotationType e)
        (hovers_annotations_details e) (hovers_annotations_changes e)
        (hovers_currentLine_over e) (lineAnnotations_suspended e)
        (defaultDateFormat e) (git_logCommitForFile e) (git_remotes e)
        (tracker_documents e) (getHoverMessage e) (changesHover e)
        (next_handle e) cs.

(** [Container.lineTracker.includes(line)] *)
Definition lineTracker_includes (l : N) : H bool :=
  read (fun e => bool_decide (l ∈ tracked_lines e)).

(** [Container.lineTracker.getState(line)] *)
Definition lineTracker_getState (l : N) : H (option LineState) :=
  read (fun e => line_states e !! l).

(** [lineState.logCommit = logCommit] on the entry of line [l]. *)
Definition lineState_set_logCommit (l : N) (ls : LineState) (lc : GitCommit)
  : H unit :=
  fun e => (Ok tt,
    set_line_states e
      (<[l := mkLineState (commit ls) (Some lc)]> (line_states e))).

(** [Container.git.getLogCommitForFile(repoPath, fileName, { ref })] *)
Definition git_getLogCommitForFile (repoPath fileName ref : string)
  : H (option GitCommit) :=
  fun e => (Ok (git_logCommitForFile e repoPath fileName ref),
            set_calls e
              (calls e ++ [GetLogCommitForFile repoPath fileName ref])).

(** [Container.git.getRemotes(repoPath)] *)
Definition git_getRemotes (repoPath : string) : H (list string) :=
  fun e => (Ok (git_remotes e repoPath),
            set_calls e (calls e ++ [GetRemotes repoPath])).

(** The controller object. *)
Record t := mk {
  _debugSessionEndDisposable : option nat
}.

Definition debugging (this : t) : bool :=
  bool_decide (is_Some (_debugSessionEndDisposable this)).

Definition onDebugSessionStarted (this : t) : H t :=
  match _debugSessionEndDisposable this with
  | None =>
      fun e => (Ok (mk (Some (next_handle e))),
                set_next_handle e (S (next_handle e)))
  | Some _ => ret this
  end.

Definition onDebugSessionEnded (this : t) : H t :=
  match _debugSessionEndDisposable this with
  | Some _ => ret (mk None)
  | None => ret this
  end.

(** [new Range(line, wholeLine ? 0 : MAX_SAFE_INTEGER, line,
    MAX_SAFE_INTEGER)] passed through [document.validateRange]. *)
Definition hover_range (document : TextDocument) (position : Position)
    (wholeLine : bool) : Range :=
  validateRange document
    (mkRange
       (mkPosition (line position)
          (if wholeLine then 0%N else MAX_SAFE_INTEGER))
       (mkPosition (line position) MAX_SAFE_INTEGER)).

Definition provideDetailsHover (this : t) (document : TextDocument)
    (position : Position) : H (option Hover) :=
  let* included := lineTracker_includes (line position) in
  if negb included then ret None else
  let* lineState := lineTracker_getState (line position) in
  match lineState ≫= commit with
  | None => ret None
  | Some commit =>
  let* fileAnnotations := read annotationType in
  let* details := read hovers_annotations_details in
  if bool_decide (is_Some fileAnnotations) && details then ret None else
  let* over := read hovers_currentLine_over in
  let wholeLine := if debugging this then false else String.eqb over "line" in
  let* suspended := read lineAnnotations_suspended in
  if negb wholeLine && suspended then ret None else
  let range := hover_range document position wholeLine in
  if negb wholeLine
     && negb (N.eqb (character (range_start range)) (character position))
  then ret None else
  let logCommit := lineState ≫= logCommit in
  let* logCommit :=
    if bool_decide (logCommit = None :> option GitCommit)
       && negb (isUncommitted commit)
    then
      let* fetched :=
        git_getLogCommitForFile (repoPath commit) (fsPath commit)
          (sha commit) in
      match fetched with
      | Some lc =>
          let lc :=
            set_previous lc (previousSha commit) (previousFileName commit) in
          match lineState with
          | Some ls => lineState_set_logCommit (line position) ls lc
          | None => ret tt
          end ;;
          ret (Some lc)
      | None => ret None
      end
    else ret logCommit in
  let* trackedDocument :=
    read (fun e => tracker_documents e (doc_uri document)) in
  match trackedDocument with
  | None => ret None
  | Some _ =>
  let* dateFormat := read defaultDateFormat in
  let* remotes := git_getRemotes (repoPath commit) in
  let* build := read getHoverMessage in
  ret (Some (mkHover
               (build (default commit logCommit) dateFormat remotes
                      fileAnnotations (line position))
               range))
  end
  end.

Definition provideChangesHover (this : t) (document : TextDocument)
    (position : Position) : H (option Hover) :=
  let* included := lineTracker_includes (line position) in
  if negb included then ret None else
  let* lineState := lineTracker_getState (line position) in
  match lineState ≫= commit with
  | None => ret None
  | Some commit =>
  let* changes := read hovers_annotations_changes in
  let* fileAnnotations :=
    if changes : bool then read annotationType else ret None in
  if bool_decide (is_Some fileAnnotations) then ret None else
  let* over := read hovers_currentLine_over in
  let wholeLine := if debugging this then false else String.eqb over "line" in
  let* suspended := read lineAnnotations_suspended in
  if negb wholeLine && suspended then ret None else
  let range := hover_range document position wholeLine in
  if negb wholeLine
     && negb (N.eqb (character (range_start range)) (character position))
  then ret None else
  let* trackedDocument :=
    read (fun e => tracker_documents e (doc_uri document)) in
  match trackedDocument with
  | None => ret None
  | Some uri =>
  let* diff := read changesHover in
  match diff commit (line position) uri with
  | None => ret None
  | Some hoverMessage => ret (Some (mkHover hoverMessage range))
  end
  end
  end.

End LineHoverController.

(** ** LineHoverController: registration of the hover providers

    The constructor, [dispose], the configuration and active-lines
    handlers, [register] and [unregister], over the host's registry of
    hover providers.  The controller object is given with all its
    fields. *)
Module LineHoverRegistration.

(** What a registered provider answers with:
    [provideChangesHover.bind(this)] or [provideDetailsHover.bind(this)]. *)
Inductive ProviderKind := ChangesHover | DetailsHover.

(** An entry of [languages.registerHoverProvider]: the disposable it
    returned, the [pattern] of its selector, the provider. *)
Record Registration := mkRegistration {
  handle : nat;
  pattern : string;
  provider : ProviderKind
}.

(** Calls to [Container.lineTracker]. *)
Inductive LineTrackerCall :=
| Start (subscription : nat)
| Stop.

(** [Container.config.hovers], the fields read here. *)
Record HoversConfig := mkHovers {
  enabled : bool;
  currentLine_enabled : bool;
  currentLine_details : bool;
  currentLine_changes : bool
}.

(** The host: configuration, [window.activeTextEditor] (by the path of
    its document), the registered hover providers in registration order,
    the calls to the line tracker, the other disposables disposed of, and
    the allocation counter of disposables. *)
Record Host := mkHost {
  hovers : HoversConfig;
  activeTextEditor : option string;
  hoverProviders : list Registration;
  lineTracker_calls : list LineTrackerCall;
  disposed : list nat;
  next_handle : nat
}.

Abbreviation R := (St Host).

Definition set_hovers (h : Host) (cfg : HoversConfig) : Host :=
  mkHost cfg (activeTextEditor h) (hoverProviders h) (lineTracker_calls h)
         (disposed h) (next_handle h).

Definition set_activeTextEditor (h : Host) (ed : option string) : Host :=
  mkHost (hovers h) ed (hoverProviders h) (lineTracker_calls h)
         (disposed h) (next_handle h).

Definition set_hoverProviders (h : Host) (rs : list Registration) : Host :=
  mkHost (hovers h) (activeTextEditor h) rs (lineTracker_calls h)
         (disposed h) (next_handle h).

Definition set_lineTracker_calls (h : Host) (cs : list LineTrackerCall)
  : Host :=
  mkHost (hovers h) (activeTextEditor h) (hoverProviders h) cs
         (disposed h) (next_handle h).

Definition set_disposed (h : Host) (ds : list nat) : Host :=
  mkHost (hovers h) (activeTextEditor h) (hoverProviders h)
         (lineTracker_calls h) ds (next_handle h).

Definition set_next_handle (h : Host) (n : nat) : Host :=
  mkHost (hovers h) (activeTextEditor h) (hoverProviders h)
         (lineTracker_calls h) (disposed h) n.

(** A new disposable of the host. *)
Definition fresh_handle : R nat :=
  fun h => (Ok (next_handle h), set_next_handle h (S (next_handle h))).

(** [languages.registerHoverProvider({ pattern }, provider)] *)
Definition registerHoverProvider (pattern : string) (p : ProviderKind)
  : R nat :=
  let* d := fresh_handle in
  fun h => (Ok d,
            set_hoverProviders h
              (hoverProviders h ++ [mkRegistration d pattern p])).

(** Disposing of [Disposable.from(...subscriptions)]: each registration
    of [ds] leaves the registry. *)
Definition dispose_registrations (ds : list nat) : R unit :=
  fun h => (Ok tt,
            set_hoverProviders h
              (List.filter (fun r => negb (bool_decide (handle r ∈ ds)))
                 (hoverProviders h))).

(** Disposing of a listener. *)
Definition dispose_handle (d : nat) : R unit :=
  fun h => (Ok tt, set_disposed h (disposed h ++ [d])).

(** [Container.lineTracker.start(this, subscription)] *)
Definition lineTracker_start (subscription : nat) : R unit :=
  fun h => (Ok tt,
            set_lineTracker_calls h (lineTracker_calls h ++ [Start subscription])).

(** [Container.lineTracker.stop(this)] *)
Definition lineTracker_stop : R unit :=
  fun h => (Ok tt, set_lineTracker_calls h (lineTracker_calls h ++ [Stop])).

(** Settings a change event is asked about with [configuration.changed]. *)
Inductive Setting :=
| hovers_enabled
| hovers_currentLine_enabled.

Record ConfigurationChangeEvent := mkEvent {
  initializing : bool;
  changed : Setting -> bool
}.

(** [LinesChangeEvent]; the editor is given by the path of its
    document. *)
Record LinesChangeEvent := mkLinesChange {
  pending : bool;
  reason : string;
  editor : option string;
  lines : option (list N)
}.

(** The controller object.  [_disposable] is [Disposable.from(configuration
    listener, debug-session listener)], [_hoverProviderDisposable] is
    [Disposable.from(...subscriptions)]. *)
Record t := mk {
  _debugSessionEndDisposable : option nat;
  _disposable : option (nat * nat);
  _hoverProviderDisposable : option (list nat)
}.

Definition set_disposable (this : t) (d : option (nat * nat)) : t :=
  mk (_debugSessionEndDisposable this) d (_hoverProviderDisposable this).

Definition set_hoverProviderDisposable (this : t) (d : option (list nat))
  : t :=
  mk (_debugSessionEndDisposable this) (_disposable this) d.

Definition unregister (this : t) : R t :=
  match _hoverProviderDisposable this with
  | Some ds =>
      dispose_registrations ds ;;
      ret (set_hoverProviderDisposable this None)
  | None => ret this
  end.

Definition register (this : t) (editor : option string) : R t :=
  let* this := unregister this in
  match editor with
  | None => ret this
  | Some fsPath =>
  let* cfg := read hovers in
  if negb (enabled cfg) || negb (currentLine_enabled cfg)
     || (negb (currentLine_details cfg) && negb (currentLine_changes cfg))
  then ret this else
  let* subscriptions :=
    if currentLine_changes cfg then
      let* d := registerHoverProvider fsPath ChangesHover in ret [d]
    else ret [] in
  let* subscriptions :=
    if currentLine_details cfg then
      let* d := registerHoverProvider fsPath DetailsHover in
      ret (subscriptions ++ [d])
    else ret subscriptions in
  ret (set_hoverProviderDisposable this (Some subscriptions))
  end.

Definition onActiveLinesChanged (this : t) (e : LinesChangeEvent) : R t :=
  if pending e || negb (String.eqb (reason e) "editor") then ret this else
  match editor e, lines e with
  | Some ed, Some _ => register this (Some ed)
  | _, _ => unregister this
  end.

Definition onConfigurationChanged (this : t) (e : ConfigurationChangeEvent)
  : R t :=
  if negb (initializing e)
     && negb (changed e hovers_enabled)
     && negb (changed e hovers_currentLine_enabled)
  then ret this else
  let* cfg := read hovers in
  if enabled cfg && currentLine_enabled cfg then
    let* subscription := fresh_handle in
    lineTracker_start subscription ;;
    let* ed := read activeTextEditor in
    register this ed
  else
    lineTracker_stop ;;
    unregister this.

(** The constructor. *)
Definition create : R t :=
  let* onConfiguration := fresh_handle in
  let* onDebugSession := fresh_handle in
  let this := mk None (Some (onConfiguration, onDebugSession)) None in
  onConfigurationChanged this (mkEvent true (fun _ => false)).

Definition dispose (this : t) : R t :=
  let* this := unregister this in
  match _debugSessionEndDisposable this with
  | Some d => dispose_handle d
  | None => ret tt
  end ;;
  lineTracker_stop ;;
  match _disposable this with
  | Some (d1, d2) => dispose_handle d1 ;; dispose_handle d2
  | None => ret tt
  end ;;
  ret this.

End LineHoverRegistration.

(** ** The extension's activation helpers

    [migrateSettings] and [notifyOnNewGitLensVersion].  The version
    comparison of [Versions], the list [Objects.values(SuppressedMessages)]
    and what the host answers are collaborators. *)
Module Extension.

(** [s.split('.')]: the pieces between the dots, at least one. *)
Fixpoint split_dot (s : string) : list string :=
  match s with
  | EmptyString => [EmptyString]
  | String c rest =>
      if Ascii.eqb c "."%char then EmptyString :: split_dot rest
      else
        match split_dot rest with
        | piece :: pieces => String c piece :: pieces
        | [] => [String c EmptyString]
        end
  end.

(** [a === b] on values that are strings or undefined. *)
Definition strict_eq (a b : option string) : bool :=
  bool_decide (a = b).

(** [a < b] on values that are strings or undefined: strings compare by
    their code units, and no comparison with undefined holds. *)
Definition less_than (a b : option string) : bool :=
  match a, b with
  | Some x, Some y => String.ltb x y
  | _, _ => false
  end.

Inductive ConfigurationTarget := Global | WorkspaceFolder.

(** The answer of [configuration.inspect], the fields read here. *)
Record Inspection := mkInspection {
  globalValue : option bool;
  workspaceFolderValue : option bool
}.

(** The calls the two functions make. *)
Inductive Call :=
| LoggerLog (message : string)
| LoggerError (classifier : string)
| ShowWelcomeMessage
| ShowUpdateMessage (version : string)
| GlobalStateUpdate (key : string) (value : option bool)
| UpdateMessages (messages : gmap string bool) (target : ConfigurationTarget)
| UpdateCloseOnFocusOut (value : bool) (target : ConfigurationTarget).

(** The collaborators: [context.globalState]; the [advanced.messages]
    section and its [suppressUpdateNotice] entry as [configuration.get]
    answers; the inspection of [advanced.quickPick.closeOnFocusOut];
    [Objects.values(SuppressedMessages)];
    [Versions.compare(Versions.fromString(v), Versions.from(major, minor,
    patch))]; the error a [configuration.update] is rejected with, if it
    is; the calls made so far. *)
Record Env := mkEnv {
  globalState : gmap string bool;
  advanced_messages : gmap string bool;
  suppressUpdateNotice : bool;
  closeOnFocusOut : option Inspection;
  suppressedMessages : list string;
  versions_compare : string -> nat * nat * nat -> Z;
  update_error : ConfigurationTarget -> option Exn;
  calls : list Call
}.

Abbreviation X := (St Env).

Definition set_globalState (e : Env) (g : gmap string bool) : Env :=
  mkEnv g (advanced_messages e) (suppressUpdateNotice e) (closeOnFocusOut e)
        (suppressedMessages e) (versions_compare e) (update_error e)
        (calls e).

Definition set_calls (e : Env) (cs : list Call) : Env :=
  mkEnv (globalState e) (advanced_messages e) (suppressUpdateNotice e)
        (closeOnFocusOut e) (suppressedMessages e) (versions_compare e)
        (update_error e) cs.

Definition call (c : Call) : X unit :=
  fun e => (Ok tt, set_calls e (calls e ++ [c])).

(** [try { m } catch (ex) { handler(ex) }] *)
Definition try_catch {A} (m : X A) (handler : Exn -> X A) : X A :=
  fun e =>
    match m e with
    | (Ok a, e') => (Ok a, e')
    | (Throw ex, e') => handler ex e'
    end.

(** [context.globalState.update(key, undefined)] *)
Definition globalState_delete (key : string) : X unit :=
  fun e =>
    (Ok tt,
     set_calls (set_globalState e (delete key (globalState e)))
       (calls e ++ [GlobalStateUpdate key None])).

(** [await configuration.update(section, value, target)] *)
Definition configuration_update (c : Call) (target : ConfigurationTarget)
  : X unit :=
  call c ;;
  let* error := read (fun e => update_error e target) in
  match error with
  | Some ex => lift_outcome (Throw ex)
  | None => ret tt
  end.

(** The loop over the suppressed messages: [migrated] and the [messages]
    object as they are after it. *)
Fixpoint migrate_messages (ms : list string) (migrated : bool)
    (messages : gmap string bool) : X (bool * gmap string bool) :=
  match ms with
  | [] => ret (migrated, messages)
  | m :: rest =>
      let* suppressed := read (fun e => globalState e !! m) in
      match suppressed with
      | None => migrate_messages rest migrated messages
      | Some suppressed =>
          globalState_delete m ;;
          migrate_messages rest true (<[m := suppressed]> messages)
      end
  end.

(** The body of the first [if]; the result says whether the function
    returns from inside it. *)
Definition migrate_suppressed : X bool :=
  try_catch
    (let* messages := read advanced_messages in
     let* values := read suppressedMessages in
     let* (migrated, messages) := migrate_messages values false messages in
     if negb migrated then ret true else
     configuration_update (UpdateMessages messages Global) Global ;;
     ret false)
    (fun _ => call (LoggerError "migrateSettings - messages") ;; ret false).

Definition migrate_closeOnFocusOut : X unit :=
  let* inspection := read closeOnFocusOut in
  match inspection with
  | None => ret tt
  | Some inspection =>
      match globalValue inspection with
      | Some value =>
          configuration_update (UpdateCloseOnFocusOut (negb value) Global)
            Global
      | None =>
          match workspaceFolderValue inspection with
          | Some value =>
              configuration_update
                (UpdateCloseOnFocusOut (negb value) WorkspaceFolder)
                WorkspaceFolder
          | None => ret tt
          end
      end
  end.

Definition migrateSettings (previousVersion : option string) : X unit :=
  match previousVersion with
  | None => ret tt
  | Some previous =>
      try_catch
        (let* compare := read versions_compare in
         let* returned :=
           if negb (compare previous (6, 1, 2)%nat =? 1)
           then migrate_suppressed else ret false in
         if returned : bool then ret tt else
         if negb (compare previous (7, 1, 0)%nat =? 1)
         then migrate_closeOnFocusOut else ret tt)
        (fun _ => call (LoggerError "migrateSettings"))
  end.

Definition notifyOnNewGitLensVersion (version : string)
    (previousVersion : option string) : X unit :=
  let* suppressed := read suppressUpdateNotice in
  if suppressed then ret tt else
  match previousVersion with
  | None =>
      call (LoggerLog "GitLens first-time install") ;;
      call ShowWelcomeMessage
  | Some previousVersion =>
      (if negb (String.eqb previousVersion version)
       then call (LoggerLog ("GitLens upgraded from v" ++ previousVersion
                             ++ " to v" ++ version)%string)
       else ret tt) ;;
      let parts := split_dot version in
      let major := nth_error parts 0 in
      let minor := nth_error parts 1 in
      let prevParts := split_dot previousVersion in
      let prevMajor := nth_error prevParts 0 in
      let prevMinor := nth_error prevParts 1 in
      if strict_eq major prevMajor && strict_eq minor prevMinor
      then ret tt else
      if less_than major prevMajor
         || (strict_eq major prevMajor && less_than minor prevMinor)
      then ret tt else
      call (ShowUpdateMessage version)
  end.

End Extension.

(** ** Vocabulary of the statements *)

(** The world after [n] allocations and the calls [evs]. *)
Definition extend (w : World) (n : nat) (evs : list Effect) : World :=
  mkWorld (next_id w + n) (git_repositories w) (git_listeners w)
          (workspaceState w) (config w) (context_subscriptions w)
          (log w ++ evs).

Definition index_le (a b : Repository) : Prop := index a <= index b.

Definition is_open (r : Repository) : bool := negb (closed r).

(** Normalized path of the repository a node stands for. *)
Definition node_path (c : ExplorerNode) : option string :=
  normalizedPath <$> node_repo c.

Definition has_path (np : string) (c : ExplorerNode) : bool :=
  match node_repo c with
  | Some repo => String.eqb (normalizedPath repo) np
  | None => false
  end.

(** Repository nodes numbered from [start], one per repository. *)
Fixpoint number_nodes (start : nat) (repos : list Repository)
  : list ExplorerNode :=
  match repos with
  | [] => []
  | r :: rest =>
      RepositoryNode start (fromRepoPath (path r)) r
        :: number_nodes (S start) rest
  end.



Definition constructed_ids (evs : list Effect) : list nat :=
  flat_map (fun e => match e with NodeConstructed i => [i] | _ => [] end) evs.

(** The list the first loop of [refresh] builds over repository nodes
    [old], with new nodes numbered from [start]. *)
Fixpoint reconcile (old : list ExplorerNode) (start : nat)
    (repos : list Repository) : list ExplorerNode :=
  match repos with
  | [] => []
  | repo :: rest =>
      match List.find (has_path (normalizedPath repo)) old with
      | Some c => c :: reconcile old start rest
      | None =>
          RepositoryNode start (fromRepoPath (path repo)) repo
            :: reconcile old (S start) rest
      end
  end.

Fixpoint reconcile_events (old : list ExplorerNode) (start : nat)
    (repos : list Repository) : list Effect :=
  match repos with
  | [] => []
  | repo :: rest =>
      match List.find (has_path (normalizedPath repo)) old with
      | Some c => NodeRefreshed (node_id c) :: reconcile_events old start rest
      | None => NodeConstructed start :: reconcile_events old (S start) rest
      end
  end.

Fixpoint reconcile_new (old : list ExplorerNode) (repos : list Repository)
  : nat :=
  match repos with
  | [] => 0%nat
  | repo :: rest =>
      match List.find (has_path (normalizedPath repo)) old with
      | Some _ => reconcile_new old rest
      | None => S (reconcile_new old rest)
      end
  end.

Abbreviation all_repository_nodes :=
  (Forall (fun c : ExplorerNode => is_RepositoryNode c = true)).




(** [w'] is [w] after some allocations and calls. *)
Definition extends (w w' : World) : Prop :=
  exists n evs, w' = extend w n evs.

(** Identity of the root object of an explorer. *)
Definition root_id (this : GitExplorer.t) : option nat :=
  RepositoriesNode.self <$> GitExplorer._root this.

(** The per-workspace flag [setAutoRefresh] works with: the override when
    there is one, the persisted value (true when absent) otherwise. *)
Definition workspace_flag (override : option bool) (w : World) : bool :=
  match override with
  | Some v => v
  | None => default true (workspaceState w !! GitExplorerAutoRefresh)
  end.

(** The calls of [setAutoRefresh] before its final refresh. *)
Definition setAutoRefresh_events (old : option nat) (enabled : bool)
    (override : option bool) (w : World) : list Effect :=
  match old with Some d => [HandleDisposed d] | None => [] end
  ++ (if enabled then
        match override with
        | Some v =>
            [WorkspaceStateUpdated GitExplorerAutoRefresh v;
             AutoRefreshChangedFired]
        | None => []
        end
      else [])
  ++ (if enabled && workspace_flag override w
      then [RepositoriesSubscribed (next_id w)] else [])
  ++ [SetCommandContext CtxGitExplorerAutoRefresh
        (CtxBool (enabled && workspace_flag override w))].

(** The backend's listeners once [old] is disposed. *)
Definition without (old : option nat) (listeners : list nat) : list nat :=
  match old with
  | Some d => List.filter (fun l => negb (Nat.eqb l d)) listeners
  | None => listeners
  end.



(** ** Scenarios *)

Definition config0 : Config := mkConfig true "gitlens" true.

(** A world whose backend holds the repositories [R]; [n] objects have
    been allocated so far. *)
Definition world_of (n : nat) (R : list Repository) : World :=
  mkWorld n R [] ∅ config0 [] [].

Definition repo_a : Repository := mkRepository "/a" 1 false "/a/".
Definition repo_b_closed : Repository := mkRepository "/b" 0 true "/b/".

Definition repo_A : Repository := mkRepository "/A" 0 false "/a/".
Definition repo_B : Repository := mkRepository "/B" 1 false "/b/".
Definition repo_C : Repository := mkRepository "/C" 2 false "/c/".
Definition repo_D : Repository := mkRepository "/D" 0 false "/d/".

Definition node_of (id : nat) (r : Repository) : ExplorerNode :=
  RepositoryNode id (fromRepoPath (path r)) r.

(** A root node that has not fetched its children yet. *)
Definition root_fresh : RepositoriesNode.t := RepositoriesNode.mk 0 None.

(** A root node caching children for A, B and C. *)
Definition root_ABC : RepositoriesNode.t :=
  RepositoriesNode.mk 0
    (Some [node_of 1 repo_A; node_of 2 repo_B; node_of 3 repo_C]).

(** A root node caching the child of [repo_a]. *)
Definition root_a : RepositoriesNode.t :=
  RepositoriesNode.mk 0 (Some [node_of 1 repo_a]).

(** An explorer without root, tree or subscription. *)
Definition explorer_idle : GitExplorer.t :=
  GitExplorer.mk None None None 0 None.


(** An explorer bound to a tree view: root object 0, tree view 1 with
    visibility subscription 2, emitter 3. *)
Definition explorer_bound : GitExplorer.t :=
  GitExplorer.mk (Some (1%nat, 2%nat)) (Some root_fresh) (Some 1%nat) 3 None.

(** A change event for the view-location setting alone. *)
Definition location_changed : GitExplorer.ConfigurationChangeEvent :=
  GitExplorer.mkEvent false
    (fun s => match s with
              | GitExplorer.gitExplorer | GitExplorer.gitExplorer_location =>
                  true
              | _ => false
              end).

(** The collaborators [e] with the setting [hovers.currentLine.over]
    set to [over]. *)
Definition with_over (e : LineHoverController.Env) (over : string)
  : LineHoverController.Env :=
  LineHoverController.mkEnv
    (LineHoverController.tracked_lines e)
    (LineHoverController.line_states e)
    (LineHoverController.annotationType e)
    (LineHoverController.hovers_annotations_details e)
    (LineHoverController.hovers_annotations_changes e)
    over
    (LineHoverController.lineAnnotations_suspended e)
    (LineHoverController.defaultDateFormat e)
    (LineHoverController.git_logCommitForFile e)
    (LineHoverController.git_remotes e)
    (LineHoverController.tracker_documents e)
    (LineHoverController.getHoverMessage e)
    (LineHoverController.changesHover e)
    (LineHoverController.next_handle e)
    (LineHoverController.calls e).

(** A blame commit of the working tree (not committed yet). *)
Definition uncommitted_commit : LineHoverController.GitCommit :=
  LineHoverController.mkCommit "0000000" "/repo" "/repo/file.ts" true
    None None "Uncommitted changes".

(** Line 0 is tracked and blamed on [uncommitted_commit]; hovers are
    configured for the whole line; the backend knows a log commit for
    every revision. *)
Definition hover_env : LineHoverController.Env :=
  LineHoverController.mkEnv
    {[ 0%N ]}
    {[ 0%N := LineHoverController.mkLineState (Some uncommitted_commit) None ]}
    None false false "line" false None
    (fun repoPath fileName ref =>
       Some (LineHoverController.mkCommit ref repoPath fileName false
               None None "full message"))
    (fun _ => [])
    (fun uri => Some uri)
    (fun c _ _ _ _ => LineHoverController.message c)
    (fun c _ _ => Some (LineHoverController.sha c))
    1 [].

(** A document whose only line has three characters. *)
Definition hover_document : LineHoverController.TextDocument :=
  LineHoverController.lineDocument "/repo/file.ts" [3%N].

(** A controller during a debug session. *)
Definition debugging_controller : LineHoverController.t :=
  LineHoverController.mk (Some 0%nat).

(** A cache of repository nodes as [getChildren] builds it: distinct
    objects, allocated before now, one per normalized path. *)
Definition wf_children (cs : list ExplorerNode) (w : World) : Prop :=
  all_repository_nodes cs /\
  NoDup (map node_id cs) /\
  NoDup (map node_path cs) /\
  Forall (fun c => (node_id c < next_id w)%nat) cs.

Definition wf_root (this : RepositoriesNode.t) (w : World) : Prop :=
  forall cs, RepositoriesNode.children this = Some cs -> wf_children cs w.

(** Debug-session events as the controller's two listeners see them. *)
Inductive DebugEvent := SessionStarted | SessionTerminated.

Definition on_debug_event (this : LineHoverController.t) (ev : DebugEvent)
  : St LineHoverController.Env LineHoverController.t :=
  match ev with
  | SessionStarted => LineHoverController.onDebugSessionStarted this
  | SessionTerminated => LineHoverController.onDebugSessionEnded this
  end.

(** The controller after a sequence of debug-session events. *)
Fixpoint after_debug_events (this : LineHoverController.t)
    (evs : list DebugEvent) (env : LineHoverController.Env)
  : option (LineHoverController.t * LineHoverController.Env) :=
  match evs with
  | [] => Some (this, env)
  | ev :: rest =>
      match on_debug_event this ev env with
      | (Ok this', env') => after_debug_events this' rest env'
      | (Throw _, _) => None
      end
  end.

(** The collaborators [e] with [Container.lineAnnotations.suspended] set
    to [suspended]. *)
Definition with_suspended (e : LineHoverController.Env) (suspended : bool)
  : LineHoverController.Env :=
  LineHoverController.mkEnv
    (LineHoverController.tracked_lines e)
    (LineHoverController.line_states e)
    (LineHoverController.annotationType e)
    (LineHoverController.hovers_annotations_details e)
    (LineHoverController.hovers_annotations_changes e)
    (LineHoverController.hovers_currentLine_over e)
    suspended
    (LineHoverController.defaultDateFormat e)
    (LineHoverController.git_logCommitForFile e)
    (LineHoverController.git_remotes e)
    (LineHoverController.tracker_documents e)
    (LineHoverController.getHoverMessage e)
    (LineHoverController.changesHover e)
    (LineHoverController.next_handle e)
    (LineHoverController.calls e).

(** The position at character [ch] of the line of [p]. *)
Definition at_character (p : LineHoverController.Position) (ch : N)
  : LineHoverController.Position :=
  LineHoverController.mkPosition (LineHoverController.line p) ch.

(** A blame commit that is in the history. *)
Definition committed_commit : LineHoverController.GitCommit :=
  LineHoverController.mkCommit "1a2b3c4" "/repo" "/repo/file.ts" false
    (Some "0f9e8d7") (Some "old.ts") "summary".

(** [hover_env] with line 0 blamed on [committed_commit]. *)
Definition committed_env : LineHoverController.Env :=
  LineHoverController.set_line_states hover_env
    {[ 0%N := LineHoverController.mkLineState (Some committed_commit) None ]}.

(** [committed_env] with a backend that finds no log commit. *)
Definition forgetful_env : LineHoverController.Env :=
  LineHoverController.mkEnv
    (LineHoverController.tracked_lines committed_env)
    (LineHoverController.line_states committed_env)
    (LineHoverController.annotationType committed_env)
    (LineHoverController.hovers_annotations_details committed_env)
    (LineHoverController.hovers_annotations_changes committed_env)
    (LineHoverController.hovers_currentLine_over committed_env)
    (LineHoverController.lineAnnotations_suspended committed_env)
    (LineHoverController.defaultDateFormat committed_env)
    (fun _ _ _ => None)
    (LineHoverController.git_remotes committed_env)
    (LineHoverController.tracker_documents committed_env)
    (LineHoverController.getHoverMessage committed_env)
    (LineHoverController.changesHover committed_env)
    (LineHoverController.next_handle committed_env)
    (LineHoverController.calls committed_env).

(** The hover-provider registrations the controller holds, and the
    registry entries that are its own and those of others. *)
Definition owned (this : LineHoverRegistration.t) : list nat :=
  default [] (LineHoverRegistration._hoverProviderDisposable this).

Definition own_providers (this : LineHoverRegistration.t)
    (host : LineHoverRegistration.Host)
  : list LineHoverRegistration.Registration :=
  List.filter
    (fun r => bool_decide (LineHoverRegistration.handle r ∈ owned this))
    (LineHoverRegistration.hoverProviders host).

Definition other_providers (this : LineHoverRegistration.t)
    (host : LineHoverRegistration.Host)
  : list LineHoverRegistration.Registration :=
  List.filter
    (fun r =>
       negb (bool_decide (LineHoverRegistration.handle r ∈ owned this)))
    (LineHoverRegistration.hoverProviders host).

(** The providers the configuration asks for on an editor: the changes
    hover before the details hover, each if switched on, none if hovers
    or current-line hovers are off or there is no editor. *)
Definition providers_for (cfg : LineHoverRegistration.HoversConfig)
    (editor : option string)
  : list (string * LineHoverRegistration.ProviderKind) :=
  match editor with
  | None => []
  | Some fsPath =>
      if LineHoverRegistration.enabled cfg
         && LineHoverRegistration.currentLine_enabled cfg
      then
        (if LineHoverRegistration.currentLine_changes cfg
         then [(fsPath, LineHoverRegistration.ChangesHover)] else [])
        ++ (if LineHoverRegistration.currentLine_details cfg
            then [(fsPath, LineHoverRegistration.DetailsHover)] else [])
      else []
  end.

Definition selector_of (r : LineHoverRegistration.Registration)
  : string * LineHoverRegistration.ProviderKind :=
  (LineHoverRegistration.pattern r, LineHoverRegistration.provider r).

(** Registrations of [specs] with consecutive handles from [n]. *)
Fixpoint allocate (n : nat)
    (specs : list (string * LineHoverRegistration.ProviderKind))
  : list LineHoverRegistration.Registration :=
  match specs with
  | [] => []
  | (p, k) :: rest =>
      LineHoverRegistration.mkRegistration n p k :: allocate (S n) rest
  end.

(** Every handle in use was allocated by the host. *)
Definition handles_allocated (this : LineHoverRegistration.t)
    (host : LineHoverRegistration.Host) : Prop :=
  Forall (fun r => (LineHoverRegistration.handle r
                    < LineHoverRegistration.next_handle host)%nat)
         (LineHoverRegistration.hoverProviders host) /\
  Forall (fun d => (d < LineHoverRegistration.next_handle host)%nat)
         (owned this).

(** What the host does to the controller: a configuration change (the
    new values, then the change event), a change of the active lines, a
    change of the active editor (no listener of the controller). *)
Inductive HostEvent :=
| ConfigurationChange (cfg : LineHoverRegistration.HoversConfig)
    (e : LineHoverRegistration.ConfigurationChangeEvent)
| ActiveLinesChange (e : LineHoverRegistration.LinesChangeEvent)
| ActiveEditorChange (ed : option string).

Definition on_host_event (this : LineHoverRegistration.t) (ev : HostEvent)
  : St LineHoverRegistration.Host LineHoverRegistration.t :=
  match ev with
  | ConfigurationChange cfg e =>
      fun host =>
        LineHoverRegistration.onConfigurationChanged this e
          (LineHoverRegistration.set_hovers host cfg)
  | ActiveLinesChange e => LineHoverRegistration.onActiveLinesChanged this e
  | ActiveEditorChange ed =>
      fun host =>
        (Ok this, LineHoverRegistration.set_activeTextEditor host ed)
  end.

Fixpoint after_host_events (this : LineHoverRegistration.t)
    (evs : list HostEvent) (host : LineHoverRegistration.Host)
  : option (LineHoverRegistration.t * LineHoverRegistration.Host) :=
  match evs with
  | [] => Some (this, host)
  | ev :: rest =>
      match on_host_event this ev host with
      | (Ok this', host') => after_host_events this' rest host'
      | (Throw _, _) => None
      end
  end.

(** A host with hovers on for both providers, an active editor, a
    provider of another extension and one of the controller's. *)
Definition registration_host : LineHoverRegistration.Host :=
  LineHoverRegistration.mkHost
    (LineHoverRegistration.mkHovers true true true true)
    (Some "/repo/file.ts")
    [LineHoverRegistration.mkRegistration 0 "/other"
       LineHoverRegistration.DetailsHover;
     LineHoverRegistration.mkRegistration 3 "/repo/old.ts"
       LineHoverRegistration.ChangesHover]
    [] [] 4.

(** A controller that has registered the changes hover on
    [registration_host]. *)
Definition registered_controller : LineHoverRegistration.t :=
  LineHoverRegistration.mk None (Some (1, 2)%nat) (Some [3%nat]).

(** The registry consists of [others], in their order, followed by the
    controller's own providers, and these are what some configuration
    asks for on some editor. *)
Definition registry_inv (others : list LineHoverRegistration.Registration)
    (this : LineHoverRegistration.t) (host : LineHoverRegistration.Host)
  : Prop :=
  handles_allocated this host /\
  LineHoverRegistration.hoverProviders host
  = others ++ own_providers this host /\
  other_providers this host = others /\
  exists cfg ed,
    map selector_of (own_providers this host) = providers_for cfg ed.

(** The same host after allocations and calls that leave the registry of
    hover providers alone. *)
Definition same_registry (host host' : LineHoverRegistration.Host) : Prop :=
  LineHoverRegistration.hoverProviders host'
  = LineHoverRegistration.hoverProviders host /\
  (LineHoverRegistration.next_handle host
   <= LineHoverRegistration.next_handle host')%nat.

(** A version component: a string without a dot. *)
Fixpoint no_dot (s : string) : bool :=
  match s with
  | EmptyString => true
  | String c rest => negb (Ascii.eqb c "."%char) && no_dot rest
  end.

(** The components joined by dots. *)
Definition dotted (parts : list string) : string := String.concat "." parts.

(** Decimal numerals and their values. *)
Definition is_digit (c : ascii) : bool :=
  (48 <=? N_of_ascii c)%N && (N_of_ascii c <=? 57)%N.

Fixpoint numeral (s : string) : bool :=
  match s with
  | EmptyString => true
  | String c rest => is_digit c && numeral rest
  end.

Fixpoint value_from (acc : N) (s : string) : N :=
  match s with
  | EmptyString => acc
  | String c rest => value_from (10 * acc + (N_of_ascii c - 48))%N rest
  end.

Definition value (s : string) : N := value_from 0 s.

(** A fresh installation's collaborators: nothing stored, nothing
    suppressed, every earlier version older than the migrations. *)
Definition extension_env : Extension.Env :=
  Extension.mkEnv ∅ ∅ false
    (Some (Extension.mkInspection (Some true) None))
    ["suppressCommitHasNoPreviousCommitWarning"; "suppressUpdateNotice"]
    (fun _ _ => (-1)%Z)
    (fun _ => None)
    [].

(** Collaborators after an upgrade from a version that kept a
    suppressed-message flag in the global state. *)
Definition upgraded_env : Extension.Env :=
  Extension.mkEnv
    {[ "suppressUpdateNotice" := true ]}
    {[ "suppressCommitHasNoPreviousCommitWarning" := false ]}
    false
    (Some (Extension.mkInspection (Some true) (Some false)))
    ["suppressCommitHasNoPreviousCommitWarning"; "suppressUpdateNotice"]
    (fun _ v => match v with (6, _, _)%nat => (-1)%Z | _ => 1%Z end)
    (fun _ => None)
    [].

(** Collaborators after an upgrade from a version between the two
    migrations. *)
Definition between_env : Extension.Env :=
  Extension.mkEnv ∅ ∅ false
    (Some (Extension.mkInspection None (Some false)))
    ["suppressCommitHasNoPreviousCommitWarning"; "suppressUpdateNotice"]
    (fun _ v => match v with (6, _, _)%nat => 1%Z | _ => (-1)%Z end)
    (fun _ => None)
    [].

(** ** The world under allocation and calls *)

Lemma extend_0_nil w : extend w 0 [] = w.
Proof.
  destruct w; unfold extend; simpl.
  by rewrite Nat.add_0_r, app_nil_r.
Qed.

Lemma extend_extend w a x b y :
  extend (extend w a x) b y = extend w (a + b) (x ++ y).
Proof.
  unfold extend; simpl. by rewrite Nat.add_assoc, app_assoc.
Qed.

Lemma emit_extend e w : emit e w = (Ok tt, extend w 0 [e]).
Proof. unfold emit, extend. by rewrite Nat.add_0_r. Qed.

Lemma fresh_extend w : fresh w = (Ok (next_id w), extend w 1 []).
Proof. unfold fresh, extend. by rewrite Nat.add_1_r, app_nil_r. Qed.

Lemma new_RepositoryNode_extend uri repo w :
  new_RepositoryNode uri repo w
  = (Ok (RepositoryNode (next_id w) uri repo),
     extend w 1 [NodeConstructed (next_id w)]).
Proof.
  unfold new_RepositoryNode, bind.
  rewrite fresh_extend, emit_extend, extend_extend. reflexivity.
Qed.

Lemma new_MessageNode_extend msg w :
  new_MessageNode msg w
  = (Ok (MessageNode (next_id w) msg),
     extend w 1 [NodeConstructed (next_id w)]).
Proof.
  unfold new_MessageNode, bind.
  rewrite fresh_extend, emit_extend, extend_extend. reflexivity.
Qed.

(** ** Sorting *)

Section SortFacts.
Context {A : Type} (cmp : A -> A -> Z).

Lemma sort_insert_Permutation x l :
  Permutation (sort_insert cmp x l) (x :: l).
Proof.
  induction l as [|y l IH]; simpl; [done|].
  destruct (cmp x y <=? 0); [done|].
  rewrite IH. apply perm_swap.
Qed.

Lemma sort_Permutation l : Permutation (sort cmp l) l.
Proof.
  induction l as [|x l IH]; simpl; [done|].
  rewrite sort_insert_Permutation. by constructor.
Qed.

Lemma sort_length l : length (sort cmp l) = length l.
Proof. apply Permutation_length, sort_Permutation. Qed.

End SortFacts.

Lemma sort_insert_by_index_sorted x l :
  StronglySorted index_le l ->
  StronglySorted index_le (sort_insert by_index x l).
Proof.
  induction 1 as [|y l Hs IH Hy]; simpl.
  - repeat constructor.
  - unfold by_index at 1. destruct (Z.leb_spec (index x - index y) 0).
    + constructor; [by constructor|].
      constructor; [unfold index_le; lia|].
      eapply Forall_impl; [exact Hy|].
      unfold index_le; intros; lia.
    + constructor; [exact IH|].
      rewrite sort_insert_Permutation.
      constructor; [unfold index_le; lia | exact Hy].
Qed.

Lemma sort_by_index_sorted l : StronglySorted index_le (sort by_index l).
Proof.
  induction l; simpl; [constructor|].
  by apply sort_insert_by_index_sorted.
Qed.

Lemma StronglySorted_filter {A} (R : A -> A -> Prop) (f : A -> bool) l :
  StronglySorted R l -> StronglySorted R (List.filter f l).
Proof.
  induction 1 as [|x l Hs IH Hx]; simpl; [constructor|].
  destruct (f x); [|exact IH].
  constructor; [exact IH|].
  apply List.Forall_forall. intros y Hy. apply filter_In in Hy as [Hy _].
  eapply List.Forall_forall in Hx; eauto.
Qed.

Lemma Permutation_filter_bool {A} (f : A -> bool) l1 l2 :
  Permutation l1 l2 -> Permutation (List.filter f l1) (List.filter f l2).
Proof.
  induction 1 as [|x l1 l2 _ IH|x y l|l1 l2 l3 _ IH1 _ IH2]; simpl.
  - constructor.
  - destruct (f x); [by constructor | exact IH].
  - destruct (f x), (f y); try reflexivity. apply perm_swap.
  - etransitivity; eassumption.
Qed.

(** ** RepositoriesNode.getChildren *)

Lemma number_nodes_repo start repos :
  map node_repo (number_nodes start repos) = map Some repos.
Proof.
  revert start; induction repos as [|r rs IH]; intros start; simpl; [done|].
  by rewrite IH.
Qed.

Lemma number_nodes_id start repos :
  map node_id (number_nodes start repos) = seq start (length repos).
Proof.
  revert start; induction repos as [|r rs IH]; intros start; simpl; [done|].
  by rewrite IH.
Qed.

Lemma getChildren_loop_spec repos acc w :
  RepositoriesNode.getChildren_loop repos acc w
  = (Ok (acc ++ number_nodes (next_id w) (List.filter is_open repos)),
     extend w (length (List.filter is_open repos))
       (map NodeConstructed
          (seq (next_id w) (length (List.filter is_open repos))))).
Proof.
  revert acc w; induction repos as [|r rs IH]; intros acc w; simpl.
  - by rewrite app_nil_r, extend_0_nil.
  - replace (is_open r) with (negb (closed r)) by reflexivity.
    destruct (closed r); simpl negb; cbv iota; [apply IH|].
    unfold bind. rewrite new_RepositoryNode_extend, IH, extend_extend.
    simpl. rewrite Nat.add_1_r, <- app_assoc. reflexivity.
Qed.

Lemma getChildren_hit this cs w :
  RepositoriesNode.children this = Some cs ->
  RepositoriesNode.getChildren this w = (Ok (cs, this), w).
Proof. unfold RepositoriesNode.getChildren. by intros ->. Qed.

Lemma getChildren_empty this w :
  RepositoriesNode.children this = None ->
  git_repositories w = [] ->
  RepositoriesNode.getChildren this w
  = (Ok ([MessageNode (next_id w) "No repositories found"], this),
     extend w 1 [NodeConstructed (next_id w)]).
Proof.
  unfold RepositoriesNode.getChildren, bind, getRepositories.
  intros -> ->. change (length [] =? 0)%nat with true. cbv beta iota.
  by rewrite new_MessageNode_extend.
Qed.

Lemma getChildren_nonempty this w :
  RepositoriesNode.children this = None ->
  git_repositories w <> [] ->
  let nodes :=
    number_nodes (next_id w)
      (List.filter is_open (sort by_index (git_repositories w))) in
  RepositoriesNode.getChildren this w
  = (Ok (nodes, RepositoriesNode.set_children this (Some nodes)),
     extend w (length nodes) (map NodeConstructed (map node_id nodes))).
Proof.
  intros Hc HR nodes.
  assert (Hlen : length nodes
    = length (List.filter is_open (sort by_index (git_repositories w)))).
  { rewrite <- (length_map node_id nodes). unfold nodes.
    by rewrite number_nodes_id, length_seq. }
  unfold RepositoriesNode.getChildren, bind, getRepositories.
  rewrite Hc. cbv beta.
  destruct (git_repositories w) as [|r R'] eqn:E; [done|].
  change (length (r :: R') =? 0)%nat with false. cbv beta iota.
  rewrite getChildren_loop_spec, Hlen.
  unfold nodes. by rewrite number_nodes_id.
Qed.

(** C3 (as amended).  On the first call [getChildren] answers with one
    repository node per repository of the backend's set that is not
    closed, in ascending order of [index], and caches that list; it
    answers with the single placeholder exactly when the set is empty,
    and then caches nothing. *)
Theorem getChildren_first_call (this : RepositoriesNode.t) (w : World) :
  RepositoriesNode.children this = None ->
  let R := git_repositories w in
  let opened := List.filter is_open (sort by_index R) in
  exists result this' w',
    RepositoriesNode.getChildren this w = (Ok (result, this'), w') /\
    Permutation opened (List.filter is_open R) /\
    StronglySorted index_le opened /\
    (R <> [] ->
       result = number_nodes (next_id w) opened /\
       map node_repo result = map Some opened /\
       NoDup (map node_id result) /\
       RepositoriesNode.children this' = Some result) /\
    (R = [] ->
       result = [MessageNode (next_id w) "No repositories found"] /\
       RepositoriesNode.children this' = None) /\
    (R <> [] -> List.filter is_open R = [] -> result = []) /\
    ((exists id, result = [MessageNode id "No repositories found"])
     <-> R = []).
Proof.
  intros Hnone R opened.
  assert (Hperm : Permutation opened (List.filter is_open R))
    by apply Permutation_filter_bool, sort_Permutation.
  assert (Hsorted : StronglySorted index_le opened)
    by apply StronglySorted_filter, sort_by_index_sorted.
  destruct (decide (R = [])) as [HR|HR].
  - rewrite (getChildren_empty this w Hnone HR).
    eexists _, _, _. split; [reflexivity|].
    repeat split; try done. eauto.
  - rewrite (getChildren_nonempty this w Hnone HR). fold R opened.
    eexists _, _, _. split; [reflexivity|].
    split; [exact Hperm|]. split; [exact Hsorted|].
    split; [|split; [done|split]].
    + intros _. split; [reflexivity|].
      split; [apply number_nodes_repo|].
      split; [|reflexivity].
      rewrite number_nodes_id. apply NoDup_seq.
    + intros _ Hclosed. rewrite Hclosed in Hperm.
      apply Permutation_nil_r in Hperm. by rewrite Hperm.
    + split; [|done].
      intros [id Hid]. exfalso.
      assert (Hm : map node_repo (number_nodes (next_id w) opened)
                   = [None]) by (rewrite Hid; reflexivity).
      rewrite number_nodes_repo in Hm.
      destruct opened as [|? [|? ?]]; discriminate.
Qed.

(** C7 (as amended).  Once [getChildren] has answered for a non-empty
    repository set, or from a cache that was already there, every later
    call answers with the same list of the same node objects, whatever
    the backend holds by then, and constructs nothing.  For the empty
    repository set the call caches nothing: it leaves the node as it was
    and answers with a placeholder constructed by that call. *)
Theorem getChildren_cached (this : RepositoriesNode.t) (w : World) :
  (forall result this1 w1,
     RepositoriesNode.getChildren this w = (Ok (result, this1), w1) ->
     git_repositories w <> [] \/ is_Some (RepositoriesNode.children this) ->
     forall w2,
       RepositoriesNode.getChildren this1 w2 = (Ok (result, this1), w2)) /\
  (RepositoriesNode.children this = None ->
   git_repositories w = [] ->
   RepositoriesNode.getChildren this w
   = (Ok ([MessageNode (next_id w) "No repositories found"], this),
      extend w 1 [NodeConstructed (next_id w)])).
Proof.
  split; [|apply getChildren_empty].
  intros result this1 w1.
  destruct (RepositoriesNode.children this) as [cs|] eqn:Hc.
  - rewrite (getChildren_hit this cs w Hc).
    intros [= <- <- <-] _ w2. by apply getChildren_hit.
  - intros Hcall [HR|[? [=]]] w2.
    rewrite (getChildren_nonempty this w Hc HR) in Hcall.
    injection Hcall as <- <- <-. by apply getChildren_hit.
Qed.

(** ** RepositoriesNode.refresh *)

Lemma has_path_spec np c : has_path np c = true <-> node_path c = Some np.
Proof.
  unfold has_path, node_path. destruct (node_repo c) as [r|]; simpl.
  - rewrite String.eqb_eq. split; [by intros -> | by intros [= ->]].
  - split; discriminate.
Qed.

Lemma find_child_pure np old :
  all_repository_nodes old ->
  RepositoriesNode.find_child np old = Ok (List.find (has_path np) old).
Proof.
  induction 1 as [|c old Hc _ IH]; simpl; [done|].
  unfold has_path. destruct c as [|i u r]; [discriminate|]. simpl.
  destruct (String.eqb (normalizedPath r) np); [done | exact IH].
Qed.

Lemma refresh_loop_spec old repos acc w :
  all_repository_nodes old ->
  RepositoriesNode.refresh_loop old repos acc w
  = (Ok (acc ++ reconcile old (next_id w) repos),
     extend w (reconcile_new old repos)
       (reconcile_events old (next_id w) repos)).
Proof.
  intros Hold. revert acc w.
  induction repos as [|r rs IH]; intros acc w; simpl.
  - by rewrite app_nil_r, extend_0_nil.
  - unfold bind, lift_outcome. rewrite (find_child_pure _ _ Hold).
    destruct (List.find (has_path (normalizedPath r)) old) as [c|].
    + rewrite emit_extend, IH, extend_extend, <- app_assoc.
      simpl. rewrite Nat.add_0_r. reflexivity.
    + rewrite new_RepositoryNode_extend, IH, extend_extend, <- app_assoc.
      simpl. rewrite Nat.add_1_r. reflexivity.
Qed.

Lemma dispose_loop_spec old cs w :
  RepositoriesNode.dispose_loop old cs w
  = (Ok tt,
     extend w 0
       (map NodeDisposed
          (map node_id
             (List.filter
                (fun c => negb (RepositoriesNode.includes cs c)) old)))).
Proof.
  revert w; induction old as [|c old IH]; intros w; simpl.
  - by rewrite extend_0_nil.
  - destruct (RepositoriesNode.includes cs c); simpl; [apply IH|].
    unfold bind. by rewrite emit_extend, IH, extend_extend.
Qed.

Lemma refresh_never_fetched this w :
  RepositoriesNode.children this = None ->
  RepositoriesNode.refresh this w = (Ok this, w).
Proof. unfold RepositoriesNode.refresh. by intros ->. Qed.

Lemma refresh_nonempty this old w :
  RepositoriesNode.children this = Some old ->
  all_repository_nodes old ->
  git_repositories w <> [] ->
  let sorted := sort by_index (git_repositories w) in
  let cs := reconcile old (next_id w) sorted in
  RepositoriesNode.refresh this w
  = (Ok (RepositoriesNode.set_children this (Some cs)),
     extend w (reconcile_new old sorted)
       (reconcile_events old (next_id w) sorted
        ++ map NodeDisposed
             (map node_id
                (List.filter
                   (fun c => negb (RepositoriesNode.includes cs c)) old)))).
Proof.
  intros Hc Hold HR sorted cs.
  unfold RepositoriesNode.refresh, bind, getRepositories.
  rewrite Hc. cbv beta.
  destruct (git_repositories w) as [|r R'] eqn:E; [done|].
  change (length (r :: R') =? 0)%nat with false. cbv beta iota.
  change (false && (length old =? 0)%nat) with false. cbv beta iota.
  rewrite (refresh_loop_spec _ _ _ _ Hold). simpl app. fold sorted cs.
  rewrite dispose_loop_spec, extend_extend, Nat.add_0_r. reflexivity.
Qed.

(** *** The reconciled list *)

Lemma reconcile_paths old start repos :
  map node_path (reconcile old start repos)
  = map (fun r => Some (normalizedPath r)) repos.
Proof.
  revert start; induction repos as [|r rs IH]; intros start; simpl; [done|].
  destruct (List.find (has_path (normalizedPath r)) old) as [c|] eqn:F;
    simpl; rewrite IH; [|done].
  apply List.find_some in F as [_ F]. apply has_path_spec in F.
  by rewrite F.
Qed.

Lemma find_has_path_unique old c np :
  NoDup (map node_path old) -> In c old -> node_path c = Some np ->
  List.find (has_path np) old = Some c.
Proof.
  induction old as [|a old IH]; simpl; [done|].
  intros Hnd Hin Hp. apply NoDup_cons in Hnd as [Ha Hnd].
  rewrite list_elem_of_In in Ha.
  destruct (has_path np a) eqn:Hha.
  - destruct Hin as [->|Hin]; [done|]. exfalso. apply Ha.
    apply has_path_spec in Hha. rewrite Hha, <- Hp. by apply in_map.
  - destruct Hin as [->|Hin]; [|by apply IH].
    apply has_path_spec in Hp. congruence.
Qed.


(** Every node of the reconciled list is an old node matching a
    repository of the set, or a node numbered from [start]. *)
Lemma reconcile_origin old start repos c' :
  In c' (reconcile old start repos) ->
  (In c' old /\ exists r, In r repos /\
     node_path c' = Some (normalizedPath r)) \/
  (start <= node_id c' < start + reconcile_new old repos)%nat.
Proof.
  revert start; induction repos as [|r rs IH]; intros start; simpl; [done|].
  destruct (List.find (has_path (normalizedPath r)) old) as [c|] eqn:F.
  - intros [<-|Hin].
    + left. apply List.find_some in F as [Hin F].
      apply has_path_spec in F. eauto.
    + destruct (IH _ Hin) as [(? & r0 & ? & ?)|?]; [left|right]; eauto.
  - intros [<-|Hin]; [right; simpl; lia|].
    destruct (IH _ Hin) as [(? & r0 & ? & ?)|?]; [left|right]; eauto.
    lia.
Qed.


(** *** The calls made by the first loop *)






Lemma NoDup_map_injective {A B} (f : A -> B) l a b :
  NoDup (map f l) -> In a l -> In b l -> f a = f b -> a = b.
Proof.
  induction l as [|x l IH]; simpl; [done|].
  intros Hnd Ha Hb E. apply NoDup_cons in Hnd as [Hx Hnd].
  rewrite list_elem_of_In in Hx.
  destruct Ha as [->|Ha], Hb as [->|Hb]; try done.
  - exfalso. apply Hx. rewrite E. by apply in_map.
  - exfalso. apply Hx. rewrite <- E. by apply in_map.
  - by apply IH.
Qed.


Lemma includes_spec cs c :
  RepositoriesNode.includes cs c = true <-> In (node_id c) (map node_id cs).
Proof.
  unfold RepositoriesNode.includes. rewrite existsb_exists, in_map_iff.
  split; intros (x & H1 & H2); exists x.
  - by apply Nat.eqb_eq in H2.
  - split; [done|]. by apply Nat.eqb_eq.
Qed.





Lemma NoDup_map_filter {A B} (f : A -> B) (g : A -> bool) l :
  NoDup (map f l) -> NoDup (map f (List.filter g l)).
Proof.
  induction l as [|x l IH]; simpl; [done|].
  intros Hnd. apply NoDup_cons in Hnd as [Hx Hnd].
  destruct (g x); simpl; [|by apply IH].
  constructor; [|by apply IH].
  rewrite list_elem_of_In in *. intros Hin. apply Hx.
  apply in_map_iff in Hin as (y & <- & Hy).
  apply filter_In in Hy as [Hy _]. by apply in_map.
Qed.



Lemma getChildren_first_call_witness :
  exists this' w',
    RepositoriesNode.getChildren root_fresh
        (world_of 1 [repo_a; repo_b_closed])
      = (Ok ([node_of 1 repo_a], this'), w') /\
    RepositoriesNode.children this' = Some [node_of 1 repo_a].
Proof.
  destruct (getChildren_first_call root_fresh
              (world_of 1 [repo_a; repo_b_closed]) eq_refl)
    as (result & this' & w' & Hrun & _ & _ & Hne & _).
  destruct Hne as (-> & _ & _ & Hc); [discriminate|].
  exists this', w'. split; [exact Hrun | exact Hc].
Defined.

(** C3, the claim as stated fails: a set that holds closed repositories
    only has no open repository, and the answer is the empty list, not
    the placeholder. *)
Lemma getChildren_all_closed_no_placeholder :
  List.filter is_open (git_repositories (world_of 1 [repo_b_closed])) = [] /\
  fst (RepositoriesNode.getChildren root_fresh (world_of 1 [repo_b_closed]))
  = Ok ([], RepositoriesNode.mk 0 (Some [])).
Proof. split; reflexivity. Qed.

Lemma getChildren_cached_witness :
  RepositoriesNode.getChildren root_a (world_of 2 [])
  = (Ok ([node_of 1 repo_a], root_a), world_of 2 []).
Proof.
  destruct (getChildren_cached root_fresh
              (world_of 1 [repo_a; repo_b_closed])) as [Hcached _].
  eapply Hcached.
  - reflexivity.
  - left. discriminate.
Defined.

(** C7, the claim as stated fails: for the empty repository set nothing
    is cached, and the second call constructs another placeholder
    object. *)
Lemma getChildren_empty_not_cached :
  exists w1 w2,
    RepositoriesNode.getChildren root_fresh (world_of 1 [])
      = (Ok ([MessageNode 1 "No repositories found"], root_fresh), w1) /\
    RepositoriesNode.getChildren root_fresh w1
      = (Ok ([MessageNode 2 "No repositories found"], root_fresh), w2) /\
    RepositoriesNode.children root_fresh = None.
Proof. eexists _, _. repeat split. Qed.

(** The loop of [getChildren] skips closed repositories: every child it
    caches stands for a repository that is not closed. *)
Lemma getChildren_excludes_closed this w result this' w' :
  RepositoriesNode.children this = None ->
  RepositoriesNode.getChildren this w = (Ok (result, this'), w') ->
  forall c cs, RepositoriesNode.children this' = Some cs -> In c cs ->
    exists r, node_repo c = Some r /\ closed r = false.
Proof.
  intros Hnone Hrun c cs Hcs Hc.
  destruct (decide (git_repositories w = [])) as [HR|HR].
  - rewrite (getChildren_empty this w Hnone HR) in Hrun.
    injection Hrun as <- <- <-. congruence.
  - rewrite (getChildren_nonempty this w Hnone HR) in Hrun.
    injection Hrun as <- <- <-. injection Hcs as <-.
    apply (in_map node_repo) in Hc. rewrite number_nodes_repo in Hc.
    apply in_map_iff in Hc as (r & <- & Hr).
    apply filter_In in Hr as [_ Hr]. exists r. split; [done|].
    unfold is_open in Hr. by destruct (closed r).
Qed.

(** C4, the defect: [refresh] has no test of [closed].  With the child of
    an open repository cached and a backend that now reports a closed
    repository as well, the cache ends up holding a node for the closed
    repository. *)
Theorem refresh_adds_closed_repository :
  fst (RepositoriesNode.refresh root_a
         (world_of 2 [repo_a; repo_b_closed]))
  = Ok (RepositoriesNode.mk 0
          (Some [node_of 2 repo_b_closed; node_of 1 repo_a])) /\
  closed repo_b_closed = true.
Proof. split; reflexivity. Qed.

(** ** GitExplorer.refreshNode *)








(** ** Worlds reached by the root node's refresh *)

#[local] Arguments emit : simpl never.
#[local] Arguments fresh : simpl never.
#[local] Arguments new_RepositoryNode : simpl never.
#[local] Arguments new_MessageNode : simpl never.
#[local] Arguments extend : simpl never.

Lemma extends_refl w : extends w w.
Proof. exists 0%nat, []. by rewrite extend_0_nil. Qed.

Lemma extends_trans w1 w2 w3 : extends w1 w2 -> extends w2 w3 -> extends w1 w3.
Proof.
  intros (n1 & e1 & ->) (n2 & e2 & ->). rewrite extend_extend.
  by eexists _, _.
Qed.

Lemma extends_extend w n evs : extends w (extend w n evs).
Proof. by exists n, evs. Qed.

Lemma refresh_loop_extends old repos acc w :
  extends w (snd (RepositoriesNode.refresh_loop old repos acc w)).
Proof.
  revert acc w; induction repos as [|r rs IH]; intros acc w;
    cbn [RepositoriesNode.refresh_loop].
  - apply extends_refl.
  - unfold bind, lift_outcome.
    destruct (RepositoriesNode.find_child (normalizedPath r) old)
      as [[c|]|e]; cbv beta iota.
    + rewrite emit_extend.
      eapply extends_trans; [apply extends_extend | apply IH].
    + rewrite new_RepositoryNode_extend.
      eapply extends_trans; [apply extends_extend | apply IH].
    + apply extends_refl.
Qed.

Lemma RepositoriesNode_refresh_extends root w :
  extends w (snd (RepositoriesNode.refresh root w)).
Proof.
  unfold RepositoriesNode.refresh.
  destruct (RepositoriesNode.children root) as [old|];
    [|apply extends_refl].
  unfold bind, getRepositories.
  destruct (_ && _); [apply extends_refl|].
  destruct (_ =? _)%nat.
  - rewrite new_MessageNode_extend. apply extends_extend.
  - pose proof (refresh_loop_extends old
                  (sort by_index (git_repositories w)) [] w) as Hloop.
    destruct (RepositoriesNode.refresh_loop old _ [] w) as [[cs|e] w1];
      simpl in *; [|exact Hloop].
    rewrite dispose_loop_spec. simpl.
    eapply extends_trans; [exact Hloop | apply extends_extend].
Qed.

Lemma RepositoriesNode_refresh_self root w root' w' :
  RepositoriesNode.refresh root w = (Ok root', w') ->
  RepositoriesNode.self root' = RepositoriesNode.self root.
Proof.
  unfold RepositoriesNode.refresh.
  destruct (RepositoriesNode.children root) as [old|];
    [|by intros [= <- <-]].
  unfold bind, getRepositories.
  destruct (_ && _); [by intros [= <- <-]|].
  destruct (_ =? _)%nat.
  - rewrite new_MessageNode_extend. by intros [= <- <-].
  - destruct (RepositoriesNode.refresh_loop old _ [] w) as [[cs|e] w1];
      [|discriminate].
    rewrite dispose_loop_spec. by intros [= <- <-].
Qed.

(** ** GitExplorer.refresh *)

(** A refresh that is not awaited: it logs its reason first, leaves the
    explorer's handles alone and keeps the root object. *)
Lemma refresh_detached_spec this reason w :
  exists this' n evs,
    GitExplorer.detached this (GitExplorer.refresh this reason) w
    = (Ok this',
       extend w n (RefreshLogged (default Command reason) :: evs)) /\
    root_id this' = root_id this /\
    GitExplorer._disposable this' = GitExplorer._disposable this /\
    GitExplorer._tree this' = GitExplorer._tree this /\
    GitExplorer._onDidChangeTreeData this'
      = GitExplorer._onDidChangeTreeData this /\
    GitExplorer._autoRefreshDisposable this'
      = GitExplorer._autoRefreshDisposable this.
Proof.
  unfold GitExplorer.detached, GitExplorer.refresh, bind.
  rewrite emit_extend. unfold root_id.
  destruct (GitExplorer._root this) as [root|] eqn:Hroot; cbv beta iota.
  - pose proof (RepositoriesNode_refresh_extends root
                  (extend w 0 [RefreshLogged (default Command reason)]))
      as (n & evs & Hw).
    destruct (RepositoriesNode.refresh root _) as [[root'|e] w1] eqn:E;
      cbn [snd] in Hw; subst w1; unfold ret; cbv beta iota.
    + rewrite emit_extend, !extend_extend.
      eexists _, _, _. split; [reflexivity|].
      apply RepositoriesNode_refresh_self in E.
      cbn. by rewrite E.
    + rewrite extend_extend.
      eexists _, _, _. split; [reflexivity|]. by rewrite Hroot.
  - unfold ret. cbv beta iota. rewrite emit_extend, extend_extend.
    eexists _, _, _. split; [reflexivity|]. by rewrite Hroot.
Qed.

(** ** GitExplorer.setAutoRefresh *)

Ltac run_setAutoRefresh :=
  cbv [GitExplorer.setAutoRefresh bind ret GitExplorer.dispose
       GitExplorer.workspaceState_get GitExplorer.workspaceState_update
       GitExplorer.onDidChangeRepositories
       GitExplorer.context_subscriptions_push GitExplorer.setCommandContext
       GitExplorer.and_flag emit];
  cbn [GitExplorer._autoRefreshDisposable GitExplorer.set_autoRefreshDisposable
       GitExplorer._disposable GitExplorer._root GitExplorer._tree
       GitExplorer._onDidChangeTreeData
       next_id git_repositories git_listeners workspaceState config
       context_subscriptions log].

(** What a call of [setAutoRefresh] does, in full. *)
Lemma setAutoRefresh_spec this enabled override w :
  let old := GitExplorer._autoRefreshDisposable this in
  let on := enabled && workspace_flag override w in
  exists this' w' more,
    GitExplorer.setAutoRefresh this enabled override w = (Ok this', w') /\
    log w' = log w ++ setAutoRefresh_events old enabled override w
             ++ (if enabled && bool_decide (override = Some true)
                 then RefreshLogged AutoRefreshChanged :: more else []) /\
    git_listeners w'
      = without old (git_listeners w) ++ (if on then [next_id w] else []) /\
    GitExplorer._autoRefreshDisposable this'
      = (if on then Some (next_id w) else None) /\
    workspaceState w'
      = (if enabled then
           match override with
           | Some v => <[GitExplorerAutoRefresh := v]> (workspaceState w)
           | None => workspaceState w
           end
         else workspaceState w) /\
    config w' = config w /\
    (next_id w <= next_id w')%nat /\
    root_id this' = root_id this /\
    GitExplorer._disposable this' = GitExplorer._disposable this /\
    GitExplorer._tree this' = GitExplorer._tree this /\
    GitExplorer._onDidChangeTreeData this'
      = GitExplorer._onDidChangeTreeData this /\
    (on = true -> next_id w < next_id w')%nat /\
    (override = None ->
       GitExplorer._root this' = GitExplorer._root this /\
       next_id w' = (next_id w + if on then 1 else 0)%nat).
Proof.
  intros old on. subst old on.
  unfold setAutoRefresh_events, workspace_flag, without.
  destruct this as [disp root tree emitter [d|]];
    destruct enabled; destruct override as [[|]|];
    try destruct (workspaceState w !! GitExplorerAutoRefresh) as [[|]|] eqn:Hws;
    run_setAutoRefresh; rewrite ?Hws; cbn [default andb];
    try match goal with
    | |- context [GitExplorer.detached ?t (GitExplorer.refresh ?t ?r) ?w0] =>
        destruct (refresh_detached_spec t r w0)
          as (this' & n & evs & -> & Hroot & Hd & Ht & He & Ha);
        exists this', (extend w0 n (RefreshLogged (default Command r) :: evs)),
          evs
    | |- _ => eexists _, _, []
    end;
    (split; [reflexivity|]);
    cbn [GitExplorer._autoRefreshDisposable GitExplorer._disposable
         GitExplorer._root GitExplorer._tree GitExplorer._onDidChangeTreeData
         next_id git_repositories git_listeners workspaceState config
         context_subscriptions log extend default bool_decide] in *;
    repeat split;
    unfold extend, id;
    cbn [next_id git_repositories git_listeners workspaceState config
         context_subscriptions log];
    rewrite ?app_nil_r, <- ?app_assoc; cbn [app];
    try (rewrite bool_decide_eq_true_2 by done);
    try done; try lia.
Qed.







(** C6 (as amended).  [setAutoRefresh] logs a refresh for the reason
    [AutoRefreshChanged] exactly when [enabled] is true and the override
    is given as true: not for an override of false, and not without an
    override.  When [enabled] is true and an override is given, whatever
    its value, the override is persisted and the auto-refresh
    notification fires; otherwise the persisted flag is left alone and
    nothing fires. *)
Theorem setAutoRefresh_refresh_trigger (this : GitExplorer.t)
    (enabled : bool) (override : option bool) (w : World) :
  exists this' w' evs,
    GitExplorer.setAutoRefresh this enabled override w = (Ok this', w') /\
    log w' = log w ++ evs /\
    (In (RefreshLogged AutoRefreshChanged) evs
     <-> enabled = true /\ override = Some true) /\
    (forall v, enabled = true -> override = Some v ->
       workspaceState w' !! GitExplorerAutoRefresh = Some v /\
       In (WorkspaceStateUpdated GitExplorerAutoRefresh v) evs /\
       In AutoRefreshChangedFired evs) /\
    (enabled = false \/ override = None ->
       workspaceState w' = workspaceState w /\
       ~ In AutoRefreshChangedFired evs).
Proof.
  destruct (setAutoRefresh_spec this enabled override w)
    as (this' & w' & more & Hrun & Hlog & _ & _ & Hws & _).
  exists this', w'. eexists. split; [exact Hrun|]. split; [exact Hlog|].
  rewrite Hws. clear Hrun Hlog Hws. unfold setAutoRefresh_events.
  generalize (workspace_flag override w). intros flag.
  destruct (GitExplorer._autoRefreshDisposable this) as [d|];
    destruct enabled; destruct override as [[|]|]; destruct flag;
    cbn [andb app]; try (rewrite bool_decide_eq_true_2 by done);
    try (rewrite bool_decide_eq_false_2 by done);
    (split; [|split]).
  all: try (intros v; intros; simplify_eq; rewrite ?lookup_insert_eq).
  all: try (intros [[=]|[=]]).
  all: rewrite ?in_app_iff; simpl.
  all: try (split; [|split]); try done.
  all: try (split; intros; intuition (try discriminate; done)).
  all: try (intuition (try discriminate; done)).
Qed.

(** C6, the claim as stated fails: with an override of false the override
    path is taken (the flag is persisted, the notification fires) and no
    refresh is started. *)
Lemma setAutoRefresh_override_false_no_refresh :
  log (snd (GitExplorer.setAutoRefresh explorer_idle true (Some false)
              (world_of 1 [])))
  = [WorkspaceStateUpdated GitExplorerAutoRefresh false;
     AutoRefreshChangedFired;
     SetCommandContext CtxGitExplorerAutoRefresh (CtxBool false)].
Proof. reflexivity. Qed.

(** ** GitExplorer.onConfigurationChanged *)

Lemma setRoot_existing this root w :
  GitExplorer._root this = Some root ->
  GitExplorer.setRoot this w = (Ok this, w).
Proof. unfold GitExplorer.setRoot. by intros ->. Qed.

Lemma rebindTree_bound this w tree vis root :
  GitExplorer._disposable this = Some (tree, vis) ->
  GitExplorer._root this = Some root ->
  let n := next_id w in
  exists w',
    GitExplorer.rebindTree this w
    = (Ok (GitExplorer.mk (Some (S n, S (S n))) (Some root) (Some (S n)) n
             (GitExplorer._autoRefreshDisposable this)), w') /\
    log w'
    = log w ++ [HandleDisposed tree; HandleDisposed vis; EmitterCreated n;
                TreeViewCreated
                  ("gitlens.gitExplorer:" ++ cfg_location (config w)) (S n);
                VisibilitySubscribed (S n) (S (S n))].
Proof.
  destruct this as [disp r tr em ar]. intros Hd Hr n.
  cbn [GitExplorer._disposable GitExplorer._root] in Hd, Hr. subst disp r.
  cbv [GitExplorer.rebindTree bind ret GitExplorer.dispose
       GitExplorer.new_EventEmitter GitExplorer.setRoot
       GitExplorer.get_config GitExplorer.createTreeView
       GitExplorer.tree_onDidChangeVisibility fresh emit].
  cbn [GitExplorer._disposable GitExplorer._root GitExplorer._tree
       GitExplorer._onDidChangeTreeData GitExplorer._autoRefreshDisposable
       GitExplorer.set_onDidChangeTreeData GitExplorer.set_root
       GitExplorer.set_tree GitExplorer.set_disposable
       next_id git_repositories git_listeners workspaceState config
       context_subscriptions log].
  eexists. split; [reflexivity|].
  cbn [log]. rewrite <- !app_assoc. reflexivity.
Qed.

(** C5 (as amended).  On a change event for the view-location setting,
    an explorer that is bound to a tree view and has a root disposes the
    old tree view and its visibility subscription, keeps its root object
    ([setRoot] constructs a root only where there is none), and binds a
    tree view, created during the call, for the configured location. *)
Theorem onConfigurationChanged_location (this : GitExplorer.t)
    (e : GitExplorer.ConfigurationChangeEvent) (w : World)
    (tree vis : nat) (root : RepositoriesNode.t) :
  GitExplorer.initializing e = false ->
  GitExplorer.changed e GitExplorer.gitExplorer = true ->
  GitExplorer.changed e GitExplorer.gitExplorer_location = true ->
  GitExplorer._disposable this = Some (tree, vis) ->
  GitExplorer._root this = Some root ->
  exists this' w' evs,
    GitExplorer.onConfigurationChanged this e w = (Ok this', w') /\
    log w' = log w ++ evs /\
    In (HandleDisposed tree) evs /\
    In (HandleDisposed vis) evs /\
    root_id this' = Some (RepositoriesNode.self root) /\
    (forall w0, GitExplorer.setRoot this w0 = (Ok this, w0)) /\
    exists tree' vis',
      GitExplorer._tree this' = Some tree' /\
      GitExplorer._disposable this' = Some (tree', vis') /\
      (next_id w <= tree')%nat /\
      In (TreeViewCreated
            ("gitlens.gitExplorer:" ++ cfg_location (config w)) tree') evs.
Proof.
  intros Hinit Hge Hloc Hdisp Hroot.
  unfold GitExplorer.onConfigurationChanged, bind.
  rewrite Hinit, Hge, Hloc. cbn [negb andb orb]. rewrite orb_true_r.
  unfold GitExplorer.get_config at 1, GitExplorer.setCommandContext.
  cbv beta iota. rewrite emit_extend. cbv beta iota.
  set (w0 := extend w 0 _).
  assert (Htail : forall this1 w1 evs1,
    log w1 = log w0 ++ evs1 -> config w1 = config w ->
    (next_id w <= next_id w1)%nat ->
    GitExplorer._disposable this1 = Some (tree, vis) ->
    GitExplorer._root this1 = Some root ->
    exists this' w' evs,
      (let (o1, s1) := GitExplorer.rebindTree this1 w1 in
       match o1 with
       | Ok a1 =>
           (if bool_decide (is_Some (GitExplorer._root a1))
            then GitExplorer.detached a1
                   (GitExplorer.refresh a1 (Some ConfigurationChanged))
            else ret a1) s1
       | Throw e0 => (Throw e0, s1)
       end) = (Ok this', w') /\
      log w' = log w ++ evs /\
      In (HandleDisposed tree) evs /\
      In (HandleDisposed vis) evs /\
      root_id this' = Some (RepositoriesNode.self root) /\
      (forall w3, GitExplorer.setRoot this w3 = (Ok this, w3)) /\
      exists tree' vis',
        GitExplorer._tree this' = Some tree' /\
        GitExplorer._disposable this' = Some (tree', vis') /\
        (next_id w <= tree')%nat /\
        In (TreeViewCreated
              ("gitlens.gitExplorer:" ++ cfg_location (config w)) tree')
           evs).
  { intros this1 w1 evs1 Hlog1 Hcfg1 Hn1 Hd1 Hr1.
    destruct (rebindTree_bound this1 w1 tree vis root Hd1 Hr1)
      as (w2 & -> & Hlog2).
    cbn [GitExplorer._root]. rewrite bool_decide_eq_true_2 by eauto.
    match goal with
    | |- context [GitExplorer.detached ?t (GitExplorer.refresh ?t ?r) ?w4] =>
        destruct (refresh_detached_spec t r w4)
          as (this' & n & evs & -> & Hroot' & Hd' & Ht' & _)
    end.
    exists this'. eexists. eexists. split; [reflexivity|].
    split.
    { unfold extend at 1. cbn [log]. rewrite Hlog2, Hlog1. unfold w0, extend.
      cbn [log]. rewrite <- !app_assoc. reflexivity. }
    rewrite Hcfg1 in *.
    split; [rewrite !in_app_iff; simpl; tauto|].
    split; [rewrite !in_app_iff; simpl; tauto|].
    split; [exact Hroot'|].
    split; [intros w3; by eapply setRoot_existing|].
    exists (S (next_id w1)), (S (S (next_id w1))).
    split; [exact Ht'|]. split; [exact Hd'|]. split; [lia|].
    rewrite !in_app_iff; simpl; tauto. }
  destruct (GitExplorer.changed e GitExplorer.gitExplorer_autoRefresh).
  - unfold GitExplorer.get_config. cbv beta iota.
    destruct (setAutoRefresh_spec this (cfg_autoRefresh (config w0))
                None w0)
      as (this1 & w1 & more & -> & Hlog & _ & _ & _ & Hcfg & Hn & _
          & Hd & _ & _ & _ & Hr).
    destruct (Hr eq_refl) as [Hr' _].
    eapply Htail; [exact Hlog | exact Hcfg | | congruence | congruence].
    unfold w0, extend in Hn. simpl in Hn. lia.
  - unfold ret at 1. cbv beta iota.
    eapply (Htail this w0 []); [by rewrite app_nil_r | done | | done | done].
    unfold w0, extend. simpl. lia.
Qed.

Lemma onConfigurationChanged_location_witness :
  exists this' w',
    GitExplorer.onConfigurationChanged explorer_bound location_changed
        (world_of 4 [])
      = (Ok this', w') /\
    root_id this' = Some 0%nat /\
    In (HandleDisposed 1) (log w').
Proof.
  destruct (onConfigurationChanged_location explorer_bound location_changed
              (world_of 4 []) 1 2 root_fresh)
    as (this' & w' & evs & Hrun & Hlog & Htree & _ & Hroot & _);
    try reflexivity.
  exists this', w'. split; [exact Hrun|]. split; [exact Hroot|].
  rewrite Hlog. apply in_app_iff. by right.
Defined.

(** C5, the claim as stated fails: after a location change the root is
    the object it was before, no new root replaces it. *)
Lemma onConfigurationChanged_keeps_root :
  exists this' w',
    GitExplorer.onConfigurationChanged explorer_bound location_changed
        (world_of 4 [])
      = (Ok this', w') /\
    GitExplorer._root this' = GitExplorer._root explorer_bound /\
    constructed_ids (log w') = [].
Proof.
  eexists _, _. split; [vm_compute; reflexivity|].
  split; vm_compute; reflexivity.
Qed.

(** ** LineHoverController *)

Ltac hover_simpl :=
  cbn [LineHoverController.tracked_lines LineHoverController.line_states
       LineHoverController.annotationType
       LineHoverController.hovers_annotations_details
       LineHoverController.hovers_annotations_changes
       LineHoverController.hovers_currentLine_over
       LineHoverController.lineAnnotations_suspended
       LineHoverController.defaultDateFormat
       LineHoverController.git_logCommitForFile
       LineHoverController.git_remotes
       LineHoverController.tracker_documents
       LineHoverController.getHoverMessage
       LineHoverController.changesHover
       LineHoverController.next_handle LineHoverController.calls
       LineHoverController.set_calls LineHoverController.set_line_states
       with_over negb andb] in *.

Ltac run_hover :=
  cbv [LineHoverController.provideDetailsHover
       LineHoverController.provideChangesHover bind ret read
       LineHoverController.lineTracker_includes
       LineHoverController.lineTracker_getState
       LineHoverController.git_getLogCommitForFile
       LineHoverController.git_getRemotes
       LineHoverController.lineState_set_logCommit];
  hover_simpl.

(** Case analysis along the early returns of a hover provider. *)
Ltac hover_cases := repeat (case_match; hover_simpl); simplify_eq.

(** A debug session that has started is on until it ends. *)
Lemma onDebugSessionStarted_debugging this env this' env' :
  LineHoverController.onDebugSessionStarted this env = (Ok this', env') ->
  LineHoverController.debugging this' = true.
Proof.
  unfold LineHoverController.onDebugSessionStarted,
    LineHoverController.debugging.
  destruct (LineHoverController._debugSessionEndDisposable this) eqn:E.
  - intros [= <- <-]. rewrite E. by apply bool_decide_eq_true_2.
  - intros [= <- <-]. reflexivity.
Qed.

(** C2 (as amended).  While a debug session is on, neither hover is ever
    over the whole line: a hover that is produced has the range of the
    annotation, which starts at the end of the line (the position past
    which the host clamps), and it is produced only for a position at
    that character; the configured [over] mode plays no part. *)
Theorem hovers_while_debugging (this : LineHoverController.t)
    (document : LineHoverController.TextDocument)
    (position : LineHoverController.Position)
    (env : LineHoverController.Env) :
  LineHoverController.debugging this = true ->
  let annotation :=
    LineHoverController.hover_range document position false in
  (forall h env',
     LineHoverController.provideDetailsHover this document position env
       = (Ok (Some h), env') ->
     LineHoverController.range h = annotation /\
     LineHoverController.character
       (LineHoverController.range_start annotation)
     = LineHoverController.character position /\
     LineHoverController.lineAnnotations_suspended env = false) /\
  (forall h env',
     LineHoverController.provideChangesHover this document position env
       = (Ok (Some h), env') ->
     LineHoverController.range h = annotation /\
     LineHoverController.character
       (LineHoverController.range_start annotation)
     = LineHoverController.character position /\
     LineHoverController.lineAnnotations_suspended env = false) /\
  (forall over,
     fst (LineHoverController.provideDetailsHover this document position
            (with_over env over))
     = fst (LineHoverController.provideDetailsHover this document position
              env)) /\
  (forall over,
     fst (LineHoverController.provideChangesHover this document position
            (with_over env over))
     = fst (LineHoverController.provideChangesHover this document position
              env)).
Proof.
  intros Hdbg annotation. subst annotation.
  split; [|split; [|split]].
  - intros h env'. run_hover. rewrite Hdbg. intros Hrun. hover_cases.
    all: split; [reflexivity|]; split; [|done].
    all: match goal with
         | H : negb (N.eqb _ _) = false |- _ =>
             apply negb_false_iff, N.eqb_eq in H; exact H
         end.
  - intros h env'. run_hover. rewrite Hdbg. intros Hrun. hover_cases.
    all: split; [reflexivity|]; split; [|done].
    all: match goal with
         | H : negb (N.eqb _ _) = false |- _ =>
             apply negb_false_iff, N.eqb_eq in H; exact H
         end.
  - intros over. run_hover. rewrite Hdbg.
    hover_cases; hover_simpl; simplify_eq; solve [reflexivity | congruence].
  - intros over. run_hover. rewrite Hdbg.
    hover_cases; hover_simpl; simplify_eq; solve [reflexivity | congruence].
Qed.

Lemma hovers_while_debugging_witness :
  exists h env',
    LineHoverController.provideDetailsHover debugging_controller
        hover_document (LineHoverController.mkPosition 0 3) hover_env
      = (Ok (Some h), env') /\
    LineHoverController.range h
    = LineHoverController.mkRange (LineHoverController.mkPosition 0 3)
        (LineHoverController.mkPosition 0 3).
Proof.
  destruct (hovers_while_debugging debugging_controller hover_document
              (LineHoverController.mkPosition 0 3) hover_env eq_refl)
    as (Hdetails & _).
  eexists _, _. split; [vm_compute; reflexivity|].
  eapply eq_trans; [eapply (Hdetails _ _); vm_compute; reflexivity|].
  vm_compute. reflexivity.
Defined.

(** C2, the claim as stated fails: during a debug session, with hovers
    configured for the whole line, both hovers on a line of three
    characters start at character 3, not at character 0. *)
Lemma debugging_hover_not_whole_line :
  LineHoverController.debugging debugging_controller = true /\
  LineHoverController.hovers_currentLine_over hover_env = "line" /\
  (exists h,
     fst (LineHoverController.provideDetailsHover debugging_controller
            hover_document (LineHoverController.mkPosition 0 3) hover_env)
       = Ok (Some h) /\
     LineHoverController.character
       (LineHoverController.range_start (LineHoverController.range h))
     = 3%N) /\
  (exists h,
     fst (LineHoverController.provideChangesHover debugging_controller
            hover_document (LineHoverController.mkPosition 0 3) hover_env)
       = Ok (Some h) /\
     LineHoverController.character
       (LineHoverController.range_start (LineHoverController.range h))
     = 3%N).
Proof.
  split; [reflexivity|]. split; [reflexivity|].
  split; eexists; (split; [vm_compute; reflexivity | reflexivity]).
Qed.

(** C10.  For a line whose cached state has a blame commit that is
    uncommitted and no log commit, [provideDetailsHover] makes no
    [getLogCommitForFile] call, leaves the line tracker's states as they
    are (the log commit stays undefined), and a hover it produces has the
    message built from the blame commit. *)
Theorem provideDetailsHover_uncommitted (this : LineHoverController.t)
    (document : LineHoverController.TextDocument)
    (position : LineHoverController.Position)
    (env : LineHoverController.Env)
    (ls : LineHoverController.LineState)
    (c : LineHoverController.GitCommit) :
  LineHoverController.line_states env !! LineHoverController.line position
    = Some ls ->
  LineHoverController.commit ls = Some c ->
  LineHoverController.isUncommitted c = true ->
  LineHoverController.logCommit ls = None ->
  exists result env' new,
    LineHoverController.provideDetailsHover this document position env
      = (Ok result, env') /\
    LineHoverController.calls env' = LineHoverController.calls env ++ new /\
    (forall repoPath fileName ref,
       ~ In (LineHoverController.GetLogCommitForFile repoPath fileName ref)
            new) /\
    LineHoverController.line_states env'
      = LineHoverController.line_states env /\
    (forall h, result = Some h ->
       LineHoverController.contents h
       = LineHoverController.getHoverMessage env c
           (LineHoverController.defaultDateFormat env)
           (LineHoverController.git_remotes env
              (LineHoverController.repoPath c))
           (LineHoverController.annotationType env)
           (LineHoverController.line position)).
Proof.
  intros Hls Hc Hunc Hlog. run_hover.
  repeat (case_match; hover_simpl).
  all: simplify_eq; hover_simpl.
  all: rewrite ?Hls in *; cbn [mbind option_bind] in *; simplify_eq.
  all: try match goal with
           | H : _ && negb (LineHoverController.isUncommitted _) = true
             |- _ =>
               rewrite Hunc, andb_false_r in H; discriminate
           end.
  all: first
    [ eexists _, _, []; split; [reflexivity|];
      split; [symmetry; apply app_nil_r|]
    | eexists _, _, [_]; split; [reflexivity|]; split; [reflexivity|] ].
  all: split; [intros ? ? ?; simpl; intuition discriminate|].
  all: split; [reflexivity|].
  all: intros h [= <-]; cbn; rewrite ?Hlog; reflexivity.
Qed.

Lemma provideDetailsHover_uncommitted_witness :
  exists result env',
    LineHoverController.provideDetailsHover (LineHoverController.mk None)
        hover_document (LineHoverController.mkPosition 0 1) hover_env
      = (Ok result, env') /\
    LineHoverController.calls env'
      = [LineHoverController.GetRemotes "/repo"] /\
    LineHoverController.line_states env'
      = LineHoverController.line_states hover_env /\
    LineHoverController.contents <$> result = Some "Uncommitted changes".
Proof.
  destruct (provideDetailsHover_uncommitted (LineHoverController.mk None)
              hover_document (LineHoverController.mkPosition 0 1) hover_env
              (LineHoverController.mkLineState (Some uncommitted_commit) None)
              uncommitted_commit)
    as (result & env' & new & Hrun & _ & _ & Hstates & _);
    try reflexivity.
  exists result, env'. split; [exact Hrun|].
  assert (Heval :
    LineHoverController.provideDetailsHover (LineHoverController.mk None)
        hover_document (LineHoverController.mkPosition 0 1) hover_env
    = LineHoverController.provideDetailsHover (LineHoverController.mk None)
        hover_document (LineHoverController.mkPosition 0 1) hover_env)
    by reflexivity.
  rewrite Hrun in Heval at 1. vm_compute in Heval.
  injection Heval as -> ->. split; [reflexivity|].
  split; [exact Hstates | reflexivity].
Defined.

(** * Further properties *)

(** ** RepositoriesNode: the cache under [getChildren] and [refresh] *)

Lemma number_nodes_path start repos :
  map node_path (number_nodes start repos)
  = map (fun r => Some (normalizedPath r)) repos.
Proof.
  revert start; induction repos as [|r rs IH]; intros start; simpl; [done|].
  by rewrite IH.
Qed.

Lemma number_nodes_all_repository start repos :
  all_repository_nodes (number_nodes start repos).
Proof.
  revert start; induction repos as [|r rs IH]; intros start; simpl;
    constructor; [done | apply IH].
Qed.

Lemma NoDup_map_Some {A} (l : list A) : NoDup l -> NoDup (map Some l).
Proof.
  induction 1 as [|x l Hx Hl IH]; simpl; constructor; [|done].
  rewrite list_elem_of_In, in_map_iff. intros (y & [= ->] & Hy).
  by apply Hx, list_elem_of_In.
Qed.

Lemma NoDup_paths_Some (repos : list Repository) :
  NoDup (map normalizedPath repos) ->
  NoDup (map (fun r => Some (normalizedPath r)) repos).
Proof.
  intros Hnd. apply NoDup_map_Some in Hnd.
  by rewrite map_map in Hnd.
Qed.

(** X1.  The first [getChildren] over a set with distinct normalized paths
    leaves a well-formed cache: repository nodes only, distinct objects,
    distinct paths. *)
Theorem getChildren_wellformed (this : RepositoriesNode.t) (w : World) :
  RepositoriesNode.children this = None ->
  NoDup (map normalizedPath (git_repositories w)) ->
  exists result this' w',
    RepositoriesNode.getChildren this w = (Ok (result, this'), w') /\
    wf_root this' w'.
Proof.
  intros Hnone Hnd.
  destruct (decide (git_repositories w = [])) as [HR|HR].
  - rewrite (getChildren_empty this w Hnone HR).
    eexists _, _, _. split; [reflexivity|].
    intros cs Hcs. congruence.
  - rewrite (getChildren_nonempty this w Hnone HR).
    eexists _, _, _. split; [reflexivity|].
    intros cs [= <-].
    set (opened := List.filter is_open (sort by_index (git_repositories w))).
    split; [apply number_nodes_all_repository|].
    split; [rewrite number_nodes_id; apply NoDup_seq|].
    split.
    + rewrite number_nodes_path. apply NoDup_paths_Some.
      apply (NoDup_map_filter normalizedPath is_open).
      assert (Hp : Permutation
                     (map normalizedPath (sort by_index (git_repositories w)))
                     (map normalizedPath (git_repositories w)))
        by apply Permutation_map, sort_Permutation.
      by rewrite Hp.
    + apply List.Forall_forall. intros c Hc.
      apply (in_map node_id) in Hc. rewrite number_nodes_id in Hc.
      apply in_seq in Hc. unfold extend. simpl.
      rewrite <- (length_map node_id), number_nodes_id, length_seq. lia.
Qed.

Lemma getChildren_wellformed_witness :
  exists result this' w',
    RepositoriesNode.getChildren root_fresh
        (world_of 1 [repo_a; repo_b_closed])
      = (Ok (result, this'), w') /\
    wf_root this' w'.
Proof.
  apply (getChildren_wellformed root_fresh
           (world_of 1 [repo_a; repo_b_closed])).
  - reflexivity.
  - apply (bool_decide_unpack _). vm_compute. exact I.
Defined.

Lemma reconcile_all_repository old start repos :
  all_repository_nodes old ->
  all_repository_nodes (reconcile old start repos).
Proof.
  intros Hold. revert start.
  induction repos as [|r rs IH]; intros start; simpl; [constructor|].
  destruct (List.find (has_path (normalizedPath r)) old) as [c|] eqn:F.
  - constructor; [|apply IH]. apply List.find_some in F as [Hin _].
    eapply List.Forall_forall in Hold; eauto.
  - constructor; [done | apply IH].
Qed.

Lemma reconcile_ids_NoDup old start repos :
  NoDup (map node_id old) ->
  Forall (fun c => (node_id c < start)%nat) old ->
  NoDup (map normalizedPath repos) ->
  NoDup (map node_id (reconcile old start repos)).
Proof.
  intros Hid. revert start.
  induction repos as [|r rs IH]; intros start Hlt Hnd; simpl; [constructor|].
  apply NoDup_cons in Hnd as [Hr Hnd]. rewrite list_elem_of_In in Hr.
  destruct (List.find (has_path (normalizedPath r)) old) as [c|] eqn:F;
    simpl; constructor; try (by apply IH).
  - rewrite list_elem_of_In, in_map_iff. intros (c2 & Eid & Hc2).
    apply List.find_some in F as [Hin F]. apply has_path_spec in F.
    apply reconcile_origin in Hc2 as [(Hc2 & r2 & Hr2 & Hp2)|Hnew].
    + assert (c2 = c) as -> by eauto using NoDup_map_injective.
      apply Hr. apply in_map_iff. exists r2. split; [congruence | done].
    + eapply List.Forall_forall in Hlt; [|exact Hin]. lia.
  - rewrite list_elem_of_In, in_map_iff. intros (c2 & Eid & Hc2).
    apply reconcile_origin in Hc2 as [(Hc2 & _)|Hnew].
    + eapply List.Forall_forall in Hlt; [|exact Hc2]. simpl in Eid. lia.
    + simpl in Eid. lia.
  - apply IH; [|done].
    eapply Forall_impl; [exact Hlt|]. simpl. intros. lia.
Qed.

Lemma reconcile_ids_bound old start repos :
  Forall (fun c => (node_id c < start)%nat) old ->
  Forall (fun c => (node_id c < start + reconcile_new old repos)%nat)
         (reconcile old start repos).
Proof.
  intros Hlt. apply List.Forall_forall. intros c Hc.
  apply reconcile_origin in Hc as [(Hc & _)|Hnew]; [|lia].
  eapply List.Forall_forall in Hlt; [|exact Hc]. lia.
Qed.

Lemma refresh_wf_step this w :
  wf_root this w ->
  git_repositories w <> [] ->
  NoDup (map normalizedPath (git_repositories w)) ->
  exists this' w',
    RepositoriesNode.refresh this w = (Ok this', w') /\
    wf_root this' w'.
Proof.
  intros Hwf HR Hnd.
  destruct (RepositoriesNode.children this) as [old|] eqn:Hc.
  - destruct (Hwf old Hc) as (Hold & Hid & Hpath & Hlt).
    rewrite (refresh_nonempty this old w Hc Hold HR).
    eexists _, _. split; [reflexivity|].
    intros cs [= <-].
    assert (Hnd_sorted :
      NoDup (map normalizedPath (sort by_index (git_repositories w)))).
    { assert (Hp : Permutation
                     (map normalizedPath (sort by_index (git_repositories w)))
                     (map normalizedPath (git_repositories w)))
        by apply Permutation_map, sort_Permutation.
      by rewrite Hp. }
    split; [by apply reconcile_all_repository|].
    split; [by apply reconcile_ids_NoDup|].
    split; [rewrite reconcile_paths; by apply NoDup_paths_Some|].
    by apply reconcile_ids_bound.
  - rewrite (refresh_never_fetched this w Hc).
    exists this, w. split; [reflexivity|]. exact Hwf.
Qed.

(** X2.  [refresh] over a non-empty set with distinct normalized paths
    keeps the cache well formed, and does not throw. *)
Theorem refresh_wellformed (this : RepositoriesNode.t) (w : World) :
  wf_root this w ->
  git_repositories w <> [] ->
  NoDup (map normalizedPath (git_repositories w)) ->
  exists this' w',
    RepositoriesNode.refresh this w = (Ok this', w') /\
    wf_root this' w'.
Proof. apply refresh_wf_step. Qed.

Lemma refresh_wellformed_witness :
  exists this' w',
    RepositoriesNode.refresh root_ABC (world_of 4 [repo_C; repo_D; repo_B])
      = (Ok this', w') /\
    wf_root this' w'.
Proof.
  apply (refresh_wellformed root_ABC (world_of 4 [repo_C; repo_D; repo_B])).
  - intros cs [= <-]. split; [repeat constructor|].
    split; [apply (bool_decide_unpack _); vm_compute; exact I|].
    split; [apply (bool_decide_unpack _); vm_compute; exact I|].
    repeat constructor; simpl; lia.
  - discriminate.
  - apply (bool_decide_unpack _). vm_compute. exact I.
Defined.

(** A cache whose paths are those of the set, one by one, is what the
    first loop of [refresh] rebuilds. *)
Lemma reconcile_fixed old start cs repos :
  NoDup (map node_path old) ->
  (forall c, In c cs -> In c old) ->
  map node_path cs = map (fun r => Some (normalizedPath r)) repos ->
  reconcile old start repos = cs /\
  reconcile_new old repos = 0%nat /\
  reconcile_events old start repos = map NodeRefreshed (map node_id cs).
Proof.
  intros Hnd. revert cs.
  induction repos as [|r rs IH]; intros cs Hsub Hpaths.
  - destruct cs; [done | discriminate].
  - destruct cs as [|c cs]; [discriminate|].
    injection Hpaths as Hc Hrest. simpl.
    rewrite (find_has_path_unique old c (normalizedPath r) Hnd);
      [|apply Hsub; by left | done].
    destruct (IH cs) as (-> & -> & ->); [|done|done].
    intros c' Hc'. apply Hsub. by right.
Qed.

Lemma includes_self cs c :
  In c cs -> RepositoriesNode.includes cs c = true.
Proof. intros Hc. apply includes_spec. by apply in_map. Qed.

Lemma filter_not_included cs :
  List.filter (fun c => negb (RepositoriesNode.includes cs c)) cs = [].
Proof.
  assert (H : forall l, (forall c, In c l -> In c cs) ->
    List.filter (fun c => negb (RepositoriesNode.includes cs c)) l = []).
  { induction l as [|c l IH]; intros Hsub; simpl; [done|].
    rewrite includes_self by (apply Hsub; by left). simpl.
    apply IH. intros c' Hc'. apply Hsub. by right. }
  by apply H.
Qed.

(** X3.  A second [refresh] over the set the cache was reconciled with
    keeps the list as it is: the same objects in the same order, each
    asked to refresh once, nothing constructed and nothing disposed. *)
Theorem refresh_stable (this this1 : RepositoriesNode.t) (w w1 : World)
    (cs1 : list ExplorerNode) :
  wf_root this w ->
  is_Some (RepositoriesNode.children this) ->
  git_repositories w <> [] ->
  NoDup (map normalizedPath (git_repositories w)) ->
  RepositoriesNode.refresh this w = (Ok this1, w1) ->
  RepositoriesNode.children this1 = Some cs1 ->
  forall w2,
    git_repositories w2 = git_repositories w ->
    RepositoriesNode.refresh this1 w2
    = (Ok this1, extend w2 0 (map NodeRefreshed (map node_id cs1))).
Proof.
  intros Hwf [old Hc] HR Hnd Hrun Hcs1 w2 Hsame.
  destruct (refresh_wf_step this w Hwf HR Hnd)
    as (this1' & w1' & Hrun' & Hwf1).
  rewrite Hrun in Hrun'. injection Hrun' as <- <-.
  destruct (Hwf1 cs1 Hcs1) as (Hall1 & _ & Hpath1 & _).
  assert (Hpaths : map node_path cs1
    = map (fun r => Some (normalizedPath r))
          (sort by_index (git_repositories w))).
  { destruct (Hwf old Hc) as (Hold & _).
    rewrite (refresh_nonempty this old w Hc Hold HR) in Hrun.
    injection Hrun as <- _. injection Hcs1 as <-.
    apply reconcile_paths. }
  rewrite (refresh_nonempty this1 cs1 w2 Hcs1 Hall1)
    by (by rewrite Hsame).
  rewrite Hsame.
  destruct (reconcile_fixed cs1 (next_id w2) cs1
              (sort by_index (git_repositories w)) Hpath1)
    as (-> & -> & ->); [done | exact Hpaths |].
  rewrite filter_not_included. simpl. rewrite app_nil_r.
  destruct this1 as [self1 children1]. simpl in Hcs1. subst children1.
  reflexivity.
Qed.

Lemma refresh_stable_witness :
  exists this1 w1 cs1,
    RepositoriesNode.refresh root_ABC (world_of 4 [repo_C; repo_D; repo_B])
      = (Ok this1, w1) /\
    RepositoriesNode.children this1 = Some cs1 /\
    RepositoriesNode.refresh this1 w1
      = (Ok this1, extend w1 0 (map NodeRefreshed (map node_id cs1))).
Proof.
  eexists _, _, _. split; [vm_compute; reflexivity|].
  split; [reflexivity|].
  eapply (refresh_stable root_ABC _ (world_of 4 [repo_C; repo_D; repo_B])).
  - intros cs [= <-]. split; [repeat constructor|].
    split; [apply (bool_decide_unpack _); vm_compute; exact I|].
    split; [apply (bool_decide_unpack _); vm_compute; exact I|].
    repeat constructor; simpl; lia.
  - by eexists.
  - discriminate.
  - apply (bool_decide_unpack _). vm_compute. exact I.
  - vm_compute. reflexivity.
  - reflexivity.
  - reflexivity.
Defined.

Lemma refresh_collapse this w c old :
  RepositoriesNode.children this = Some (c :: old) ->
  git_repositories w = [] ->
  RepositoriesNode.refresh this w
  = (Ok (RepositoriesNode.set_children this
           (Some [MessageNode (next_id w) "No repositories found"])),
     extend w 1 [NodeConstructed (next_id w)]).
Proof.
  intros Hc HR.
  unfold RepositoriesNode.refresh, bind, getRepositories.
  rewrite Hc, HR. cbv beta.
  change (length (@nil Repository) =? 0)%nat with true. cbv beta iota.
  change (true && (length (c :: old) =? 0)%nat) with false.
  cbv beta iota. by rewrite new_MessageNode_extend.
Qed.

(** X4.  [refresh] over the empty set: an empty cache is left alone; a
    cache with children is replaced by one placeholder constructed by the
    call, and none of the old children is disposed or refreshed. *)
Theorem refresh_empty_set (this : RepositoriesNode.t) (w : World)
    (old : list ExplorerNode) :
  RepositoriesNode.children this = Some old ->
  git_repositories w = [] ->
  (old = [] -> RepositoriesNode.refresh this w = (Ok this, w)) /\
  (old <> [] ->
   exists w',
     RepositoriesNode.refresh this w
     = (Ok (RepositoriesNode.set_children this
              (Some [MessageNode (next_id w) "No repositories found"])),
        w') /\
     log w' = log w ++ [NodeConstructed (next_id w)]).
Proof.
  intros Hc HR. split.
  - intros ->.
    unfold RepositoriesNode.refresh, bind, getRepositories.
    by rewrite Hc, HR.
  - intros Hne. destruct old as [|c old]; [done|].
    rewrite (refresh_collapse this w c old Hc HR).
    eexists. split; reflexivity.
Qed.

Lemma refresh_empty_set_witness :
  exists w',
    RepositoriesNode.refresh root_a (world_of 2 [])
    = (Ok (RepositoriesNode.mk 0
             (Some [MessageNode 2 "No repositories found"])), w') /\
    log w' = [NodeConstructed 2].
Proof.
  destruct (refresh_empty_set root_a (world_of 2 []) [node_of 1 repo_a]
              eq_refl eq_refl) as [_ H].
  destruct H as (w' & Hrun & Hlog); [discriminate|].
  exists w'. split; [exact Hrun | exact Hlog].
Defined.

Lemma refresh_placeholder_throws this i m rest w :
  RepositoriesNode.children this = Some (MessageNode i m :: rest) ->
  git_repositories w <> [] ->
  RepositoriesNode.refresh this w = (Throw TypeError, w).
Proof.
  intros Hc HR.
  unfold RepositoriesNode.refresh, bind, getRepositories.
  rewrite Hc. cbv beta.
  destruct (git_repositories w) as [|r R'] eqn:E; [done|].
  change (length (r :: R') =? 0)%nat with false. cbv beta iota.
  change (false && _) with false. cbv beta iota.
  pose proof (sort_length by_index (r :: R')) as Hlen.
  destruct (sort by_index (r :: R')) as [|r0 rs]; [discriminate|].
  reflexivity.
Qed.

(** X5.  The placeholder is a dead end for [refresh]: once a cache with
    children was replaced by the placeholder (the set was empty), every
    later [refresh] over a non-empty set throws a [TypeError] on the
    placeholder's missing [repo], before any call, and the cache stays
    the placeholder. *)
Theorem refresh_after_placeholder_throws (this : RepositoriesNode.t)
    (w : World) (old : list ExplorerNode) :
  RepositoriesNode.children this = Some old ->
  old <> [] ->
  git_repositories w = [] ->
  exists this1 w1,
    RepositoriesNode.refresh this w = (Ok this1, w1) /\
    forall w2, git_repositories w2 <> [] ->
      RepositoriesNode.refresh this1 w2 = (Throw TypeError, w2).
Proof.
  intros Hc Hne HR. destruct old as [|c old]; [done|].
  rewrite (refresh_collapse this w c old Hc HR).
  eexists _, _. split; [reflexivity|].
  intros w2 HR2. by eapply refresh_placeholder_throws.
Qed.

Lemma refresh_after_placeholder_throws_witness :
  exists this1 w1,
    RepositoriesNode.refresh root_a (world_of 2 []) = (Ok this1, w1) /\
    RepositoriesNode.refresh this1 (world_of 3 [repo_a])
    = (Throw TypeError, world_of 3 [repo_a]).
Proof.
  destruct (refresh_after_placeholder_throws root_a (world_of 2 [])
              [node_of 1 repo_a] eq_refl)
    as (this1 & w1 & Hrun & Hthrow); [discriminate | reflexivity |].
  exists this1, w1. split; [exact Hrun|].
  apply Hthrow. discriminate.
Defined.

(** ** GitExplorer: paging, notifications, auto-refresh *)













(** X10.  With the placeholder in the root's cache and repositories in
    the backend again, a refresh of the explorer rejects with the
    [TypeError] of the root and fires no tree-data event; the
    repository-change listener, which does not await it, leaves the
    explorer as it was. *)
Theorem onRepositoriesChanged_stuck (this : GitExplorer.t)
    (root : RepositoriesNode.t) (i : nat) (m : string)
    (rest : list ExplorerNode) (reason : option RefreshReason) (w : World) :
  GitExplorer._root this = Some root ->
  RepositoriesNode.children root = Some (MessageNode i m :: rest) ->
  git_repositories w <> [] ->
  GitExplorer.refresh this reason w
    = (Throw TypeError,
       extend w 0 [RefreshLogged (default Command reason)]) /\
  GitExplorer.onRepositoriesChanged this w
    = (Ok this, extend w 0 [RefreshLogged RepoChanged]).
Proof.
  intros Hroot Hc HR.
  assert (Hthrow : forall r,
    GitExplorer.refresh this r w
    = (Throw TypeError, extend w 0 [RefreshLogged (default Command r)])).
  { intros r. unfold GitExplorer.refresh, bind.
    rewrite emit_extend, Hroot. cbv beta iota.
    by rewrite (refresh_placeholder_throws root i m rest _ Hc). }
  split; [apply Hthrow|].
  unfold GitExplorer.onRepositoriesChanged, GitExplorer.detached.
  by rewrite Hthrow.
Qed.

Lemma onRepositoriesChanged_stuck_witness :
  GitExplorer.onRepositoriesChanged
    (GitExplorer.mk None
       (Some (RepositoriesNode.mk 0
                (Some [MessageNode 1 "No repositories found"])))
       None 2 None)
    (world_of 3 [repo_a])
  = (Ok (GitExplorer.mk None
           (Some (RepositoriesNode.mk 0
                    (Some [MessageNode 1 "No repositories found"])))
           None 2 None),
     extend (world_of 3 [repo_a]) 0 [RefreshLogged RepoChanged]).
Proof.
  eapply (onRepositoriesChanged_stuck _ _ 1 "No repositories found" []
            None (world_of 3 [repo_a])).
  - reflexivity.
  - reflexivity.
  - discriminate.
Defined.

Lemma rebindTree_unbound this w :
  GitExplorer._disposable this = None ->
  GitExplorer._root this = None ->
  let n := next_id w in
  GitExplorer.rebindTree this w
  = (Ok (GitExplorer.mk (Some (S n, S (S n)))
           (Some (RepositoriesNode.mk n None)) (Some (S n))
           (GitExplorer._onDidChangeTreeData this)
           (GitExplorer._autoRefreshDisposable this)),
     extend w 3
       [NodeConstructed n;
        TreeViewCreated
          ("gitlens.gitExplorer:" ++ cfg_location (config w)) (S n);
        VisibilitySubscribed (S n) (S (S n))]).
Proof.
  destruct this as [disp r tr em ar]. intros Hd Hr n.
  cbn [GitExplorer._disposable GitExplorer._root] in Hd, Hr. subst disp r.
  cbv [GitExplorer.rebindTree bind ret GitExplorer.setRoot
       RepositoriesNode.create GitExplorer.get_config
       GitExplorer.createTreeView GitExplorer.tree_onDidChangeVisibility
       fresh emit extend].
  cbn [GitExplorer._disposable GitExplorer._root GitExplorer._tree
       GitExplorer._onDidChangeTreeData GitExplorer._autoRefreshDisposable
       GitExplorer.set_root GitExplorer.set_tree GitExplorer.set_disposable
       next_id git_repositories git_listeners workspaceState config
       context_subscriptions log].
  subst n. do 2 f_equal; [|by rewrite <- !app_assoc].
  lia.
Qed.

(** X11.  Initialization, as the constructor runs it: on the initializing
    event an explorer without root and tree view publishes the view
    context, sets up auto-refresh from the settings, constructs the root
    (with nothing cached), binds the tree view for the configured
    location, and neither refreshes nor fires a tree-data event. *)
Theorem onConfigurationChanged_initializing (this : GitExplorer.t)
    (e : GitExplorer.ConfigurationChangeEvent) (w : World) :
  GitExplorer.initializing e = true ->
  GitExplorer._disposable this = None ->
  GitExplorer._root this = None ->
  GitExplorer._autoRefreshDisposable this = None ->
  exists this' w' evs root tree vis,
    GitExplorer.onConfigurationChanged this e w = (Ok this', w') /\
    log w' = log w ++ evs /\
    GitExplorer._root this' = Some root /\
    RepositoriesNode.children root = None /\
    GitExplorer._tree this' = Some tree /\
    GitExplorer._disposable this' = Some (tree, vis) /\
    GitExplorer._onDidChangeTreeData this'
      = GitExplorer._onDidChangeTreeData this /\
    In (TreeViewCreated
          ("gitlens.gitExplorer:" ++ cfg_location (config w)) tree) evs /\
    In (SetCommandContext CtxGitExplorer
          (if cfg_enabled (config w) then CtxString (cfg_location (config w))
           else CtxBool false)) evs /\
    (forall r, ~ In (RefreshLogged r) evs) /\
    (forall em n, ~ In (TreeDataFired em n) evs) /\
    (is_Some (GitExplorer._autoRefreshDisposable this')
     <-> cfg_autoRefresh (config w)
         && default true (workspaceState w !! GitExplorerAutoRefresh)
         = true).
Proof.
  intros Hinit Hdisp Hroot Hard.
  unfold GitExplorer.onConfigurationChanged, bind.
  rewrite Hinit. cbn [negb andb orb].
  unfold GitExplorer.get_config, GitExplorer.setCommandContext.
  cbv beta iota. rewrite emit_extend. cbv beta iota.
  set (w0 := extend w 0 _).
  destruct (setAutoRefresh_spec this (cfg_autoRefresh (config w0)) None w0)
    as (this1 & w1 & more & -> & Hlog & _ & Hsub & _ & Hcfg & _ & _ & Hd
        & _ & Hem & _ & Hr).
  destruct (Hr eq_refl) as [Hr' _]. cbv beta iota.
  rewrite Hdisp in Hd. rewrite Hroot in Hr'.
  rewrite (rebindTree_unbound this1 w1 Hd Hr'). cbv beta iota.
  unfold ret. rewrite Hard in Hlog.
  rewrite bool_decide_eq_false_2, andb_false_r, app_nil_r in Hlog by done.
  eexists _, _, _, _, _, _. split; [reflexivity|].
  split.
  { unfold extend at 1. cbn [log]. rewrite Hlog. unfold w0, extend.
    cbn [log]. rewrite <- !app_assoc. reflexivity. }
  cbn [GitExplorer._root GitExplorer._tree GitExplorer._disposable
       GitExplorer._onDidChangeTreeData GitExplorer._autoRefreshDisposable
       RepositoriesNode.children].
  rewrite Hcfg, Hsub.
  unfold setAutoRefresh_events, workspace_flag, w0, extend.
  cbn [config workspaceState next_id app].
  destruct (cfg_autoRefresh (config w));
    destruct (default true (workspaceState w !! GitExplorerAutoRefresh));
    cbn [andb app].
  all: repeat split; try done; try (by left);
    try (simpl; tauto); try (by eauto); try (intros [? [=]]).
  all: try (intros r; simpl; intuition discriminate).
  all: try (intros em n; simpl; intuition discriminate).
Qed.

Lemma onConfigurationChanged_initializing_witness :
  exists this' w',
    GitExplorer.onConfigurationChanged explorer_idle
        (GitExplorer.mkEvent true (fun _ => false)) (world_of 1 [])
      = (Ok this', w') /\
    GitExplorer._root this' = Some (RepositoriesNode.mk 2 None) /\
    is_Some (GitExplorer._autoRefreshDisposable this').
Proof.
  destruct (onConfigurationChanged_initializing explorer_idle
              (GitExplorer.mkEvent true (fun _ => false)) (world_of 1 []))
    as (this' & w' & evs & root & tree & vis & Hrun & _ & Hroot & _ & _ & _
        & _ & _ & _ & _ & _ & Hsub); try reflexivity.
  exists this', w'. split; [exact Hrun|].
  split; [|by apply Hsub].
  assert (Heval :
    GitExplorer.onConfigurationChanged explorer_idle
      (GitExplorer.mkEvent true (fun _ => false)) (world_of 1 [])
    = GitExplorer.onConfigurationChanged explorer_idle
        (GitExplorer.mkEvent true (fun _ => false)) (world_of 1 []))
    by reflexivity.
  rewrite Hrun in Heval at 1. vm_compute in Heval.
  by injection Heval as -> _.
Defined.

Lemma extends_frame w w' :
  extends w w' ->
  git_listeners w' = git_listeners w /\
  workspaceState w' = workspaceState w /\
  config w' = config w.
Proof. by intros (n & evs & ->). Qed.

(** The last step of [onConfigurationChanged] outside initialization. *)
Lemma final_refresh_frame this w :
  exists this' w',
    (if bool_decide (is_Some (GitExplorer._root this))
     then GitExplorer.detached this
            (GitExplorer.refresh this (Some ConfigurationChanged))
     else ret this) w = (Ok this', w') /\
    extends w w' /\
    root_id this' = root_id this /\
    GitExplorer._disposable this' = GitExplorer._disposable this /\
    GitExplorer._tree this' = GitExplorer._tree this /\
    GitExplorer._onDidChangeTreeData this'
      = GitExplorer._onDidChangeTreeData this /\
    GitExplorer._autoRefreshDisposable this'
      = GitExplorer._autoRefreshDisposable this.
Proof.
  destruct (bool_decide (is_Some (GitExplorer._root this))).
  - destruct (refresh_detached_spec this (Some ConfigurationChanged) w)
      as (this' & n & evs & -> & H).
    exists this'. eexists. split; [reflexivity|].
    split; [apply extends_extend | exact H].
  - exists this, w. split; [reflexivity|].
    split; [apply extends_refl | done].
Qed.

(** X12.  Outside initialization, an event that does not report a change
    of the location setting leaves the tree view, its subscription, the
    tree-data emitter and the root object in place.  When it reports no
    change of the auto-refresh setting either, the backend subscription
    and the persisted flag are left alone; and when it reports no change
    under [gitExplorer], [explorers] or [defaultGravatarsStyle], nothing
    happens at all. *)
Theorem onConfigurationChanged_keeps_tree (this : GitExplorer.t)
    (e : GitExplorer.ConfigurationChangeEvent) (w : World) :
  GitExplorer.initializing e = false ->
  GitExplorer.changed e GitExplorer.gitExplorer_location = false ->
  exists this' w',
    GitExplorer.onConfigurationChanged this e w = (Ok this', w') /\
    GitExplorer._tree this' = GitExplorer._tree this /\
    GitExplorer._disposable this' = GitExplorer._disposable this /\
    GitExplorer._onDidChangeTreeData this'
      = GitExplorer._onDidChangeTreeData this /\
    root_id this' = root_id this /\
    (GitExplorer.changed e GitExplorer.gitExplorer_autoRefresh = false ->
       GitExplorer._autoRefreshDisposable this'
         = GitExplorer._autoRefreshDisposable this /\
       git_listeners w' = git_listeners w /\
       workspaceState w' = workspaceState w) /\
    (GitExplorer.changed e GitExplorer.gitExplorer = false ->
     GitExplorer.changed e GitExplorer.explorers = false ->
     GitExplorer.changed e GitExplorer.defaultGravatarsStyle = false ->
     this' = this /\ w' = w).
Proof.
  intros Hinit Hloc.
  unfold GitExplorer.onConfigurationChanged, bind.
  rewrite Hinit, Hloc. cbn [negb andb orb]. rewrite orb_false_r.
  destruct (negb (GitExplorer.changed e GitExplorer.gitExplorer)
            && negb (GitExplorer.changed e GitExplorer.explorers)
            && negb (GitExplorer.changed e GitExplorer.defaultGravatarsStyle))
    eqn:Hgate.
  { exists this, w. repeat split; done. }
  assert (Hsome : ~ (GitExplorer.changed e GitExplorer.gitExplorer = false /\
                     GitExplorer.changed e GitExplorer.explorers = false /\
                     GitExplorer.changed e GitExplorer.defaultGravatarsStyle
                       = false)).
  { intros (H1 & H2 & H3). rewrite H1, H2, H3 in Hgate. discriminate. }
  assert (Hfirst : exists w0,
    extends w w0 /\
    forall k : unit -> M GitExplorer.t,
      (let (o, s') :=
         (if GitExplorer.changed e GitExplorer.gitExplorer_enabled
          then
            (fun s : World =>
               let (o, s') := GitExplorer.get_config s in
               match o with
               | Ok a =>
                   GitExplorer.setCommandContext CtxGitExplorer
                     (if cfg_enabled a then CtxString (cfg_location a)
                      else CtxBool false) s'
               | Throw e0 => (Throw e0, s')
               end)
          else ret tt) w in
       match o with
       | Ok a => k a s'
       | Throw e0 => (Throw e0, s')
       end) = k tt w0).
  { destruct (GitExplorer.changed e GitExplorer.gitExplorer_enabled).
    - unfold GitExplorer.get_config, GitExplorer.setCommandContext.
      cbv beta iota. rewrite emit_extend.
      eexists. split; [apply extends_extend | done].
    - exists w. split; [apply extends_refl | done]. }
  destruct Hfirst as (w0 & Hw0 & Hfirst).
  rewrite (Hfirst (fun _ => _)). clear Hfirst.
  destruct (GitExplorer.changed e GitExplorer.gitExplorer_autoRefresh).
  - unfold GitExplorer.get_config. cbv beta iota.
    destruct (setAutoRefresh_spec this (cfg_autoRefresh (config w0)) None w0)
      as (this1 & w1 & more & -> & _ & _ & _ & _ & _ & _ & _ & Hd & Ht & Hem
          & _ & Hr).
    destruct (Hr eq_refl) as [Hr' _]. unfold ret at 1. cbv beta iota.
    destruct (final_refresh_frame this1 w1)
      as (this' & w' & -> & _ & Hroot & Hd' & Ht' & Hem' & _).
    exists this', w'. split; [reflexivity|].
    unfold root_id in *. rewrite Ht', Hd', Hem', Hroot, Ht, Hd, Hem, Hr'.
    repeat split; try done; exfalso; by apply Hsome.
  - unfold ret at 1 2. cbv beta iota.
    destruct (final_refresh_frame this w0)
      as (this' & w' & -> & Hw' & Hroot & Hd' & Ht' & Hem' & Har').
    exists this', w'. split; [reflexivity|].
    destruct (extends_frame w w') as (Hl & Hws & _);
      [by eapply extends_trans|].
    repeat split; try done; exfalso; by apply Hsome.
Qed.

Lemma onConfigurationChanged_keeps_tree_witness :
  exists this' w',
    GitExplorer.onConfigurationChanged explorer_bound
        (GitExplorer.mkEvent false
           (fun s => match s with
                     | GitExplorer.explorers => true
                     | _ => false
                     end))
        (world_of 4 [])
      = (Ok this', w') /\
    GitExplorer._tree this' = Some 1%nat /\
    GitExplorer._disposable this' = Some (1%nat, 2%nat).
Proof.
  destruct (onConfigurationChanged_keeps_tree explorer_bound
              (GitExplorer.mkEvent false
                 (fun s => match s with
                           | GitExplorer.explorers => true
                           | _ => false
                           end))
              (world_of 4 []))
    as (this' & w' & Hrun & Ht & Hd & _); try reflexivity.
  exists this', w'. split; [exact Hrun|]. split; [exact Ht | exact Hd].
Defined.

(** ** LineHoverController: debug sessions and hovers *)

Lemma after_debug_events_app this evs1 evs2 env :
  after_debug_events this (evs1 ++ evs2) env
  = match after_debug_events this evs1 env with
    | Some (this1, env1) => after_debug_events this1 evs2 env1
    | None => None
    end.
Proof.
  revert this env; induction evs1 as [|ev evs1 IH]; intros this env;
    simpl; [done|].
  destruct (on_debug_event this ev env) as [[this1|e] env1];
    [apply IH | done].
Qed.

Lemma on_debug_event_ok this ev env :
  exists this' env',
    on_debug_event this ev env = (Ok this', env') /\
    LineHoverController.debugging this'
    = match ev with SessionStarted => true | SessionTerminated => false end.
Proof.
  destruct ev; simpl.
  - unfold LineHoverController.onDebugSessionStarted.
    destruct (LineHoverController._debugSessionEndDisposable this) eqn:E.
    + exists this, env. split; [reflexivity|].
      unfold LineHoverController.debugging. rewrite E. done.
    + eexists _, _. split; reflexivity.
  - unfold LineHoverController.onDebugSessionEnded.
    destruct (LineHoverController._debugSessionEndDisposable this) eqn:E.
    + eexists _, _. split; reflexivity.
    + exists this, env. split; [reflexivity|].
      unfold LineHoverController.debugging. rewrite E. done.
Qed.

(** X13.  The debugging flag follows the last debug-session event only:
    after any sequence of session starts and terminations it is set
    exactly when the last event was a start.  Sessions are not counted,
    so of two sessions started, the termination of one clears the flag
    while the other goes on. *)
Theorem debugging_follows_last_event (this : LineHoverController.t)
    (evs : list DebugEvent) (ev : DebugEvent)
    (env : LineHoverController.Env) :
  exists this' env',
    after_debug_events this (evs ++ [ev]) env = Some (this', env') /\
    LineHoverController.debugging this'
    = match ev with SessionStarted => true | SessionTerminated => false end.
Proof.
  rewrite after_debug_events_app.
  assert (Hprefix : exists this1 env1,
            after_debug_events this evs env = Some (this1, env1)).
  { revert this env. induction evs as [|ev0 evs IH]; intros this env; simpl.
    - by eexists _, _.
    - destruct (on_debug_event_ok this ev0 env) as (this1 & env1 & -> & _).
      apply IH. }
  destruct Hprefix as (this1 & env1 & ->). simpl.
  destruct (on_debug_event_ok this1 ev env1) as (this' & env' & -> & Hdbg).
  by exists this', env'.
Qed.

Ltac run_hover_in H :=
  cbv [LineHoverController.provideDetailsHover
       LineHoverController.provideChangesHover bind ret read
       LineHoverController.lineTracker_includes
       LineHoverController.lineTracker_getState
       LineHoverController.git_getLogCommitForFile
       LineHoverController.git_getRemotes
       LineHoverController.lineState_set_logCommit] in H;
  hover_simpl.

(** Replaying a hover provider along conditions known from an earlier
    run. *)
Ltac hover_replay :=
  repeat (hover_simpl;
          rewrite ?lookup_insert_eq;
          cbn [mbind option_bind LineHoverController.commit
               LineHoverController.logCommit];
          match goal with
          | H : ?c = _ |- context [?c] => rewrite H
          end).

(** X14.  The first details hover over a line whose blame commit is in
    the history and whose log commit is not cached yet asks the backend
    for the log commit once, stores it in the line's cache entry with
    the blame commit's previous revision, and builds the message from
    it.  The next hover over the same line gives the same hover from the
    cache: it asks for the remotes only. *)
Theorem provideDetailsHover_caches_logCommit
    (this : LineHoverController.t)
    (document : LineHoverController.TextDocument)
    (position : LineHoverController.Position)
    (env env1 : LineHoverController.Env)
    (ls : LineHoverController.LineState)
    (c lc : LineHoverController.GitCommit)
    (h : LineHoverController.Hover) :
  LineHoverController.line_states env !! LineHoverController.line position
    = Some ls ->
  LineHoverController.commit ls = Some c ->
  LineHoverController.isUncommitted c = false ->
  LineHoverController.logCommit ls = None ->
  LineHoverController.git_logCommitForFile env
    (LineHoverController.repoPath c) (LineHoverController.fsPath c)
    (LineHoverController.sha c) = Some lc ->
  LineHoverController.provideDetailsHover this document position env
    = (Ok (Some h), env1) ->
  let cached :=
    LineHoverController.set_previous lc (LineHoverController.previousSha c)
      (LineHoverController.previousFileName c) in
  LineHoverController.line_states env1
    = <[LineHoverController.line position :=
          LineHoverController.mkLineState (Some c) (Some cached)]>
        (LineHoverController.line_states env) /\
  LineHoverController.calls env1
    = LineHoverController.calls env
      ++ [LineHoverController.GetLogCommitForFile
            (LineHoverController.repoPath c) (LineHoverController.fsPath c)
            (LineHoverController.sha c);
          LineHoverController.GetRemotes (LineHoverController.repoPath c)] /\
  LineHoverController.contents h
    = LineHoverController.getHoverMessage env cached
        (LineHoverController.defaultDateFormat env)
        (LineHoverController.git_remotes env
           (LineHoverController.repoPath c))
        (LineHoverController.annotationType env)
        (LineHoverController.line position) /\
  exists env2,
    LineHoverController.provideDetailsHover this document position env1
      = (Ok (Some h), env2) /\
    LineHoverController.calls env2
      = LineHoverController.calls env1
        ++ [LineHoverController.GetRemotes
              (LineHoverController.repoPath c)] /\
    LineHoverController.line_states env2
      = LineHoverController.line_states env1.
Proof.
  intros Hls Hc Hunc Hlog Hfetch Hrun cached.
  run_hover_in Hrun. hover_cases.
  all: rewrite ?Hls in *; cbn [mbind option_bind] in *; simplify_eq.
  all: try match goal with
           | H : bool_decide (_ = None) && negb _ = false |- _ =>
               rewrite Hlog, Hunc in H; discriminate
           end.
  all: rewrite ?Hc in *; subst cached; hover_simpl; cbn [default from_option id].
  all: repeat split; try (by rewrite <- app_assoc).
  all: eexists; split;
    [run_hover; hover_replay;
     rewrite (bool_decide_eq_false_2 (Some _ = None)) by done;
     hover_replay; reflexivity|].
  all: hover_simpl; split; [reflexivity|reflexivity].
Qed.

Lemma provideDetailsHover_caches_logCommit_witness :
  exists h env1 env2,
    LineHoverController.provideDetailsHover (LineHoverController.mk None)
        hover_document (LineHoverController.mkPosition 0 1) committed_env
      = (Ok (Some h), env1) /\
    LineHoverController.provideDetailsHover (LineHoverController.mk None)
        hover_document (LineHoverController.mkPosition 0 1) env1
      = (Ok (Some h), env2) /\
    LineHoverController.calls env2
      = [LineHoverController.GetLogCommitForFile "/repo" "/repo/file.ts"
           "1a2b3c4";
         LineHoverController.GetRemotes "/repo";
         LineHoverController.GetRemotes "/repo"] /\
    LineHoverController.contents h = "full message".
Proof.
  destruct (LineHoverController.provideDetailsHover
              (LineHoverController.mk None) hover_document
              (LineHoverController.mkPosition 0 1) committed_env)
    as [[[h|]|e] env1] eqn:Hrun;
    try (vm_compute in Hrun; discriminate).
  destruct (provideDetailsHover_caches_logCommit
              (LineHoverController.mk None) hover_document
              (LineHoverController.mkPosition 0 1) committed_env env1
              (LineHoverController.mkLineState (Some committed_commit) None)
              committed_commit
              (LineHoverController.mkCommit "1a2b3c4" "/repo" "/repo/file.ts"
                 false None None "full message")
              h eq_refl eq_refl eq_refl eq_refl eq_refl Hrun)
    as (_ & Hcalls & Hcontents & env2 & Hrun2 & Hcalls2 & _).
  exists h, env1, env2. split; [reflexivity|]. split; [exact Hrun2|].
  split; [rewrite Hcalls2, Hcalls; reflexivity|].
  rewrite Hcontents. reflexivity.
Defined.

(** X15.  A log commit the backend cannot find is not remembered: the
    hover is built from the blame commit, the line's cache entry stays
    as it was, and the next hover over the line asks the backend
    again. *)
Theorem provideDetailsHover_refetches_missing_logCommit
    (this : LineHoverController.t)
    (document : LineHoverController.TextDocument)
    (position : LineHoverController.Position)
    (env env1 : LineHoverController.Env)
    (ls : LineHoverController.LineState)
    (c : LineHoverController.GitCommit)
    (h : LineHoverController.Hover) :
  LineHoverController.line_states env !! LineHoverController.line position
    = Some ls ->
  LineHoverController.commit ls = Some c ->
  LineHoverController.isUncommitted c = false ->
  LineHoverController.logCommit ls = None ->
  LineHoverController.git_logCommitForFile env
    (LineHoverController.repoPath c) (LineHoverController.fsPath c)
    (LineHoverController.sha c) = None ->
  LineHoverController.provideDetailsHover this document position env
    = (Ok (Some h), env1) ->
  let asked :=
    [LineHoverController.GetLogCommitForFile
       (LineHoverController.repoPath c) (LineHoverController.fsPath c)
       (LineHoverController.sha c);
     LineHoverController.GetRemotes (LineHoverController.repoPath c)] in
  LineHoverController.line_states env1 = LineHoverController.line_states env /\
  LineHoverController.calls env1 = LineHoverController.calls env ++ asked /\
  LineHoverController.contents h
    = LineHoverController.getHoverMessage env c
        (LineHoverController.defaultDateFormat env)
        (LineHoverController.git_remotes env
           (LineHoverController.repoPath c))
        (LineHoverController.annotationType env)
        (LineHoverController.line position) /\
  exists env2,
    LineHoverController.provideDetailsHover this document position env1
      = (Ok (Some h), env2) /\
    LineHoverController.calls env2
      = LineHoverController.calls env1 ++ asked /\
    LineHoverController.line_states env2
      = LineHoverController.line_states env.
Proof.
  intros Hls Hc Hunc Hlog Hfetch Hrun asked.
  run_hover_in Hrun. hover_cases.
  all: rewrite ?Hls in *; cbn [mbind option_bind] in *; simplify_eq.
  all: try match goal with
           | H : bool_decide (_ = None) && negb _ = false |- _ =>
               rewrite Hlog, Hunc in H; discriminate
           end.
  all: rewrite ?Hc in *; subst asked; hover_simpl;
    cbn [default from_option id].
  all: repeat split; try (by rewrite <- app_assoc).
  all: eexists; split;
    [run_hover; hover_replay; reflexivity|].
  all: hover_simpl; split; [by rewrite <- app_assoc|reflexivity].
Qed.

Lemma provideDetailsHover_refetches_missing_logCommit_witness :
  exists h env1 env2,
    LineHoverController.provideDetailsHover (LineHoverController.mk None)
        hover_document (LineHoverController.mkPosition 0 1) forgetful_env
      = (Ok (Some h), env1) /\
    LineHoverController.provideDetailsHover (LineHoverController.mk None)
        hover_document (LineHoverController.mkPosition 0 1) env1
      = (Ok (Some h), env2) /\
    LineHoverController.calls env2
      = [LineHoverController.GetLogCommitForFile "/repo" "/repo/file.ts"
           "1a2b3c4";
         LineHoverController.GetRemotes "/repo";
         LineHoverController.GetLogCommitForFile "/repo" "/repo/file.ts"
           "1a2b3c4";
         LineHoverController.GetRemotes "/repo"] /\
    LineHoverController.contents h = "summary".
Proof.
  destruct (LineHoverController.provideDetailsHover
              (LineHoverController.mk None) hover_document
              (LineHoverController.mkPosition 0 1) forgetful_env)
    as [[[h|]|e] env1] eqn:Hrun;
    try (vm_compute in Hrun; discriminate).
  destruct (provideDetailsHover_refetches_missing_logCommit
              (LineHoverController.mk None) hover_document
              (LineHoverController.mkPosition 0 1) forgetful_env env1
              (LineHoverController.mkLineState (Some committed_commit) None)
              committed_commit h eq_refl eq_refl eq_refl eq_refl eq_refl Hrun)
    as (_ & Hcalls & Hcontents & env2 & Hrun2 & Hcalls2 & _).
  exists h, env1, env2. split; [reflexivity|]. split; [exact Hrun2|].
  split; [rewrite Hcalls2, Hcalls; reflexivity|].
  rewrite Hcontents. reflexivity.
Defined.

(** X16.  A details hover never throws.  It leaves the cache entries of
    all other lines alone and never changes the blame commit of the
    hovered line; it asks for the remotes only when it produces a hover,
    and it produces one only for a tracked line with a known blame
    commit in a tracked document. *)
Theorem provideDetailsHover_frame (this : LineHoverController.t)
    (document : LineHoverController.TextDocument)
    (position : LineHoverController.Position)
    (env : LineHoverController.Env) :
  exists result env' new,
    LineHoverController.provideDetailsHover this document position env
      = (Ok result, env') /\
    LineHoverController.calls env' = LineHoverController.calls env ++ new /\
    (forall repoPath,
       In (LineHoverController.GetRemotes repoPath) new -> is_Some result) /\
    (forall l, l <> LineHoverController.line position ->
       LineHoverController.line_states env' !! l
       = LineHoverController.line_states env !! l) /\
    LineHoverController.line_states env' !! LineHoverController.line position
      ≫= LineHoverController.commit
    = LineHoverController.line_states env !! LineHoverController.line position
      ≫= LineHoverController.commit /\
    (is_Some result ->
       LineHoverController.line position
         ∈ LineHoverController.tracked_lines env /\
       is_Some (LineHoverController.line_states env
                  !! LineHoverController.line position
                  ≫= LineHoverController.commit) /\
       is_Some (LineHoverController.tracker_documents env
                  (LineHoverController.doc_uri document))).
Proof.
  run_hover. hover_cases.
  all: first
    [ eexists _, _, []; split; [reflexivity|];
      split; [symmetry; apply app_nil_r|]
    | eexists _, _, [_]; split; [reflexivity|]; split; [reflexivity|]
    | eexists _, _, [_; _]; split; [reflexivity|];
      split; [hover_simpl; by rewrite <- app_assoc|] ].
  all: hover_simpl.
  all: split;
    [intros rp Hin; simpl in Hin;
     first [contradiction | solve [intuition discriminate] | by eexists]|].
  all: split; [intros l' Hl'; by rewrite ?lookup_insert_ne|].
  all: split;
    [rewrite ?lookup_insert_eq; cbn [mbind option_bind
       LineHoverController.commit];
     try done; try (cbn in *; congruence)|].
  all: intros [x Hx]; try discriminate.
  all: split;
    [match goal with
     | H : negb (bool_decide _) = false |- _ =>
         apply negb_false_iff in H; by apply bool_decide_eq_true in H
     end|].
  all: split; [by eexists|].
  all: match goal with H : _ = Some _ |- is_Some _ => rewrite H end;
    by eexists.
Qed.

Ltac whole_line_simpl :=
  cbn [LineHoverController.tracked_lines LineHoverController.line_states
       LineHoverController.annotationType
       LineHoverController.hovers_annotations_details
       LineHoverController.hovers_annotations_changes
       LineHoverController.hovers_currentLine_over
       LineHoverController.lineAnnotations_suspended
       LineHoverController.defaultDateFormat
       LineHoverController.git_logCommitForFile
       LineHoverController.git_remotes
       LineHoverController.tracker_documents
       LineHoverController.getHoverMessage
       LineHoverController.changesHover
       LineHoverController.next_handle LineHoverController.calls
       LineHoverController.set_calls LineHoverController.set_line_states
       with_suspended at_character LineHoverController.line
       LineHoverController.hover_range LineHoverController.debugging
       LineHoverController._debugSessionEndDisposable
       String.eqb Ascii.eqb Bool.eqb negb andb fst] in *.

(** X17.  Outside a debug session, with hovers configured for the whole
    line, neither provider looks at the hovered character or at whether
    the line annotations are suspended: the hover is the same anywhere
    on the line. *)
Theorem whole_line_hover_anywhere (this : LineHoverController.t)
    (document : LineHoverController.TextDocument)
    (position : LineHoverController.Position)
    (env : LineHoverController.Env) (ch : N) (suspended : bool) :
  LineHoverController.debugging this = false ->
  LineHoverController.hovers_currentLine_over env = "line" ->
  fst (LineHoverController.provideDetailsHover this document
         (at_character position ch) (with_suspended env suspended))
  = fst (LineHoverController.provideDetailsHover this document position env)
  /\
  fst (LineHoverController.provideChangesHover this document
         (at_character position ch) (with_suspended env suspended))
  = fst (LineHoverController.provideChangesHover this document position env).
Proof.
  intros Hdbg Hover.
  destruct this as [[d|]]; [discriminate Hdbg|].
  destruct env as [tl st an hd hc ov su df gl gr td gm chg nh cl];
    cbn [LineHoverController.hovers_currentLine_over] in Hover; subst ov.
  split; run_hover; whole_line_simpl.
  all: repeat (case_match; whole_line_simpl);
    simplify_eq; whole_line_simpl; simplify_eq;
    try reflexivity; try congruence.
Qed.

Lemma whole_line_hover_anywhere_witness :
  fst (LineHoverController.provideDetailsHover (LineHoverController.mk None)
         hover_document
         (at_character (LineHoverController.mkPosition 0 1) 0)
         (with_suspended committed_env true))
  = fst (LineHoverController.provideDetailsHover (LineHoverController.mk None)
           hover_document (LineHoverController.mkPosition 0 1) committed_env)
  /\
  fst (LineHoverController.provideChangesHover (LineHoverController.mk None)
         hover_document
         (at_character (LineHoverController.mkPosition 0 1) 0)
         (with_suspended committed_env true))
  = fst (LineHoverController.provideChangesHover (LineHoverController.mk None)
           hover_document (LineHoverController.mkPosition 0 1) committed_env).
Proof.
  apply (whole_line_hover_anywhere (LineHoverController.mk None)
           hover_document (LineHoverController.mkPosition 0 1) committed_env
           0 true); reflexivity.
Defined.

(** ** LineHoverController: the registered hover providers *)

Ltac registration_simpl :=
  cbn [LineHoverRegistration.hovers LineHoverRegistration.activeTextEditor
       LineHoverRegistration.hoverProviders
       LineHoverRegistration.lineTracker_calls
       LineHoverRegistration.disposed LineHoverRegistration.next_handle
       LineHoverRegistration.set_hovers
       LineHoverRegistration.set_activeTextEditor
       LineHoverRegistration.set_hoverProviders
       LineHoverRegistration.set_lineTracker_calls
       LineHoverRegistration.set_disposed
       LineHoverRegistration.set_next_handle
       LineHoverRegistration._hoverProviderDisposable
       LineHoverRegistration._debugSessionEndDisposable
       LineHoverRegistration._disposable
       LineHoverRegistration.set_hoverProviderDisposable
       LineHoverRegistration.set_disposable
       LineHoverRegistration.enabled
       LineHoverRegistration.currentLine_enabled
       LineHoverRegistration.currentLine_details
       LineHoverRegistration.currentLine_changes
       negb andb orb] in *.

Ltac run_registration :=
  cbv [LineHoverRegistration.register LineHoverRegistration.unregister
       LineHoverRegistration.registerHoverProvider
       LineHoverRegistration.dispose_registrations
       LineHoverRegistration.dispose_handle
       LineHoverRegistration.fresh_handle
       LineHoverRegistration.lineTracker_start
       LineHoverRegistration.lineTracker_stop bind ret read];
  registration_simpl.

Lemma other_providers_unowned this host :
  LineHoverRegistration._hoverProviderDisposable this = None ->
  other_providers this host = LineHoverRegistration.hoverProviders host.
Proof.
  intros Hnone. unfold other_providers, owned. rewrite Hnone.
  cbn [default from_option id].
  induction (LineHoverRegistration.hoverProviders host) as [|r rs IH];
    [done|].
  cbn [List.filter].
  destruct (bool_decide (LineHoverRegistration.handle r ∈ [])) eqn:E.
  - apply bool_decide_eq_true in E. by apply not_elem_of_nil in E.
  - cbn [negb]. by rewrite IH.
Qed.

Lemma unregister_run this host :
  LineHoverRegistration.unregister this host
  = (Ok (LineHoverRegistration.set_hoverProviderDisposable this None),
     LineHoverRegistration.set_hoverProviders host
       (other_providers this host)).
Proof.
  destruct this as [dbg d [hs|]]; run_registration.
  - reflexivity.
  - rewrite other_providers_unowned by reflexivity. by destruct host.
Qed.

(** What [register] does, in full. *)
Lemma register_run this editor host :
  let specs := providers_for (LineHoverRegistration.hovers host) editor in
  let n := LineHoverRegistration.next_handle host in
  exists this',
    LineHoverRegistration.register this editor host
    = (Ok this',
       LineHoverRegistration.set_next_handle
         (LineHoverRegistration.set_hoverProviders host
            (other_providers this host ++ allocate n specs))
         (n + length specs)%nat) /\
    owned this' = map LineHoverRegistration.handle (allocate n specs) /\
    LineHoverRegistration._debugSessionEndDisposable this'
    = LineHoverRegistration._debugSessionEndDisposable this /\
    LineHoverRegistration._disposable this'
    = LineHoverRegistration._disposable this.
Proof.
  intros specs n. subst specs n.
  exists (LineHoverRegistration.set_hoverProviderDisposable this
            (match providers_for (LineHoverRegistration.hovers host) editor
             with
             | [] => None
             | specs =>
                 Some (map LineHoverRegistration.handle
                         (allocate (LineHoverRegistration.next_handle host)
                            specs))
             end)).
  unfold LineHoverRegistration.register, bind.
  rewrite unregister_run.
  generalize (other_providers this host) as base. intros base.
  destruct host as [[en cle det chg] ed rs tc ds nh].
  destruct this as [dbg d hs].
  destruct editor as [fsPath|]; [destruct en, cle, det, chg|];
    run_registration;
    cbn [providers_for allocate length app map
         LineHoverRegistration.handle];
    registration_simpl; unfold owned; registration_simpl;
    cbn [default from_option id];
    unfold LineHoverRegistration.set_hoverProviders,
      LineHoverRegistration.set_next_handle; simpl;
    rewrite <- ?app_assoc, ?app_nil_r, ?Nat.add_0_r;
    repeat split; repeat f_equal; lia.
Qed.

Lemma filter_all {A} (f : A -> bool) (l : list A) :
  Forall (fun x => f x = true) l -> List.filter f l = l.
Proof.
  induction 1 as [|x l Hx _ IH]; [done|]. simpl. by rewrite Hx, IH.
Qed.

Lemma filter_none {A} (f : A -> bool) (l : list A) :
  Forall (fun x => f x = false) l -> List.filter f l = [].
Proof.
  induction 1 as [|x l Hx _ IH]; [done|]. simpl. by rewrite Hx, IH.
Qed.

Lemma allocate_handles n specs :
  map LineHoverRegistration.handle (allocate n specs)
  = seq n (length specs).
Proof.
  revert n; induction specs as [|[p k] specs IH]; intros n; [done|].
  simpl. by rewrite IH.
Qed.

Lemma allocate_selectors n specs :
  map selector_of (allocate n specs) = specs.
Proof.
  revert n; induction specs as [|[p k] specs IH]; intros n; [done|].
  simpl. by rewrite IH.
Qed.

(** A registry made of entries the controller does not hold followed by
    the entries it holds splits accordingly. *)
Lemma own_other_split this host base news :
  LineHoverRegistration.hoverProviders host = base ++ news ->
  owned this = map LineHoverRegistration.handle news ->
  Forall (fun r => LineHoverRegistration.handle r
                   ∉ map LineHoverRegistration.handle news) base ->
  own_providers this host = news /\ other_providers this host = base.
Proof.
  intros Hrs Hown Hbase. unfold own_providers, other_providers.
  rewrite Hrs, Hown, !List.filter_app.
  assert (Hnews : Forall (fun r => bool_decide
            (LineHoverRegistration.handle r
             ∈ map LineHoverRegistration.handle news) = true) news).
  { apply List.Forall_forall. intros r Hr. apply bool_decide_eq_true.
    apply list_elem_of_In, in_map, Hr. }
  assert (Hbase' : Forall (fun r => bool_decide
            (LineHoverRegistration.handle r
             ∈ map LineHoverRegistration.handle news) = false) base).
  { eapply Forall_impl; [exact Hbase|]. intros r Hr.
    by apply bool_decide_eq_false. }
  split.
  - rewrite (filter_none _ base) by exact Hbase'.
    rewrite (filter_all _ news) by exact Hnews. done.
  - rewrite (filter_all _ base).
    2:{ eapply Forall_impl; [exact Hbase'|]. intros r ->. done. }
    rewrite (filter_none _ news).
    2:{ eapply Forall_impl; [exact Hnews|]. intros r ->. done. }
    apply app_nil_r.
Qed.

Lemma other_providers_allocated this host n :
  Forall (fun r => (LineHoverRegistration.handle r < n)%nat)
         (LineHoverRegistration.hoverProviders host) ->
  Forall (fun r => (LineHoverRegistration.handle r < n)%nat)
         (other_providers this host).
Proof.
  intros Hall. unfold other_providers. apply List.Forall_forall.
  intros r Hr. apply List.filter_In in Hr as [Hr _].
  revert r Hr. by apply List.Forall_forall.
Qed.

(** [register] on a host that may have allocated since the controller's
    handles were checked. *)
Lemma register_spec this editor host :
  handles_allocated this host ->
  exists this' host',
    LineHoverRegistration.register this editor host = (Ok this', host') /\
    map selector_of (own_providers this' host')
    = providers_for (LineHoverRegistration.hovers host) editor /\
    other_providers this' host' = other_providers this host /\
    LineHoverRegistration.hoverProviders host'
    = other_providers this host ++ own_providers this' host' /\
    handles_allocated this' host' /\
    LineHoverRegistration.hovers host' = LineHoverRegistration.hovers host /\
    LineHoverRegistration.activeTextEditor host'
    = LineHoverRegistration.activeTextEditor host /\
    LineHoverRegistration.lineTracker_calls host'
    = LineHoverRegistration.lineTracker_calls host /\
    LineHoverRegistration.disposed host' = LineHoverRegistration.disposed host /\
    LineHoverRegistration._debugSessionEndDisposable this'
    = LineHoverRegistration._debugSessionEndDisposable this /\
    LineHoverRegistration._disposable this'
    = LineHoverRegistration._disposable this /\
    own_providers this' host'
    = allocate (LineHoverRegistration.next_handle host)
        (providers_for (LineHoverRegistration.hovers host) editor).
Proof.
  intros [Hrs Hown].
  destruct (register_run this editor host)
    as (this' & Hrun & Howned & Hdbg & Hdisp).
  eexists this', _. split; [exact Hrun|].
  set (specs := providers_for (LineHoverRegistration.hovers host) editor)
    in *.
  set (n := LineHoverRegistration.next_handle host) in *.
  set (host' := LineHoverRegistration.set_next_handle _ _).
  assert (Hbase : Forall (fun r => (LineHoverRegistration.handle r < n)%nat)
                    (other_providers this host))
    by by apply other_providers_allocated.
  destruct (own_other_split this' host' (other_providers this host)
              (allocate n specs)) as [Hmine Hothers].
  { reflexivity. }
  { exact Howned. }
  { eapply Forall_impl; [exact Hbase|]. intros r Hr. cbv beta in *.
    rewrite allocate_handles, elem_of_seq. lia. }
  rewrite Hmine, Hothers, allocate_selectors.
  repeat split; try done.
  - subst host'. registration_simpl. apply Forall_app. split.
    + eapply Forall_impl; [exact Hbase|]. intros r Hr. cbv beta in *. lia.
    + apply List.Forall_forall. intros r Hr.
      apply (in_map LineHoverRegistration.handle) in Hr.
      rewrite allocate_handles in Hr. apply in_seq in Hr. lia.
  - rewrite Howned, allocate_handles. subst host'. registration_simpl.
    apply List.Forall_forall. intros d Hd. apply in_seq in Hd. lia.
Qed.

Lemma unregister_spec this host :
  handles_allocated this host ->
  exists this' host',
    LineHoverRegistration.unregister this host = (Ok this', host') /\
    own_providers this' host' = [] /\
    other_providers this' host' = other_providers this host /\
    LineHoverRegistration.hoverProviders host' = other_providers this host /\
    handles_allocated this' host' /\
    LineHoverRegistration.hovers host' = LineHoverRegistration.hovers host /\
    LineHoverRegistration.activeTextEditor host'
    = LineHoverRegistration.activeTextEditor host /\
    LineHoverRegistration.lineTracker_calls host'
    = LineHoverRegistration.lineTracker_calls host /\
    LineHoverRegistration.disposed host' = LineHoverRegistration.disposed host /\
    LineHoverRegistration.next_handle host'
    = LineHoverRegistration.next_handle host /\
    LineHoverRegistration._debugSessionEndDisposable this'
    = LineHoverRegistration._debugSessionEndDisposable this /\
    LineHoverRegistration._disposable this'
    = LineHoverRegistration._disposable this.
Proof.
  intros [Hrs Hown]. rewrite unregister_run. eexists _, _.
  split; [reflexivity|].
  set (this' := LineHoverRegistration.set_hoverProviderDisposable this None).
  set (host' := LineHoverRegistration.set_hoverProviders _ _).
  destruct (own_other_split this' host' (other_providers this host) [])
    as [Hmine Hothers].
  { subst host'. registration_simpl. by rewrite app_nil_r. }
  { reflexivity. }
  { apply List.Forall_forall. intros r _. apply not_elem_of_nil. }
  rewrite Hmine, Hothers. repeat split; try done.
  subst host'. registration_simpl. by apply other_providers_allocated.
Qed.

Lemma same_registry_refl host : same_registry host host.
Proof. by split. Qed.

Lemma same_registry_providers this host host' :
  same_registry host host' ->
  own_providers this host' = own_providers this host /\
  other_providers this host' = other_providers this host.
Proof.
  intros [Hrs _]. unfold own_providers, other_providers. by rewrite Hrs.
Qed.

Lemma same_registry_allocated this host host' :
  same_registry host host' ->
  handles_allocated this host -> handles_allocated this host'.
Proof.
  intros [Hrs Hle] [H1 H2]. split.
  - rewrite Hrs. eapply Forall_impl; [exact H1|]. intros r Hr.
    cbv beta in *. lia.
  - eapply Forall_impl; [exact H2|]. intros r Hr. cbv beta in *. lia.
Qed.

Lemma registry_inv_same others this host host' :
  same_registry host host' ->
  registry_inv others this host -> registry_inv others this host'.
Proof.
  intros Hsame (Halloc & Hrs & Hothers & Hspecs). unfold registry_inv.
  destruct (same_registry_providers this host host' Hsame) as [-> ->].
  split; [by apply (same_registry_allocated this host host' Hsame)|].
  split; [by destruct Hsame as [-> _]|]. by split.
Qed.

(** What the configuration handler does when the event concerns it. *)
Lemma onConfigurationChanged_spec this e host :
  handles_allocated this host ->
  LineHoverRegistration.initializing e
  || LineHoverRegistration.changed e LineHoverRegistration.hovers_enabled
  || LineHoverRegistration.changed e
       LineHoverRegistration.hovers_currentLine_enabled = true ->
  exists this' host',
    LineHoverRegistration.onConfigurationChanged this e host
    = (Ok this', host') /\
    map selector_of (own_providers this' host')
    = providers_for (LineHoverRegistration.hovers host)
        (LineHoverRegistration.activeTextEditor host) /\
    other_providers this' host' = other_providers this host /\
    LineHoverRegistration.hoverProviders host'
    = other_providers this host ++ own_providers this' host' /\
    handles_allocated this' host' /\
    LineHoverRegistration.lineTracker_calls host'
    = LineHoverRegistration.lineTracker_calls host
      ++ [if LineHoverRegistration.enabled (LineHoverRegistration.hovers host)
             && LineHoverRegistration.currentLine_enabled
                  (LineHoverRegistration.hovers host)
          then LineHoverRegistration.Start
                 (LineHoverRegistration.next_handle host)
          else LineHoverRegistration.Stop] /\
    LineHoverRegistration._debugSessionEndDisposable this'
    = LineHoverRegistration._debugSessionEndDisposable this /\
    LineHoverRegistration._disposable this'
    = LineHoverRegistration._disposable this.
Proof.
  intros Halloc Hev. unfold LineHoverRegistration.onConfigurationChanged.
  assert (Hcond :
    negb (LineHoverRegistration.initializing e)
    && negb (LineHoverRegistration.changed e
               LineHoverRegistration.hovers_enabled)
    && negb (LineHoverRegistration.changed e
               LineHoverRegistration.hovers_currentLine_enabled) = false).
  { destruct (LineHoverRegistration.initializing e),
      (LineHoverRegistration.changed e LineHoverRegistration.hovers_enabled),
      (LineHoverRegistration.changed e
         LineHoverRegistration.hovers_currentLine_enabled); done. }
  rewrite Hcond.
  cbv [bind read LineHoverRegistration.fresh_handle
       LineHoverRegistration.lineTracker_start
       LineHoverRegistration.lineTracker_stop].
  destruct (LineHoverRegistration.enabled (LineHoverRegistration.hovers host)
            && LineHoverRegistration.currentLine_enabled
                 (LineHoverRegistration.hovers host)) eqn:Hon.
  - registration_simpl.
    set (host1 := LineHoverRegistration.set_lineTracker_calls _ _).
    assert (Hsame : same_registry host host1).
    { split; subst host1; registration_simpl; [done|lia]. }
    destruct (register_spec this
                (LineHoverRegistration.activeTextEditor host) host1)
      as (this' & host' & Hrun & Hmine & Hothers & Hrs & Halloc' & _ & _
          & Hcalls & _ & Hdbg & Hdisp & _).
    { by apply (same_registry_allocated this host host1). }
    destruct (same_registry_providers this host host1 Hsame) as [_ Heq].
    rewrite Heq in *. pose proof Halloc' as [Ha1 Ha2].
    exists this', host'. split; [exact Hrun|].
    repeat split; try done.
  - registration_simpl.
    set (host1 := LineHoverRegistration.set_lineTracker_calls _ _).
    assert (Hsame : same_registry host host1).
    { split; subst host1; registration_simpl; [done|lia]. }
    destruct (unregister_spec this host1)
      as (this' & host' & Hrun & Hmine & Hothers & Hrs & Halloc' & _ & _
          & Hcalls & _ & _ & Hdbg & Hdisp).
    { by apply (same_registry_allocated this host host1). }
    destruct (same_registry_providers this host host1 Hsame) as [_ Heq].
    rewrite Heq in *. pose proof Halloc' as [Ha1 Ha2].
    exists this', host'. split; [exact Hrun|].
    rewrite Hmine, app_nil_r.
    repeat split; try done.
    unfold providers_for.
    destruct (LineHoverRegistration.activeTextEditor host); [|done].
    by rewrite Hon.
Qed.

Lemma onActiveLinesChanged_spec this e host :
  handles_allocated this host ->
  LineHoverRegistration.pending e = false ->
  LineHoverRegistration.reason e = "editor" ->
  exists this' host',
    LineHoverRegistration.onActiveLinesChanged this e host
    = (Ok this', host') /\
    map selector_of (own_providers this' host')
    = providers_for (LineHoverRegistration.hovers host)
        (match LineHoverRegistration.lines e with
         | Some _ => LineHoverRegistration.editor e
         | None => None
         end) /\
    other_providers this' host' = other_providers this host /\
    LineHoverRegistration.hoverProviders host'
    = other_providers this host ++ own_providers this' host' /\
    handles_allocated this' host'.
Proof.
  intros Halloc Hpending Hreason.
  unfold LineHoverRegistration.onActiveLinesChanged.
  rewrite Hpending, Hreason. cbn [orb negb String.eqb Ascii.eqb Bool.eqb andb].
  destruct (LineHoverRegistration.editor e) as [ed|],
    (LineHoverRegistration.lines e) as [ls|].
  1: destruct (register_spec this (Some ed) host Halloc)
       as (this' & host' & Hrun & Hmine & Hothers & Hrs & Halloc' & _);
     by exists this', host'.
  all: destruct (unregister_spec this host Halloc)
         as (this' & host' & Hrun & Hmine & Hothers & Hrs & Halloc' & _);
    exists this', host'; rewrite Hmine, app_nil_r;
    repeat split; try done; apply Halloc'.
Qed.

Lemma on_host_event_inv others this ev host :
  registry_inv others this host ->
  exists this' host',
    on_host_event this ev host = (Ok this', host') /\
    registry_inv others this' host'.
Proof.
  intros Hinv. destruct ev as [cfg e|e|ed]; cbn [on_host_event].
  - set (host1 := LineHoverRegistration.set_hovers host cfg).
    assert (Hinv1 : registry_inv others this host1).
    { apply (registry_inv_same others this host); [|done].
      split; subst host1; registration_simpl; [done|lia]. }
    destruct (negb (LineHoverRegistration.initializing e)
              && negb (LineHoverRegistration.changed e
                         LineHoverRegistration.hovers_enabled)
              && negb (LineHoverRegistration.changed e
                         LineHoverRegistration.hovers_currentLine_enabled))
      eqn:Hcond.
    + exists this, host1. split; [|done].
      unfold LineHoverRegistration.onConfigurationChanged.
      by rewrite Hcond.
    + destruct Hinv1 as (Halloc & Hrs & Hothers & _).
      destruct (onConfigurationChanged_spec this e host1 Halloc)
        as (this' & host' & Hrun & Hmine & Hothers' & Hrs' & Halloc' & _).
      { destruct (LineHoverRegistration.initializing e),
          (LineHoverRegistration.changed e
             LineHoverRegistration.hovers_enabled),
          (LineHoverRegistration.changed e
             LineHoverRegistration.hovers_currentLine_enabled); done. }
      exists this', host'. split; [exact Hrun|].
      split; [exact Halloc'|]. rewrite Hothers in *.
      split; [exact Hrs'|]. split; [exact Hothers'|]. by eexists _, _.
  - destruct (LineHoverRegistration.pending e
              || negb (String.eqb (LineHoverRegistration.reason e) "editor"))
      eqn:Hcond.
    + exists this, host. split; [|done].
      unfold LineHoverRegistration.onActiveLinesChanged. by rewrite Hcond.
    + apply orb_false_iff in Hcond as [Hpending Hreason].
      apply negb_false_iff, String.eqb_eq in Hreason.
      destruct Hinv as (Halloc & Hrs & Hothers & _).
      destruct (onActiveLinesChanged_spec this e host Halloc Hpending Hreason)
        as (this' & host' & Hrun & Hmine & Hothers' & Hrs' & Halloc').
      exists this', host'. split; [exact Hrun|].
      split; [exact Halloc'|]. rewrite Hothers in *.
      split; [exact Hrs'|]. split; [exact Hothers'|]. by eexists _, _.
  - eexists _, _. split; [reflexivity|].
    apply (registry_inv_same others this host); [|done].
    split; registration_simpl; [done|lia].
Qed.

Lemma after_host_events_inv others this evs host :
  registry_inv others this host ->
  exists this' host',
    after_host_events this evs host = Some (this', host') /\
    registry_inv others this' host'.
Proof.
  revert this host. induction evs as [|ev evs IH]; intros this host Hinv.
  - by exists this, host.
  - destruct (on_host_event_inv others this ev host Hinv)
      as (this1 & host1 & Hrun & Hinv1).
    simpl. rewrite Hrun. by apply IH.
Qed.

Lemma providers_for_sublist cfg ed :
  exists fsPath,
    providers_for cfg ed
      `sublist_of` [(fsPath, LineHoverRegistration.ChangesHover);
                     (fsPath, LineHoverRegistration.DetailsHover)].
Proof.
  destruct ed as [fsPath|]; [exists fsPath|exists ""]; simpl.
  2: apply sublist_nil_l.
  destruct (_ && _); [|apply sublist_nil_l].
  destruct (LineHoverRegistration.currentLine_changes cfg),
    (LineHoverRegistration.currentLine_details cfg); simpl.
  - done.
  - apply sublist_skip, sublist_nil_l.
  - by apply sublist_cons.
  - apply sublist_nil_l.
Qed.

(** X18.  [register] replaces the controller's hover providers: what it
    had registered is gone, what it has registered afterwards is what
    the configuration asks for on the given editor, after the providers
    of others, which keep their order. *)
Theorem register_replaces_providers (this : LineHoverRegistration.t)
    (editor : option string) (host : LineHoverRegistration.Host) :
  handles_allocated this host ->
  exists this' host',
    LineHoverRegistration.register this editor host = (Ok this', host') /\
    LineHoverRegistration.hoverProviders host'
    = other_providers this host ++ own_providers this' host' /\
    map selector_of (own_providers this' host')
    = providers_for (LineHoverRegistration.hovers host) editor /\
    own_providers this host' = [] /\
    handles_allocated this' host'.
Proof.
  intros Halloc.
  destruct (register_spec this editor host Halloc)
    as (this' & host' & Hrun & Hmine & Hothers & Hrs & Halloc' & _ & _ & _
        & _ & _ & _ & Hnew).
  exists this', host'. repeat split; try done; try apply Halloc'.
  unfold own_providers at 1. rewrite Hrs, Hnew, List.filter_app.
  rewrite !filter_none; [done| |].
  - apply List.Forall_forall. intros r Hr. apply bool_decide_eq_false.
    apply (in_map LineHoverRegistration.handle) in Hr.
    rewrite allocate_handles in Hr. apply in_seq in Hr.
    destruct Halloc as [_ Hown]. intros Hin.
    apply list_elem_of_In in Hin.
    apply (proj1 (List.Forall_forall _ _) Hown) in Hin. lia.
  - apply List.Forall_forall. intros r Hr.
    apply List.filter_In in Hr as [_ Hr]. by apply negb_true_iff in Hr.
Qed.


Lemma registration_host_allocated :
  handles_allocated registered_controller registration_host.
Proof.
  split; repeat (apply Forall_cons; split); try apply Forall_nil;
    simpl; lia.
Qed.

Lemma register_replaces_providers_witness :
  exists this' host',
    LineHoverRegistration.register registered_controller
        (Some "/repo/file.ts") registration_host
      = (Ok this', host') /\
    LineHoverRegistration.hoverProviders host'
    = [LineHoverRegistration.mkRegistration 0 "/other"
         LineHoverRegistration.DetailsHover;
       LineHoverRegistration.mkRegistration 4 "/repo/file.ts"
         LineHoverRegistration.ChangesHover;
       LineHoverRegistration.mkRegistration 5 "/repo/file.ts"
         LineHoverRegistration.DetailsHover].
Proof.
  destruct (register_replaces_providers registered_controller
              (Some "/repo/file.ts") registration_host
              registration_host_allocated)
    as (this' & host' & Hrun & _).
  exists this', host'. split; [exact Hrun|].
  vm_compute in Hrun. injection Hrun as <- <-. reflexivity.
Defined.

(** X19.  Whatever configuration changes, active-line changes and editor
    changes reach a freshly constructed controller, the registry of
    hover providers consists of the providers that were there before, in
    their order, followed by the controller's own, and of these there is
    at most the changes hover followed by the details hover, both for
    the same file. *)
Theorem hover_providers_invariant (this : LineHoverRegistration.t)
    (host : LineHoverRegistration.Host) (evs : list HostEvent) :
  LineHoverRegistration._hoverProviderDisposable this = None ->
  Forall (fun r => (LineHoverRegistration.handle r
                    < LineHoverRegistration.next_handle host)%nat)
         (LineHoverRegistration.hoverProviders host) ->
  exists this' host' fsPath,
    after_host_events this evs host = Some (this', host') /\
    LineHoverRegistration.hoverProviders host'
    = LineHoverRegistration.hoverProviders host ++ own_providers this' host' /\
    map selector_of (own_providers this' host')
      `sublist_of` [(fsPath, LineHoverRegistration.ChangesHover);
                     (fsPath, LineHoverRegistration.DetailsHover)].
Proof.
  intros Hnone Hrs.
  assert (Hinv : registry_inv (LineHoverRegistration.hoverProviders host)
                   this host).
  { destruct (own_other_split this host
                (LineHoverRegistration.hoverProviders host) [])
      as [Hmine Hothers].
    - by rewrite app_nil_r.
    - unfold owned. by rewrite Hnone.
    - apply List.Forall_forall. intros r _. apply not_elem_of_nil.
    - unfold registry_inv. rewrite Hmine, Hothers, app_nil_r.
      repeat split; try done.
      + unfold owned. rewrite Hnone. constructor.
      + by exists (LineHoverRegistration.hovers host), None. }
  destruct (after_host_events_inv _ this evs host Hinv)
    as (this' & host' & Hrun & _ & Hrs' & _ & cfg & ed & Hspecs).
  destruct (providers_for_sublist cfg ed) as [fsPath Hsub].
  exists this', host', fsPath. rewrite Hspecs. by repeat split.
Qed.

Lemma hover_providers_invariant_witness :
  exists this' host',
    after_host_events (LineHoverRegistration.mk None None None)
      [ActiveLinesChange
         (LineHoverRegistration.mkLinesChange false "editor"
            (Some "/repo/file.ts") (Some [0%N]));
       ConfigurationChange
         (LineHoverRegistration.mkHovers true true false true)
         (LineHoverRegistration.mkEvent false (fun _ => false));
       ActiveEditorChange (Some "/repo/other.ts")]
      registration_host
    = Some (this', host') /\
    LineHoverRegistration.hoverProviders host'
    = LineHoverRegistration.hoverProviders registration_host
      ++ [LineHoverRegistration.mkRegistration 4 "/repo/file.ts"
            LineHoverRegistration.ChangesHover;
          LineHoverRegistration.mkRegistration 5 "/repo/file.ts"
            LineHoverRegistration.DetailsHover].
Proof.
  destruct (hover_providers_invariant
              (LineHoverRegistration.mk None None None) registration_host
              [ActiveLinesChange
                 (LineHoverRegistration.mkLinesChange false "editor"
                    (Some "/repo/file.ts") (Some [0%N]));
               ConfigurationChange
                 (LineHoverRegistration.mkHovers true true false true)
                 (LineHoverRegistration.mkEvent false (fun _ => false));
               ActiveEditorChange (Some "/repo/other.ts")])
    as (this' & host' & fsPath & Hrun & _).
  { reflexivity. }
  { apply registration_host_allocated. }
  exists this', host'. split; [exact Hrun|].
  vm_compute in Hrun. injection Hrun as <- <-. reflexivity.
Defined.

(** X20.  A configuration change that concerns the controller (the
    initial one, or one of [hovers.enabled] or
    [hovers.currentLine.enabled]) leaves it with the providers the
    configuration asks for on the active editor, and starts the line
    tracker with a new subscription if current-line hovers are on,
    stops it if not. *)
Theorem onConfigurationChanged_providers (this : LineHoverRegistration.t)
    (e : LineHoverRegistration.ConfigurationChangeEvent)
    (host : LineHoverRegistration.Host) :
  handles_allocated this host ->
  LineHoverRegistration.initializing e
  || LineHoverRegistration.changed e LineHoverRegistration.hovers_enabled
  || LineHoverRegistration.changed e
       LineHoverRegistration.hovers_currentLine_enabled = true ->
  exists this' host',
    LineHoverRegistration.onConfigurationChanged this e host
    = (Ok this', host') /\
    LineHoverRegistration.hoverProviders host'
    = other_providers this host ++ own_providers this' host' /\
    map selector_of (own_providers this' host')
    = providers_for (LineHoverRegistration.hovers host)
        (LineHoverRegistration.activeTextEditor host) /\
    LineHoverRegistration.lineTracker_calls host'
    = LineHoverRegistration.lineTracker_calls host
      ++ [if LineHoverRegistration.enabled (LineHoverRegistration.hovers host)
             && LineHoverRegistration.currentLine_enabled
                  (LineHoverRegistration.hovers host)
          then LineHoverRegistration.Start
                 (LineHoverRegistration.next_handle host)
          else LineHoverRegistration.Stop].
Proof.
  intros Halloc Hev.
  destruct (onConfigurationChanged_spec this e host Halloc Hev)
    as (this' & host' & Hrun & Hmine & _ & Hrs & _ & Hcalls & _).
  by exists this', host'.
Qed.

Lemma onConfigurationChanged_providers_witness :
  exists this' host',
    LineHoverRegistration.onConfigurationChanged registered_controller
        (LineHoverRegistration.mkEvent true (fun _ => false))
        registration_host
      = (Ok this', host') /\
    LineHoverRegistration.hoverProviders host'
    = [LineHoverRegistration.mkRegistration 0 "/other"
         LineHoverRegistration.DetailsHover;
       LineHoverRegistration.mkRegistration 5 "/repo/file.ts"
         LineHoverRegistration.ChangesHover;
       LineHoverRegistration.mkRegistration 6 "/repo/file.ts"
         LineHoverRegistration.DetailsHover] /\
    LineHoverRegistration.lineTracker_calls host'
    = [LineHoverRegistration.Start 4].
Proof.
  destruct (onConfigurationChanged_providers registered_controller
              (LineHoverRegistration.mkEvent true (fun _ => false))
              registration_host registration_host_allocated eq_refl)
    as (this' & host' & Hrun & _).
  exists this', host'. split; [exact Hrun|].
  vm_compute in Hrun. injection Hrun as <- <-. split; reflexivity.
Defined.

(** X21.  A change of the active lines that is not pending and comes
    from the editor brings the controller's providers up to date with
    the configuration: they are those asked for on the event's editor,
    and none if the event has no editor or no lines. *)
Theorem onActiveLinesChanged_providers (this : LineHoverRegistration.t)
    (e : LineHoverRegistration.LinesChangeEvent)
    (host : LineHoverRegistration.Host) :
  handles_allocated this host ->
  LineHoverRegistration.pending e = false ->
  LineHoverRegistration.reason e = "editor" ->
  exists this' host',
    LineHoverRegistration.onActiveLinesChanged this e host
    = (Ok this', host') /\
    LineHoverRegistration.hoverProviders host'
    = other_providers this host ++ own_providers this' host' /\
    map selector_of (own_providers this' host')
    = providers_for (LineHoverRegistration.hovers host)
        (match LineHoverRegistration.lines e with
         | Some _ => LineHoverRegistration.editor e
         | None => None
         end).
Proof.
  intros Halloc Hpending Hreason.
  destruct (onActiveLinesChanged_spec this e host Halloc Hpending Hreason)
    as (this' & host' & Hrun & Hmine & _ & Hrs & _).
  by exists this', host'.
Qed.

Lemma onActiveLinesChanged_providers_witness :
  exists this' host',
    LineHoverRegistration.onActiveLinesChanged registered_controller
        (LineHoverRegistration.mkLinesChange false "editor"
           (Some "/repo/file.ts") None)
        registration_host
      = (Ok this', host') /\
    LineHoverRegistration.hoverProviders host'
    = [LineHoverRegistration.mkRegistration 0 "/other"
         LineHoverRegistration.DetailsHover].
Proof.
  destruct (onActiveLinesChanged_providers registered_controller
              (LineHoverRegistration.mkLinesChange false "editor"
                 (Some "/repo/file.ts") None)
              registration_host registration_host_allocated eq_refl eq_refl)
    as (this' & host' & Hrun & _).
  exists this', host'. split; [exact Hrun|].
  vm_compute in Hrun. injection Hrun as <- <-. reflexivity.
Defined.

(** X22.  A controller under construction registers the providers the
    configuration asks for on the active editor, after the providers
    already there; it holds its two listeners and is not debugging. *)
Theorem create_registers (host : LineHoverRegistration.Host) :
  Forall (fun r => (LineHoverRegistration.handle r
                    < LineHoverRegistration.next_handle host)%nat)
         (LineHoverRegistration.hoverProviders host) ->
  exists this' host',
    LineHoverRegistration.create host = (Ok this', host') /\
    LineHoverRegistration.hoverProviders host'
    = LineHoverRegistration.hoverProviders host ++ own_providers this' host' /\
    map selector_of (own_providers this' host')
    = providers_for (LineHoverRegistration.hovers host)
        (LineHoverRegistration.activeTextEditor host) /\
    LineHoverRegistration._debugSessionEndDisposable this' = None /\
    LineHoverRegistration._disposable this'
    = Some (LineHoverRegistration.next_handle host,
            S (LineHoverRegistration.next_handle host)).
Proof.
  intros Hrs. unfold LineHoverRegistration.create.
  cbv [bind LineHoverRegistration.fresh_handle]. registration_simpl.
  set (this := LineHoverRegistration.mk None _ None).
  set (host1 := LineHoverRegistration.set_next_handle _ _).
  assert (Hsame : same_registry host host1).
  { split; subst host1; registration_simpl; [done|lia]. }
  assert (Halloc : handles_allocated this host1).
  { apply (same_registry_allocated this host host1 Hsame).
    split; [exact Hrs|constructor]. }
  destruct (onConfigurationChanged_spec this
              (LineHoverRegistration.mkEvent true (fun _ => false)) host1
              Halloc eq_refl)
    as (this' & host' & Hrun & Hmine & _ & Hrs' & _ & _ & Hdbg & Hdisp).
  exists this', host'. split; [exact Hrun|].
  rewrite (other_providers_unowned this host1 eq_refl) in Hrs'.
  by repeat split.
Qed.

Lemma create_registers_witness :
  exists this' host',
    LineHoverRegistration.create registration_host = (Ok this', host') /\
    LineHoverRegistration.hoverProviders host'
    = LineHoverRegistration.hoverProviders registration_host
      ++ [LineHoverRegistration.mkRegistration 7 "/repo/file.ts"
            LineHoverRegistration.ChangesHover;
          LineHoverRegistration.mkRegistration 8 "/repo/file.ts"
            LineHoverRegistration.DetailsHover] /\
    LineHoverRegistration._disposable this' = Some (4, 5)%nat.
Proof.
  destruct (create_registers registration_host)
    as (this' & host' & Hrun & _).
  { repeat (apply Forall_cons; split); try apply Forall_nil; simpl; lia. }
  exists this', host'. split; [exact Hrun|].
  vm_compute in Hrun. injection Hrun as <- <-. split; reflexivity.
Defined.

Lemma own_providers_of_others this host host' :
  LineHoverRegistration.hoverProviders host' = other_providers this host ->
  own_providers this host' = [].
Proof.
  intros Hrs. unfold own_providers. rewrite Hrs. apply filter_none.
  apply List.Forall_forall. intros r Hr.
  apply List.filter_In in Hr as [_ Hr]. by apply negb_true_iff in Hr.
Qed.

(** X23.  [dispose] takes the controller's hover providers out of the
    registry and leaves the others in their order, stops the line
    tracker and disposes of the debug-session subscription, if there is
    one, and of the two listeners. *)
Theorem dispose_unregisters (this : LineHoverRegistration.t)
    (host : LineHoverRegistration.Host) :
  exists this' host',
    LineHoverRegistration.dispose this host = (Ok this', host') /\
    LineHoverRegistration.hoverProviders host' = other_providers this host /\
    own_providers this host' = [] /\
    LineHoverRegistration.lineTracker_calls host'
    = LineHoverRegistration.lineTracker_calls host
      ++ [LineHoverRegistration.Stop] /\
    LineHoverRegistration.disposed host'
    = LineHoverRegistration.disposed host
      ++ match LineHoverRegistration._debugSessionEndDisposable this with
         | Some d => [d]
         | None => []
         end
      ++ match LineHoverRegistration._disposable this with
         | Some (d1, d2) => [d1; d2]
         | None => []
         end.
Proof.
  unfold LineHoverRegistration.dispose, bind. rewrite unregister_run.
  generalize (eq_refl (other_providers this host)).
  generalize (other_providers this host) at 2 3 4 as base. intros base Hbase.
  destruct this as [[dbg|] [[d1 d2]|] hs], host as [cfg ed rs tc ds nh];
    run_registration; eexists _, _; (split; [reflexivity|]);
    registration_simpl.
  all: split; [done|].
  all: split;
    [eapply own_providers_of_others; registration_simpl; by rewrite Hbase|].
  all: split; [done|]; by rewrite <- ?app_assoc, ?app_nil_r.
Qed.

(** ** The extension: version notices and settings migration *)

Lemma split_dot_nonempty s : Extension.split_dot s <> [].
Proof.
  destruct s as [|c s]; simpl; [done|].
  destruct (Ascii.eqb c "."); [done|].
  by destruct (Extension.split_dot s).
Qed.

Lemma split_dot_no_dot s :
  no_dot s = true -> Extension.split_dot s = [s].
Proof.
  induction s as [|c s IH]; simpl; [done|].
  intros [Hc Hs]%andb_true_iff. apply negb_true_iff in Hc.
  by rewrite Hc, (IH Hs).
Qed.

Lemma split_dot_app a b :
  no_dot a = true ->
  Extension.split_dot (a ++ String "." b)%string
  = a :: Extension.split_dot b.
Proof.
  induction a as [|c a IH]; simpl; [done|].
  intros [Hc Ha]%andb_true_iff. apply negb_true_iff in Hc.
  by rewrite Hc, (IH Ha).
Qed.

(** Splitting at the dots undoes joining by dots. *)
Lemma split_dot_dotted parts :
  parts <> [] ->
  Forall (fun p => no_dot p = true) parts ->
  Extension.split_dot (dotted parts) = parts.
Proof.
  unfold dotted. induction parts as [|p parts IH]; [done|].
  intros _ Hparts. apply Forall_cons in Hparts as [Hp Hparts].
  destruct parts as [|q parts].
  - simpl. by apply split_dot_no_dot.
  - change (String.concat "." (p :: q :: parts))
      with (p ++ String "." (String.concat "." (q :: parts)))%string.
    rewrite split_dot_app by done. by rewrite IH.
Qed.

Lemma strict_eq_Some a b :
  Extension.strict_eq (Some a) (Some b) = String.eqb a b.
Proof.
  unfold Extension.strict_eq. destruct (String.eqb_spec a b) as [->|Hne].
  - by apply bool_decide_eq_true.
  - apply bool_decide_eq_false. by intros [= ->].
Qed.

(** The condition under which the update message is shown, on the first
    two components of the two versions. *)
Lemma notifyOnNewGitLensVersion_run version previous env
    major minor rest pmajor pminor prest :
  Extension.suppressUpdateNotice env = false ->
  Extension.split_dot version = major :: minor :: rest ->
  Extension.split_dot previous = pmajor :: pminor :: prest ->
  exists logged,
    Extension.notifyOnNewGitLensVersion version (Some previous) env
    = (Ok tt,
       Extension.set_calls env
         (Extension.calls env ++ logged
          ++ if negb (String.eqb major pmajor && String.eqb minor pminor)
                && negb (String.ltb major pmajor
                         || (String.eqb major pmajor
                             && String.ltb minor pminor))
             then [Extension.ShowUpdateMessage version] else [])) /\
    forall c, In c logged -> exists message, c = Extension.LoggerLog message.
Proof.
  intros Hsup Hv Hp.
  unfold Extension.notifyOnNewGitLensVersion.
  cbv [bind read ret Extension.call]. rewrite Hsup, Hv, Hp.
  cbn [nth_error Extension.less_than]. rewrite !strict_eq_Some.
  destruct env as [gs am sun cof sms vc ue cs].
  destruct (String.eqb previous version);
    destruct (String.eqb major pmajor), (String.eqb minor pminor),
      (String.ltb major pmajor), (String.ltb minor pminor);
    cbn [negb andb orb Extension.calls Extension.set_calls];
    first [ exists []; split; [by rewrite ?app_nil_r|]; intros c []
          | eexists [_]; split;
            [unfold Extension.set_calls; cbn;
             by rewrite <- ?app_assoc, ?app_nil_r|];
            intros c [<-|[]]; by eexists ].
Qed.

Lemma numeral_no_dot s : numeral s = true -> no_dot s = true.
Proof.
  induction s as [|c s IH]; simpl; [done|].
  intros [Hc Hs]%andb_true_iff. rewrite (IH Hs), andb_true_r.
  apply negb_true_iff, Ascii.eqb_neq. intros ->. discriminate Hc.
Qed.

(** On numerals of the same length the order of the strings is the order
    of their values. *)
Lemma compare_numeral x y a b :
  numeral x = true -> numeral y = true ->
  String.length x = String.length y ->
  (value_from a x ?= value_from b y)%N
  = match (a ?= b)%N with
    | Eq => String.compare x y
    | c => c
    end.
Proof.
  revert y a b. induction x as [|c x IH]; intros [|d y] a b Hx Hy Hlen;
    try discriminate Hlen; simpl.
  { by destruct (a ?= b)%N. }
  simpl in Hx, Hy.
  apply andb_true_iff in Hx as [Hc Hx]. apply andb_true_iff in Hy as [Hd Hy].
  injection Hlen as Hlen. rewrite (IH y _ _ Hx Hy Hlen).
  unfold is_digit in Hc, Hd.
  apply andb_true_iff in Hc as [Hc1 Hc2]. apply andb_true_iff in Hd as [Hd1 Hd2].
  apply N.leb_le in Hc1, Hc2, Hd1, Hd2.
  unfold Ascii.compare.
  destruct (N.compare_spec a b) as [->|Hab|Hab].
  - destruct (N.compare_spec (N_of_ascii c) (N_of_ascii d)) as [Hcd|Hcd|Hcd].
    + rewrite Hcd, N.compare_refl. done.
    + assert (H : (10 * b + (N_of_ascii c - 48)
                   < 10 * b + (N_of_ascii d - 48))%N) by lia.
      by rewrite (proj2 (N.compare_lt_iff _ _) H).
    + assert (H : (10 * b + (N_of_ascii d - 48)
                   < 10 * b + (N_of_ascii c - 48))%N) by lia.
      by rewrite (proj2 (N.compare_gt_iff _ _) H).
  - assert (H : (10 * a + (N_of_ascii c - 48)
                 < 10 * b + (N_of_ascii d - 48))%N) by lia.
    by rewrite (proj2 (N.compare_lt_iff _ _) H).
  - assert (H : (10 * b + (N_of_ascii d - 48)
                 < 10 * a + (N_of_ascii c - 48))%N) by lia.
    by rewrite (proj2 (N.compare_gt_iff _ _) H).
Qed.

Lemma ltb_numeral x y :
  numeral x = true -> numeral y = true ->
  String.length x = String.length y ->
  String.ltb x y = (value x <? value y)%N.
Proof.
  intros Hx Hy Hlen. unfold String.ltb, N.ltb, value.
  by rewrite (compare_numeral x y 0 0 Hx Hy Hlen).
Qed.

Lemma eqb_numeral x y :
  numeral x = true -> numeral y = true ->
  String.length x = String.length y ->
  String.eqb x y = (value x =? value y)%N.
Proof.
  intros Hx Hy Hlen.
  pose proof (compare_numeral x y 0 0 Hx Hy Hlen) as Hcmp. simpl in Hcmp.
  fold (value x) (value y) in Hcmp.
  destruct (String.eqb_spec x y) as [->|Hne].
  - symmetry. apply N.eqb_refl.
  - symmetry. apply N.eqb_neq. intros Heq.
    rewrite Heq, N.compare_refl in Hcmp. symmetry in Hcmp.
    by apply String.compare_eq_iff in Hcmp.
Qed.

(** X24.  A change of version that leaves the first two components as
    they are, a patch release for one, is not announced: no message is
    shown. *)
Theorem notifyOnNewGitLensVersion_patch_silent (env : Extension.Env)
    (major minor : string) (rest prest : list string) :
  no_dot major = true -> no_dot minor = true ->
  Forall (fun p => no_dot p = true) rest ->
  Forall (fun p => no_dot p = true) prest ->
  exists env' new,
    Extension.notifyOnNewGitLensVersion (dotted (major :: minor :: rest))
      (Some (dotted (major :: minor :: prest))) env
    = (Ok tt, env') /\
    Extension.calls env' = Extension.calls env ++ new /\
    forall c, In c new -> exists message, c = Extension.LoggerLog message.
Proof.
  intros Hmajor Hminor Hrest Hprest.
  destruct (Extension.suppressUpdateNotice env) eqn:Hsup.
  { exists env, []. unfold Extension.notifyOnNewGitLensVersion.
    cbv [bind read ret]. rewrite Hsup.
    split; [done|]. split; [by rewrite app_nil_r|]. intros c []. }
  destruct (notifyOnNewGitLensVersion_run
              (dotted (major :: minor :: rest))
              (dotted (major :: minor :: prest)) env
              major minor rest major minor prest Hsup)
    as (logged & Hrun & Hlogged).
  { apply split_dot_dotted; [done|]. by repeat (apply Forall_cons; split). }
  { apply split_dot_dotted; [done|]. by repeat (apply Forall_cons; split). }
  rewrite !String.eqb_refl in Hrun. cbn [negb andb] in Hrun.
  eexists _, logged. split; [exact Hrun|].
  split; [by rewrite app_nil_r|exact Hlogged].
Qed.

Lemma notifyOnNewGitLensVersion_patch_silent_witness :
  exists env',
    Extension.notifyOnNewGitLensVersion "8.2.4" (Some "8.2.0") extension_env
    = (Ok tt, env') /\
    Extension.calls env'
    = [Extension.LoggerLog "GitLens upgraded from v8.2.0 to v8.2.4"].
Proof.
  destruct (notifyOnNewGitLensVersion_patch_silent extension_env
              "8" "2" ["4"] ["0"])
    as (env' & new & Hrun & _); try reflexivity;
    try (by repeat constructor).
  exists env'. split; [exact Hrun|].
  vm_compute in Hrun. injection Hrun as <-. reflexivity.
Defined.

(** X25.  Between versions whose major components have the same number
    of digits, and whose minor components have, the update message is
    shown exactly when the new major.minor is greater than the previous
    one. *)
Theorem notifyOnNewGitLensVersion_numeric (env : Extension.Env)
    (major minor pmajor pminor : string) (rest prest : list string) :
  Extension.suppressUpdateNotice env = false ->
  numeral major = true -> numeral pmajor = true ->
  numeral minor = true -> numeral pminor = true ->
  String.length major = String.length pmajor ->
  String.length minor = String.length pminor ->
  Forall (fun p => no_dot p = true) rest ->
  Forall (fun p => no_dot p = true) prest ->
  let version := dotted (major :: minor :: rest) in
  exists env' new,
    Extension.notifyOnNewGitLensVersion version
      (Some (dotted (pmajor :: pminor :: prest))) env
    = (Ok tt, env') /\
    Extension.calls env' = Extension.calls env ++ new /\
    (In (Extension.ShowUpdateMessage version) new <->
     (value pmajor < value major)%N \/
     (value pmajor = value major /\ (value pminor < value minor)%N)).
Proof.
  intros Hsup Hmajor Hpmajor Hminor Hpminor Hlen1 Hlen2 Hrest Hprest version.
  destruct (notifyOnNewGitLensVersion_run version
              (dotted (pmajor :: pminor :: prest)) env
              major minor rest pmajor pminor prest Hsup)
    as (logged & Hrun & Hlogged).
  { apply split_dot_dotted; [done|].
    repeat (apply Forall_cons; split); auto using numeral_no_dot. }
  { apply split_dot_dotted; [done|].
    repeat (apply Forall_cons; split); auto using numeral_no_dot. }
  rewrite !eqb_numeral, !ltb_numeral in Hrun by done.
  eexists _, _. split; [exact Hrun|]. split; [reflexivity|].
  rewrite in_app_iff.
  destruct (N.eqb_spec (value major) (value pmajor)) as [Hm|Hm],
    (N.eqb_spec (value minor) (value pminor)) as [Hn|Hn],
    (N.ltb_spec (value major) (value pmajor)) as [Hlt|Hlt],
    (N.ltb_spec (value minor) (value pminor)) as [Hlt'|Hlt'];
    cbn [negb andb orb]; try lia.
  all: split;
    [intros [Hin|Hin];
     [apply Hlogged in Hin as [? [=]] | simpl in Hin; try lia]
    | intros Hgt; try lia; right; by left].
Qed.

Lemma notifyOnNewGitLensVersion_numeric_witness :
  exists env',
    Extension.notifyOnNewGitLensVersion "8.2.0" (Some "7.9.1") extension_env
    = (Ok tt, env') /\
    In (Extension.ShowUpdateMessage "8.2.0") (Extension.calls env').
Proof.
  destruct (notifyOnNewGitLensVersion_numeric extension_env
              "8" "2" "7" "9" ["0"] ["1"])
    as (env' & new & Hrun & Hcalls & Hshown); try reflexivity;
    try (by repeat constructor).
  exists env'. split; [exact Hrun|].
  rewrite Hcalls. apply in_or_app. right. apply Hshown.
  left. vm_compute. reflexivity.
Defined.

(** X26.  The components are compared as strings: a major component
    that begins with a smaller character than the previous one's counts
    as a downgrade, whatever the numbers are, and no message is shown.
    Version 10 after version 9 is such a case. *)
Theorem notifyOnNewGitLensVersion_first_character (env : Extension.Env)
    (c1 c2 : ascii) (s1 s2 minor pminor : string)
    (rest prest : list string) :
  (N_of_ascii c1 < N_of_ascii c2)%N ->
  no_dot (String c1 s1) = true -> no_dot (String c2 s2) = true ->
  no_dot minor = true -> no_dot pminor = true ->
  Forall (fun p => no_dot p = true) rest ->
  Forall (fun p => no_dot p = true) prest ->
  exists env' new,
    Extension.notifyOnNewGitLensVersion
      (dotted (String c1 s1 :: minor :: rest))
      (Some (dotted (String c2 s2 :: pminor :: prest))) env
    = (Ok tt, env') /\
    Extension.calls env' = Extension.calls env ++ new /\
    forall c, In c new -> exists message, c = Extension.LoggerLog message.
Proof.
  intros Hlt Hmajor Hpmajor Hminor Hpminor Hrest Hprest.
  destruct (Extension.suppressUpdateNotice env) eqn:Hsup.
  { exists env, []. unfold Extension.notifyOnNewGitLensVersion.
    cbv [bind read ret]. rewrite Hsup.
    split; [done|]. split; [by rewrite app_nil_r|]. intros c []. }
  destruct (notifyOnNewGitLensVersion_run
              (dotted (String c1 s1 :: minor :: rest))
              (dotted (String c2 s2 :: pminor :: prest)) env
              (String c1 s1) minor rest (String c2 s2) pminor prest Hsup)
    as (logged & Hrun & Hlogged).
  { apply split_dot_dotted; [done|]. by repeat (apply Forall_cons; split). }
  { apply split_dot_dotted; [done|]. by repeat (apply Forall_cons; split). }
  assert (Hltb : String.ltb (String c1 s1) (String c2 s2) = true).
  { unfold String.ltb. simpl. unfold Ascii.compare.
    by rewrite (proj2 (N.compare_lt_iff _ _) Hlt). }
  rewrite Hltb in Hrun. cbn [orb negb] in Hrun.
  rewrite andb_false_r in Hrun.
  eexists _, logged. split; [exact Hrun|].
  split; [by rewrite app_nil_r|exact Hlogged].
Qed.

Lemma notifyOnNewGitLensVersion_first_character_witness :
  exists env',
    Extension.notifyOnNewGitLensVersion "10.0.0" (Some "9.5.1") extension_env
    = (Ok tt, env') /\
    Extension.calls env'
    = [Extension.LoggerLog "GitLens upgraded from v9.5.1 to v10.0.0"] /\
    (value "9" < value "10")%N.
Proof.
  destruct (notifyOnNewGitLensVersion_first_character extension_env
              "1" "9" "0" "" "0" "5" ["0"] ["1"])
    as (env' & new & Hrun & _); try reflexivity;
    try (by repeat constructor).
  exists env'. split; [exact Hrun|].
  vm_compute in Hrun. injection Hrun as <-. split; reflexivity.
Defined.

Ltac extension_simpl :=
  cbn [Extension.globalState Extension.advanced_messages
       Extension.suppressUpdateNotice Extension.closeOnFocusOut
       Extension.suppressedMessages Extension.versions_compare
       Extension.update_error Extension.calls
       Extension.set_calls Extension.set_globalState] in *.

Lemma migrate_messages_none ms migrated messages env :
  (forall m, In m ms -> Extension.globalState env !! m = None) ->
  Extension.migrate_messages ms migrated messages env
  = (Ok (migrated, messages), env).
Proof.
  induction ms as [|m ms IH]; intros Hnone; simpl; [done|].
  cbv [bind read]. rewrite (Hnone m) by by left.
  apply IH. intros m' Hm'. apply Hnone. by right.
Qed.

(** The loop over the suppressed messages: every flag found in the
    global state is taken out of it and put into the messages object. *)
Lemma migrate_messages_spec ms migrated messages env :
  exists migrated' messages' gs' new,
    Extension.migrate_messages ms migrated messages env
    = (Ok (migrated', messages'),
       Extension.set_calls (Extension.set_globalState env gs')
         (Extension.calls env ++ new)) /\
    (forall k, gs' !! k
               = if bool_decide (k ∈ ms) then None
                 else Extension.globalState env !! k) /\
    (forall k, messages' !! k
               = match (if bool_decide (k ∈ ms)
                        then Extension.globalState env !! k else None) with
                 | Some b => Some b
                 | None => messages !! k
                 end) /\
    (forall c, In c new ->
       exists key, c = Extension.GlobalStateUpdate key None) /\
    (migrated' = false ->
       forall m, m ∈ ms -> Extension.globalState env !! m = None) /\
    (migrated = true -> migrated' = true).
Proof.
  revert migrated messages env.
  induction ms as [|m ms IH]; intros migrated messages env.
  - exists migrated, messages, (Extension.globalState env), [].
    split; [simpl; unfold ret; destruct env; simpl; by rewrite app_nil_r|].
    split; [done|]. split; [done|]. split; [intros c []|].
    split; [|done]. intros _ m Hm. by apply not_elem_of_nil in Hm.
  - cbn [Extension.migrate_messages]. cbv [bind read].
    destruct (Extension.globalState env !! m) as [b|] eqn:Hm.
    + cbv [Extension.globalState_delete].
      set (env1 := Extension.set_calls _ _).
      destruct (IH true (<[m := b]> messages) env1)
        as (migrated' & messages' & gs' & new & Hrun & Hgs & Hmsgs & Hnew
            & Hfalse & Htrue).
      rewrite Hrun. subst env1. extension_simpl.
      exists migrated', messages', gs',
        (Extension.GlobalStateUpdate m None :: new).
      split; [by rewrite <- app_assoc|].
      split; [|split; [|split; [|split]]].
      * intros k. rewrite Hgs.
        destruct (decide (k = m)) as [->|Hne].
        -- rewrite (bool_decide_eq_true_2 (m ∈ m :: ms)) by by left.
           rewrite lookup_delete_eq. by case_bool_decide.
        -- rewrite lookup_delete_ne by done.
           destruct (bool_decide (k ∈ ms)) eqn:Hk.
           ++ apply bool_decide_eq_true in Hk.
              by rewrite bool_decide_eq_true_2 by by right.
           ++ apply bool_decide_eq_false in Hk.
              rewrite bool_decide_eq_false_2; [done|].
              by intros [?|?]%elem_of_cons.
      * intros k. rewrite Hmsgs.
        destruct (decide (k = m)) as [->|Hne].
        -- rewrite (bool_decide_eq_true_2 (m ∈ m :: ms)) by by left.
           rewrite Hm, lookup_delete_eq, lookup_insert_eq.
           by case_bool_decide.
        -- rewrite lookup_delete_ne, lookup_insert_ne by done.
           destruct (bool_decide (k ∈ ms)) eqn:Hk.
           ++ apply bool_decide_eq_true in Hk.
              by rewrite bool_decide_eq_true_2 by by right.
           ++ apply bool_decide_eq_false in Hk.
              rewrite bool_decide_eq_false_2; [done|].
              by intros [?|?]%elem_of_cons.
      * intros c [<-|Hc]; [by eexists|by apply Hnew].
      * intros Hmig. by rewrite Htrue in Hmig.
      * intros _. by apply Htrue.
    + destruct (IH migrated messages env)
        as (migrated' & messages' & gs' & new & Hrun & Hgs & Hmsgs & Hnew
            & Hfalse & Htrue).
      rewrite Hrun. exists migrated', messages', gs', new.
      split; [done|].
      split; [|split; [|split; [done|split; [|done]]]].
      * intros k. rewrite Hgs.
        destruct (decide (k = m)) as [->|Hne].
        -- rewrite (bool_decide_eq_true_2 (m ∈ m :: ms)) by by left.
           by case_bool_decide.
        -- destruct (bool_decide (k ∈ ms)) eqn:Hk.
           ++ apply bool_decide_eq_true in Hk.
              by rewrite bool_decide_eq_true_2 by by right.
           ++ apply bool_decide_eq_false in Hk.
              rewrite bool_decide_eq_false_2; [done|].
              by intros [?|?]%elem_of_cons.
      * intros k. rewrite Hmsgs.
        destruct (decide (k = m)) as [->|Hne].
        -- rewrite (bool_decide_eq_true_2 (m ∈ m :: ms)) by by left.
           rewrite Hm. by case_bool_decide.
        -- destruct (bool_decide (k ∈ ms)) eqn:Hk.
           ++ apply bool_decide_eq_true in Hk.
              by rewrite bool_decide_eq_true_2 by by right.
           ++ apply bool_decide_eq_false in Hk.
              rewrite bool_decide_eq_false_2; [done|].
              by intros [?|?]%elem_of_cons.
      * intros Hmig k [->|Hk]%elem_of_cons; [done|]. by apply Hfalse.
Qed.

(** X27.  For a previous version not after 6.1.2 that left no
    suppressed-message flag in the global state, [migrateSettings]
    returns from inside the first migration without a single call: the
    second migration, of [closeOnFocusOut], is not reached, whatever the
    previous version and the inspection of the setting are. *)
Theorem migrateSettings_nothing_migrated (env : Extension.Env)
    (previous : string) :
  Extension.versions_compare env previous (6, 1, 2)%nat <> 1 ->
  (forall m, In m (Extension.suppressedMessages env) ->
     Extension.globalState env !! m = None) ->
  Extension.migrateSettings (Some previous) env = (Ok tt, env).
Proof.
  intros Hcmp Hnone. apply Z.eqb_neq in Hcmp.
  unfold Extension.migrateSettings, Extension.try_catch,
    Extension.migrate_suppressed, Extension.try_catch.
  cbv [bind read]. rewrite Hcmp. cbn [negb].
  by rewrite (migrate_messages_none _ false _ env Hnone).
Qed.

Lemma migrateSettings_nothing_migrated_witness :
  Extension.closeOnFocusOut extension_env
  = Some (Extension.mkInspection (Some true) None) /\
  Extension.versions_compare extension_env "6.0.0" (7, 1, 0)%nat <> 1 /\
  Extension.migrateSettings (Some "6.0.0") extension_env
  = (Ok tt, extension_env).
Proof.
  split; [reflexivity|]. split; [done|].
  apply (migrateSettings_nothing_migrated extension_env "6.0.0").
  - done.
  - intros m _. reflexivity.
Defined.

(** X28.  For a previous version not after 6.1.2, [migrateSettings]
    never throws; it takes every suppressed-message flag out of the
    global state and leaves the other keys alone; a messages object it
    writes goes to the global configuration and is the configured one
    with the flags found laid over it; and it writes one if it found a
    flag. *)
Theorem migrateSettings_moves_flags (env : Extension.Env)
    (previous : string) :
  Extension.versions_compare env previous (6, 1, 2)%nat <> 1 ->
  exists env' new,
    Extension.migrateSettings (Some previous) env = (Ok tt, env') /\
    Extension.calls env' = Extension.calls env ++ new /\
    (forall k,
       Extension.globalState env' !! k
       = if bool_decide (k ∈ Extension.suppressedMessages env) then None
         else Extension.globalState env !! k) /\
    (forall messages target,
       In (Extension.UpdateMessages messages target) new ->
       target = Extension.Global /\
       forall k,
         messages !! k
         = match (if bool_decide (k ∈ Extension.suppressedMessages env)
                  then Extension.globalState env !! k else None) with
           | Some b => Some b
           | None => Extension.advanced_messages env !! k
           end) /\
    ((exists m, m ∈ Extension.suppressedMessages env /\
                is_Some (Extension.globalState env !! m)) ->
     exists messages,
       In (Extension.UpdateMessages messages Extension.Global) new).
Proof.
  intros Hcmp. apply Z.eqb_neq in Hcmp.
  destruct (migrate_messages_spec (Extension.suppressedMessages env) false
              (Extension.advanced_messages env) env)
    as (migrated' & messages' & gs' & new & Hrun & Hgs & Hmsgs & Hnew
        & Hfalse & _).
  unfold Extension.migrateSettings, Extension.try_catch,
    Extension.migrate_suppressed, Extension.try_catch,
    Extension.migrate_closeOnFocusOut, Extension.configuration_update,
    Extension.call, lift_outcome.
  cbv [bind read ret]. rewrite Hcmp. cbn [negb]. rewrite Hrun.
  destruct env as [gs am sun cof sms vc ue cs]. extension_simpl.
  destruct migrated'; cbn [negb]; extension_simpl;
    repeat (case_match; extension_simpl); simplify_eq.
  all: eexists _, _; (split; [reflexivity|]); extension_simpl;
    rewrite <- ?app_assoc; (split; [reflexivity|]).
  all: split; [exact Hgs|].
  all: try congruence.
  all: split;
    [intros messages target Hin; rewrite ?in_app_iff in Hin;
     simpl in Hin;
     repeat match goal with
            | H : _ \/ _ |- _ => destruct H as [H|H]
            end;
     try done; try (apply Hnew in Hin as [? [=]]);
     simplify_eq; by split|].
  all: intros (m & Hm & Hsome).
  all: first
    [ exists messages'; apply in_or_app; right; by left
    | rewrite (Hfalse eq_refl m Hm) in Hsome; by destruct Hsome ].
Qed.

Lemma migrateSettings_moves_flags_witness :
  exists env',
    Extension.migrateSettings (Some "6.0.0") upgraded_env = (Ok tt, env') /\
    Extension.globalState env' = ∅ /\
    Extension.calls env'
    = [Extension.GlobalStateUpdate "suppressUpdateNotice" None;
       Extension.UpdateMessages
         {[ "suppressCommitHasNoPreviousCommitWarning" := false;
            "suppressUpdateNotice" := true ]}
         Extension.Global].
Proof.
  destruct (migrateSettings_moves_flags upgraded_env "6.0.0")
    as (env' & new & Hrun & _); [done|].
  exists env'. split; [exact Hrun|].
  vm_compute in Hrun. injection Hrun as <-. split; reflexivity.
Defined.

(** X29.  For a previous version after 6.1.2 and not after 7.1.0,
    [migrateSettings] never throws and leaves the global state and the
    messages alone; the only write of [closeOnFocusOut] it makes is of
    the inverted global value to the global configuration if there is
    one, and only if there is none of the inverted workspace-folder
    value to the workspace folder. *)
Theorem migrateSettings_inverts_closeOnFocusOut (env : Extension.Env)
    (previous : string) :
  Extension.versions_compare env previous (6, 1, 2)%nat = 1 ->
  Extension.versions_compare env previous (7, 1, 0)%nat <> 1 ->
  exists env' new,
    Extension.migrateSettings (Some previous) env = (Ok tt, env') /\
    Extension.calls env' = Extension.calls env ++ new /\
    Extension.globalState env' = Extension.globalState env /\
    (forall messages target,
       ~ In (Extension.UpdateMessages messages target) new) /\
    (forall value target,
       In (Extension.UpdateCloseOnFocusOut value target) new <->
       exists inspection,
         Extension.closeOnFocusOut env = Some inspection /\
         match Extension.globalValue inspection with
         | Some v => value = negb v /\ target = Extension.Global
         | None =>
             exists v,
               Extension.workspaceFolderValue inspection = Some v /\
               value = negb v /\ target = Extension.WorkspaceFolder
         end).
Proof.
  intros Hcmp1 Hcmp2. apply Z.eqb_eq in Hcmp1. apply Z.eqb_neq in Hcmp2.
  unfold Extension.migrateSettings, Extension.try_catch,
    Extension.migrate_closeOnFocusOut, Extension.configuration_update,
    Extension.call, lift_outcome.
  cbv [bind read ret]. rewrite Hcmp1, Hcmp2. cbn [negb].
  destruct env as [gs am sun cof sms vc ue cs]. extension_simpl.
  repeat (case_match; extension_simpl); simplify_eq.
  all: try congruence.
  all: first
    [ eexists _, []; split; [reflexivity|]; extension_simpl;
      split; [by rewrite app_nil_r|]
    | eexists _, _; (split; [reflexivity|]); extension_simpl;
      rewrite <- ?app_assoc; (split; [reflexivity|]) ].
  all: split; [reflexivity|].
  all: split; [intros messages target Hin; simpl in Hin;
               intuition discriminate|].
  all: intros value target;
    try match goal with
        | i : Extension.Inspection |- _ =>
            destruct i as [gv wv];
            cbn [Extension.globalValue Extension.workspaceFolderValue] in *;
            subst
        end.
  all: split;
    [ intros Hin; simpl in Hin;
      repeat match goal with
             | H : _ \/ _ |- _ => destruct H as [H|H]
             end;
      try done; simplify_eq; eexists; (split; [reflexivity|]);
      cbn [Extension.globalValue Extension.workspaceFolderValue]; eauto
    | intros (i' & Heq & Hm); simplify_eq;
      cbn [Extension.globalValue Extension.workspaceFolderValue] in Hm;
      try destruct Hm as (v & Hv & Hm); try destruct Hm as [-> ->];
      simplify_eq; simpl; auto ].
Qed.

Lemma migrateSettings_inverts_closeOnFocusOut_witness :
  exists env',
    Extension.migrateSettings (Some "7.0.0") between_env = (Ok tt, env') /\
    Extension.calls env'
    = [Extension.UpdateCloseOnFocusOut true Extension.WorkspaceFolder].
Proof.
  destruct (migrateSettings_inverts_closeOnFocusOut between_env "7.0.0")
    as (env' & new & Hrun & _); [done|done|].
  exists env'. split; [exact Hrun|].
  vm_compute in Hrun. injection Hrun as <-. reflexivity.
Defined.
